(** * Notes MCP server (src/index.ts): a shallow embedding and its properties

    The server keeps one module-level [Map<string, Note>] and registers three
    request handlers that touch it: [CallToolRequestSchema] (the six tools,
    wrapped in one try/catch), [ReadResourceRequestSchema] (two views) and
    [GetPromptRequestSchema] (two templates).

    Representation choices.
    - A JavaScript string is a Rocq [string] holding its UTF-8 bytes (so a
      well-formed string, without lone surrogates).
    - A JavaScript value that can reach the handlers comes out of the JSON
      request, so it is one of the JSON shapes or [undefined].
    - A number is identified by its [Number::toString] rendering: truthiness,
      SameValueZero, template interpolation and [JSON.stringify] -- the only
      things the handlers do to a number -- all factor through it (+0 and -0
      both render as "0").
    - The [Map] is an association list in insertion order.
    - [Date.now()] / [new Date()] read an oracle: the stream of all clock
      readings of the process, and a cursor into it. *)

From Stdlib Require Import ZArith Ascii String List Lia Bool.
From stdpp Require Import base tactics option list strings pretty.

Set Warnings "-register-all".
Local Open Scope string_scope.
Local Open Scope list_scope.
Local Open Scope Z_scope.

(** ** JavaScript values *)

Inductive JsVal : Type :=
| JUndefined
| JNull
| JBool (b : bool)
| JNum (rendering : string)
| JStr (s : string)
| JArr (items : list JsVal)
| JObj (props : list (string * JsVal)).

(** Own properties of a plain object, in enumeration order. *)
Definition Obj : Type := list (string * JsVal).

Fixpoint own_prop (o : Obj) (key : string) : option JsVal :=
  match o with
  | [] => None
  | (k, v) :: rest => if String.eqb k key then Some v else own_prop rest key
  end.

(** [args?.key]: [request.params.arguments] is either absent or a plain
    object; a missing property reads as [undefined]. *)
Definition opt_get (args : option Obj) (key : string) : JsVal :=
  match args with
  | None => JUndefined
  | Some o => match own_prop o key with Some v => v | None => JUndefined end
  end.

(** ToBoolean. *)
Definition truthy (v : JsVal) : bool :=
  match v with
  | JUndefined | JNull => false
  | JBool b => b
  | JNum r => negb (String.eqb r "0" || String.eqb r "NaN")
  | JStr s => negb (String.eqb s "")
  | JArr _ | JObj _ => true
  end.

(** SameValueZero, the equality of [Array.prototype.includes], of [Set] and
    of [Map] keys.  Objects and arrays are compared by identity; every object
    the handlers compare was parsed from a different place of a request, so
    no two of them are the same object. *)
Definition same_value_zero (a b : JsVal) : bool :=
  match a, b with
  | JUndefined, JUndefined => true
  | JNull, JNull => true
  | JBool x, JBool y => Bool.eqb x y
  | JNum x, JNum y => String.eqb x y
  | JStr x, JStr y => String.eqb x y
  | _, _ => false
  end.

(** ** Exceptions *)

(** The method calls whose receiver comes out of a request or of a stored
    Note, by their place in the source. *)
Inductive CallSite : Type :=
| query_toLowerCase       (* (args?.query as string).toLowerCase()   l. 289 *)
| title_toLowerCase       (* note.title.toLowerCase()                l. 292 *)
| content_toLowerCase     (* note.content.toLowerCase()              l. 293 *)
| tags_includes           (* note.tags.includes(tag)           l. 212, 431 *)
| tags_join.              (* note.tags.join(', ')                    l. 454 *)

(** The two values that have no properties at all. *)
Inductive Nullish : Type := Undefined | Null.

(** What the engine found wrong when it raised a [TypeError]: where, and for
    a receiver without properties which of the two it was. *)
Inductive Fault : Type :=
| NotAFunction (site : CallSite)                       (* x.m(...), x.m not callable *)
| ReadOfNullish (receiver : Nullish) (site : CallSite) (* x.m, x undefined or null *)
| NoPrimitiveValue.                                    (* ToPrimitive found nothing callable *)

Inductive Exn : Type :=
| Error (message : string)              (* throw new Error(message) *)
| TypeError (fault : Fault).

(** ** The engine *)

(** Case mapping of the ASCII letters: what [String.prototype.toLowerCase]
    does to a string of ASCII characters. *)
Definition lower_ascii (c : ascii) : ascii :=
  let n := nat_of_ascii c in
  if ((65 <=? n) && (n <=? 90))%nat then ascii_of_nat (n + 32) else c.

Fixpoint lower_string (s : string) : string :=
  match s with
  | EmptyString => EmptyString
  | String c r => String (lower_ascii c) (lower_string r)
  end.

(** The string holds ASCII characters only: every byte is below 128. *)
Fixpoint ascii_only (s : string) : bool :=
  match s with
  | EmptyString => true
  | String c r => (nat_of_ascii c <? 128)%nat && ascii_only r
  end.

(** The part of the JavaScript engine the embedding does not fix: the case
    mapping of the characters outside ASCII and the wording of the engine's
    own error messages.  On ASCII text [toLowerCase] is the same in every
    engine (it does not depend on the locale): 'A'..'Z' become 'a'..'z' and
    nothing else changes. *)
Class Engine : Type := {
  toLowerCase : string -> string;
  toLowerCase_ascii : forall s, ascii_only s = true -> toLowerCase s = lower_string s;
  fault_message : Fault -> string
}.

(** [error.message]. *)
Definition exn_message `{Engine} (e : Exn) : string :=
  match e with
  | Error m => m
  | TypeError f => fault_message f
  end.

(** A computation that returns or throws. *)
Inductive Outcome (A : Type) : Type :=
| Returned (a : A)
| Thrown (e : Exn).
Arguments Returned {A} a.
Arguments Thrown {A} e.

Definition obind {A B} (m : Outcome A) (k : A -> Outcome B) : Outcome B :=
  match m with
  | Returned a => k a
  | Thrown e => Thrown e
  end.

Notation "'let!' x ':=' m 'in' k" := (obind m (fun x => k))
  (at level 10, x name, m at level 100, k at level 200).

(** [xs.map(f)] with a callback that may throw. *)
Fixpoint map_o {A B} (f : A -> Outcome B) (xs : list A) : Outcome (list B) :=
  match xs with
  | [] => Returned []
  | x :: rest =>
      let! y := f x in
      let! ys := map_o f rest in
      Returned (y :: ys)
  end.

(** [xs.filter(p)] with a callback that may throw. *)
Fixpoint filter_o {A} (p : A -> Outcome bool) (xs : list A) : Outcome (list A) :=
  match xs with
  | [] => Returned []
  | x :: rest =>
      let! keep := p x in
      let! ys := filter_o p rest in
      Returned (if keep then x :: ys else ys)
  end.

(** ** Strings *)

(** [sep]-separated concatenation, [Array.prototype.join] on strings. *)
Fixpoint join (sep : string) (parts : list string) : string :=
  match parts with
  | [] => ""
  | [p] => p
  | p :: rest => p +:+ sep +:+ join sep rest
  end.

Fixpoint starts_with (s sub : string) : bool :=
  match sub, s with
  | EmptyString, _ => true
  | String _ _, EmptyString => false
  | String c sub', String d s' => Ascii.eqb c d && starts_with s' sub'
  end.

(** [s.includes(sub)] for strings. *)
Fixpoint str_includes (s sub : string) : bool :=
  starts_with s sub ||
  match s with
  | EmptyString => false
  | String _ s' => str_includes s' sub
  end.

(** ToString, as a template literal or [join] applies it.  A plain object
    renders through [Object.prototype.toString] unless an own property
    shadows it with something that is not callable. *)
Fixpoint to_string (v : JsVal) : Outcome string :=
  match v with
  | JUndefined => Returned "undefined"
  | JNull => Returned "null"
  | JBool true => Returned "true"
  | JBool false => Returned "false"
  | JNum r => Returned r
  | JStr s => Returned s
  | JArr items =>
      let! parts :=
        (fix each (xs : list JsVal) : Outcome (list string) :=
           match xs with
           | [] => Returned []
           | x :: rest =>
               let! p := match x with
                         | JUndefined | JNull => Returned ""
                         | _ => to_string x
                         end in
               let! ps := each rest in
               Returned (p :: ps)
           end) items in
      Returned (join "," parts)
  | JObj props =>
      match own_prop props "toString" with
      | Some _ => Thrown (TypeError NoPrimitiveValue)
      | None => Returned "[object Object]"
      end
  end.

(** The element conversion of [Array.prototype.join]. *)
Definition join_item (v : JsVal) : Outcome string :=
  match v with
  | JUndefined | JNull => Returned ""
  | _ => to_string v
  end.

(** [xs.join(sep)] on an array of values. *)
Definition arr_join (sep : string) (xs : list JsVal) : Outcome string :=
  let! parts := map_o join_item xs in
  Returned (join sep parts).

(** ** [String.prototype.trim] *)

(** One-byte white space and line terminators: TAB, LF, VT, FF, CR, SP. *)
Definition space1 (c : ascii) : bool :=
  let n := nat_of_ascii c in
  ((9 <=? n) && (n <=? 13) || (n =? 32))%nat.

(** U+00A0, in UTF-8. *)
Definition space2 (c d : ascii) : bool :=
  ((nat_of_ascii c =? 194) && (nat_of_ascii d =? 160))%nat.

(** U+1680, U+2000..U+200A, U+2028, U+2029, U+202F, U+205F, U+3000 and
    U+FEFF, in UTF-8. *)
Definition space3 (c d e : ascii) : bool :=
  let c := nat_of_ascii c in
  let d := nat_of_ascii d in
  let e := nat_of_ascii e in
  ((c =? 225) && (d =? 154) && (e =? 128)
   || (c =? 226) && (d =? 128)
      && ((128 <=? e) && (e <=? 138) || (e =? 168) || (e =? 169) || (e =? 175))
   || (c =? 226) && (d =? 129) && (e =? 159)
   || (c =? 227) && (d =? 128) && (e =? 128)
   || (c =? 239) && (d =? 187) && (e =? 191))%nat.

Fixpoint trim_start_bytes (s : list ascii) : list ascii :=
  match s with
  | [] => []
  | c :: r =>
      if space1 c then trim_start_bytes r
      else
        match r with
        | [] => s
        | d :: r2 =>
            if space2 c d then trim_start_bytes r2
            else
              match r2 with
              | [] => s
              | e :: r3 => if space3 c d e then trim_start_bytes r3 else s
              end
        end
  end.

(** The same scan from the end of the string: the bytes arrive reversed. *)
Fixpoint trim_end_rev (s : list ascii) : list ascii :=
  match s with
  | [] => []
  | e :: r =>
      if space1 e then trim_end_rev r
      else
        match r with
        | [] => s
        | d :: r2 =>
            if space2 d e then trim_end_rev r2
            else
              match r2 with
              | [] => s
              | c :: r3 => if space3 c d e then trim_end_rev r3 else s
              end
        end
  end.

Definition trim_start (s : string) : string :=
  string_of_list_ascii (trim_start_bytes (list_ascii_of_string s)).

Definition trim_end (s : string) : string :=
  string_of_list_ascii (rev (trim_end_rev (rev (list_ascii_of_string s)))).

Definition trim (s : string) : string := trim_end (trim_start s).

(** ** Characters the source writes with an escape *)

Definition nl : string := String (ascii_of_nat 10) "".
Definition dquote : string := String (ascii_of_nat 34) "".

(** ** [JSON.stringify(value, null, 2)] *)

Definition hex_digit (n : nat) : ascii :=
  match n with
  | 10%nat => "a" | 11%nat => "b" | 12%nat => "c"
  | 13%nat => "d" | 14%nat => "e" | 15%nat => "f"
  | _ => ascii_of_nat (48 + n)
  end%char.

Definition quote_char (c : ascii) : string :=
  let n := nat_of_ascii c in
  if (n =? 8)%nat then "\b"
  else if (n =? 9)%nat then "\t"
  else if (n =? 10)%nat then "\n"
  else if (n =? 12)%nat then "\f"
  else if (n =? 13)%nat then "\r"
  else if (n =? 34)%nat then "\" +:+ dquote
  else if (n =? 92)%nat then "\\"
  else if (n <? 32)%nat then
    "\u00" +:+ String (hex_digit (n / 16)) (String (hex_digit (n mod 16)) "")
  else String c "".

Fixpoint quote_chars (s : string) : string :=
  match s with
  | EmptyString => ""
  | String c r => quote_char c +:+ quote_chars r
  end.

(** QuoteJSONString. *)
Definition quote (s : string) : string := dquote +:+ quote_chars s +:+ dquote.

Definition wrap (open close indent inner : string) (parts : list string) : string :=
  match parts with
  | [] => open +:+ close
  | _ => open +:+ nl +:+ inner +:+ join ("," +:+ nl +:+ inner) parts
         +:+ nl +:+ indent +:+ close
  end.

(** SerializeJSONProperty with a gap of two spaces; [None] is the
    [undefined] result, which drops a property and prints as [null] inside
    an array. *)
Fixpoint serialize (indent : string) (v : JsVal) : option string :=
  match v with
  | JUndefined => None
  | JNull => Some "null"
  | JBool true => Some "true"
  | JBool false => Some "false"
  | JNum r =>
      Some (if String.eqb r "NaN" || String.eqb r "Infinity"
               || String.eqb r "-Infinity" then "null" else r)
  | JStr s => Some (quote s)
  | JArr items =>
      let inner := indent +:+ "  " in
      Some (wrap "[" "]" indent inner
        ((fix each (xs : list JsVal) : list string :=
            match xs with
            | [] => []
            | x :: rest =>
                match serialize inner x with
                | Some t => t
                | None => "null"
                end :: each rest
            end) items))
  | JObj props =>
      let inner := indent +:+ "  " in
      Some (wrap "{" "}" indent inner
        ((fix each (ps : list (string * JsVal)) : list string :=
            match ps with
            | [] => []
            | (k, x) :: rest =>
                match serialize inner x with
                | Some t => (quote k +:+ ": " +:+ t) :: each rest
                | None => each rest
                end
            end) props))
  end.

(** The handlers only serialise arrays and Note objects, for which the
    result is always a string. *)
Definition JSON_stringify (v : JsVal) : string :=
  match serialize "" v with
  | Some t => t
  | None => "undefined"
  end.

(** ** [Date] *)

(** Decimal digits of a non-negative [n], zero-padded to [width]. *)
Definition pad (width : nat) (n : Z) : string :=
  let digits := pretty n in
  string_of_list_ascii
    (replicate (width - String.length digits) "0"%char) +:+ digits.

(** Year, month and day of the proleptic Gregorian calendar for a day number
    counted from 1970-01-01. *)
Definition civil_from_days (day : Z) : Z * Z * Z :=
  let z := day + 719468 in
  let era := z / 146097 in
  let doe := z - era * 146097 in
  let yoe := (doe - doe / 1460 + doe / 36524 - doe / 146096) / 365 in
  let doy := doe - (365 * yoe + yoe / 4 - yoe / 100) in
  let mp := (5 * doy + 2) / 153 in
  let d := doy - (153 * mp + 2) / 5 + 1 in
  let m := if mp <? 10 then mp + 3 else mp - 9 in
  let y := yoe + era * 400 in
  (if m <=? 2 then y + 1 else y, m, d).

(** [new Date(t).toISOString()] for a time value [t] in milliseconds. *)
Definition toISOString (t : Z) : string :=
  let '(y, m, d) := civil_from_days (t / 86400000) in
  let ms := t mod 86400000 in
  let year :=
    if (0 <=? y) && (y <=? 9999) then pad 4 y
    else (if y <? 0 then "-" else "+") +:+ pad 6 (Z.abs y) in
  year +:+ "-" +:+ pad 2 m +:+ "-" +:+ pad 2 d
  +:+ "T" +:+ pad 2 (ms / 3600000)
  +:+ ":" +:+ pad 2 (ms / 60000 mod 60)
  +:+ ":" +:+ pad 2 (ms / 1000 mod 60)
  +:+ "." +:+ pad 3 (ms mod 1000) +:+ "Z".

(** ** [Map<string, V>]: entries in insertion order *)

Module JsMap.
Section Ops.
Context {V : Type}.

Fixpoint get (k : string) (m : list (string * V)) : option V :=
  match m with
  | [] => None
  | (k', v) :: rest => if String.eqb k' k then Some v else get k rest
  end.

Definition has (k : string) (m : list (string * V)) : bool :=
  match get k m with Some _ => true | None => false end.

(** An existing key keeps its place, a new one goes last. *)
Fixpoint set (k : string) (v : V) (m : list (string * V)) : list (string * V) :=
  match m with
  | [] => [(k, v)]
  | (k', v') :: rest =>
      if String.eqb k' k then (k, v) :: rest else (k', v') :: set k v rest
  end.

Definition delete (k : string) (m : list (string * V)) : list (string * V) :=
  List.filter (fun e => negb (String.eqb (fst e) k)) m.

Definition keys (m : list (string * V)) : list string := List.map fst m.

(** [Array.from(m.values())]. *)
Definition values (m : list (string * V)) : list V := List.map snd m.
End Ops.
End JsMap.

(** ** The data model *)

Module Note.
(** [interface Note].  The three fields filled from the request hold
    whatever value the request carried: the casts [as string] and
    [as string[]] are erased at run time. *)
Record t : Type := make {
  id : string;
  title : JsVal;
  content : JsVal;
  tags : JsVal;
  createdAt : string;
  updatedAt : string
}.

Definition with_title (v : JsVal) (n : t) : t :=
  make (id n) v (content n) (tags n) (createdAt n) (updatedAt n).
Definition with_content (v : JsVal) (n : t) : t :=
  make (id n) (title n) v (tags n) (createdAt n) (updatedAt n).
Definition with_tags (v : JsVal) (n : t) : t :=
  make (id n) (title n) (content n) v (createdAt n) (updatedAt n).
Definition with_updatedAt (s : string) (n : t) : t :=
  make (id n) (title n) (content n) (tags n) (createdAt n) s.

(** The object as [JSON.stringify] sees it. *)
Definition to_js (n : t) : JsVal :=
  JObj [("id", JStr (id n)); ("title", title n); ("content", content n);
        ("tags", tags n); ("createdAt", JStr (createdAt n));
        ("updatedAt", JStr (updatedAt n))].
End Note.

(** The process: the module-level [notes] map and the system clock, of which
    [reads] readings have been taken so far. *)
Record World : Type := mkWorld {
  notes : list (string * Note.t);
  clock : nat -> Z;
  reads : nat
}.

(** The process as [main] starts it. *)
Definition start (clk : nat -> Z) : World := mkWorld [] clk 0.

(** ** Handler bodies: state and exceptions *)

Definition M (A : Type) : Type := World -> Outcome A * World.

Definition ret {A} (a : A) : M A := fun w => (Returned a, w).
Definition throw {A} (e : Exn) : M A := fun w => (Thrown e, w).
Definition bind {A B} (m : M A) (k : A -> M B) : M B :=
  fun w =>
    match m w with
    | (Returned a, w') => k a w'
    | (Thrown e, w') => (Thrown e, w')
    end.
Definition lift {A} (o : Outcome A) : M A := fun w => (o, w).

(** [try { body } catch (error) { handler }]. *)
Definition try_catch {A} (body : M A) (handler : Exn -> M A) : M A :=
  fun w =>
    match body w with
    | (Returned a, w') => (Returned a, w')
    | (Thrown error, w') => handler error w'
    end.

Notation "'do!' x <- m ; k" := (bind m (fun x => k))
  (at level 10, x name, m at level 100, k at level 200).
Notation "'run!' m ; k" := (bind m (fun _ => k))
  (at level 10, m at level 100, k at level 200).

Definition get_notes : M (list (string * Note.t)) :=
  fun w => (Returned (notes w), w).
Definition put_notes (m : list (string * Note.t)) : M unit :=
  fun w => (Returned tt, mkWorld m (clock w) (reads w)).

(** [Date.now()]. *)
Definition Date_now : M Z :=
  fun w => (Returned (clock w (reads w)), mkWorld (notes w) (clock w) (S (reads w))).

(** [new Date().toISOString()]. *)
Definition new_Date_toISOString : M string :=
  do! t <- Date_now; ret (toISOString t).

(** [notes.get(id)] for an [id] taken from the request: the keys are
    strings, so only a string can be found. *)
Definition notes_get (id : JsVal) (m : list (string * Note.t)) : option Note.t :=
  match id with
  | JStr k => JsMap.get k m
  | _ => None
  end.

(** ** Method calls on request values *)

(** [note.tags.includes(tag)] on the stored value [recv]:
    [Array.prototype.includes] or [String.prototype.includes], whichever the
    receiver has. *)
Definition call_includes (recv arg : JsVal) : Outcome bool :=
  match recv with
  | JArr items => Returned (existsb (fun x => same_value_zero x arg) items)
  | JStr s => let! sub := to_string arg in Returned (str_includes s sub)
  | JUndefined => Thrown (TypeError (ReadOfNullish Undefined tags_includes))
  | JNull => Thrown (TypeError (ReadOfNullish Null tags_includes))
  | _ => Thrown (TypeError (NotAFunction tags_includes))
  end.

(** [note.tags.join(sep)] on the stored value [recv]: only arrays have it. *)
Definition call_join (recv : JsVal) (sep : string) : Outcome string :=
  match recv with
  | JArr items => arr_join sep items
  | JUndefined => Thrown (TypeError (ReadOfNullish Undefined tags_join))
  | JNull => Thrown (TypeError (ReadOfNullish Null tags_join))
  | _ => Thrown (TypeError (NotAFunction tags_join))
  end.

(** [allNotes.flatMap((note) => note.tags)]: an array result is spliced in,
    anything else is one element. *)
Definition flat_tags (ns : list Note.t) : list JsVal :=
  flat_map (fun n => match Note.tags n with JArr xs => xs | v => [v] end) ns.

(** [new Set(xs)], as the list of its elements in insertion order. *)
Definition set_add (acc : list JsVal) (x : JsVal) : list JsVal :=
  if existsb (fun y => same_value_zero y x) acc then acc else acc ++ [x].
Definition new_Set (xs : list JsVal) : list JsVal := fold_left set_add xs [].

(** ** Response shapes *)

Record TextContent : Type := { type : string; text : string }.

Module Tool.
Record Result : Type := { content : list TextContent; isError : option bool }.
End Tool.

Module Resource.
Record Contents : Type := { uri : string; mimeType : string; text : string }.
Record Result : Type := { contents : list Contents }.
End Resource.

Module Prompt.
Record Message : Type := { role : string; content : TextContent }.
Record Result : Type := { messages : list Message }.
End Prompt.

(** [{ content: [{ type: 'text', text }] }]. *)
Definition text_result (s : string) : Tool.Result :=
  {| Tool.content := [{| type := "text"; text := s |}]; Tool.isError := None |}.

(** The object the catch block returns. *)
Definition error_result (s : string) : Tool.Result :=
  {| Tool.content := [{| type := "text"; text := s |}]; Tool.isError := Some true |}.

(** ** The request handlers *)

Section Handlers.
Context {engine : Engine}.

(** [recv.toLowerCase()] at the call [site]: only strings have it. *)
Definition call_toLowerCase (site : CallSite) (recv : JsVal) : Outcome string :=
  match recv with
  | JStr s => Returned (toLowerCase s)
  | JUndefined => Thrown (TypeError (ReadOfNullish Undefined site))
  | JNull => Thrown (TypeError (ReadOfNullish Null site))
  | _ => Thrown (TypeError (NotAFunction site))
  end.

(** [throw new Error(`Note with ID ${id} not found`)]. *)
Definition not_found {A} (id : JsVal) : M A :=
  do! s <- lift (to_string id);
  throw (Error ("Note with ID " +:+ s +:+ " not found")).

Definition create_note (args : option Obj) : M Tool.Result :=
  do! now <- Date_now;
  let id := pretty now in
  let title := opt_get args "title" in
  let content := opt_get args "content" in
  let tags := if truthy (opt_get args "tags") then opt_get args "tags" else JArr [] in
  do! createdAt <- new_Date_toISOString;
  do! updatedAt <- new_Date_toISOString;
  let note := Note.make id title content tags createdAt updatedAt in
  do! m <- get_notes;
  run! put_notes (JsMap.set id note m);
  ret (text_result ("Note created successfully with ID: " +:+ id)).

Definition list_notes (args : option Obj) : M Tool.Result :=
  let tag := opt_get args "tag" in
  do! m <- get_notes;
  let filteredNotes := JsMap.values m in
  do! filteredNotes <-
    (if truthy tag
     then lift (filter_o (fun note => call_includes (Note.tags note) tag) filteredNotes)
     else ret filteredNotes);
  ret (text_result (JSON_stringify (JArr (List.map Note.to_js filteredNotes)))).

Definition get_note (args : option Obj) : M Tool.Result :=
  let id := opt_get args "id" in
  do! m <- get_notes;
  match notes_get id m with
  | None => not_found id
  | Some note => ret (text_result (JSON_stringify (Note.to_js note)))
  end.

Definition update_note (args : option Obj) : M Tool.Result :=
  let id := opt_get args "id" in
  do! m <- get_notes;
  match id, notes_get id m with
  | JStr key, Some note =>
      let note := if truthy (opt_get args "title")
                  then Note.with_title (opt_get args "title") note else note in
      let note := if truthy (opt_get args "content")
                  then Note.with_content (opt_get args "content") note else note in
      let note := if truthy (opt_get args "tags")
                  then Note.with_tags (opt_get args "tags") note else note in
      do! now <- new_Date_toISOString;
      let note := Note.with_updatedAt now note in
      run! put_notes (JsMap.set key note m);
      ret (text_result ("Note " +:+ key +:+ " updated successfully"))
  | _, _ => not_found id
  end.

Definition delete_note (args : option Obj) : M Tool.Result :=
  let id := opt_get args "id" in
  do! m <- get_notes;
  match id with
  | JStr key =>
      if JsMap.has key m then
        run! put_notes (JsMap.delete key m);
        ret (text_result ("Note " +:+ key +:+ " deleted successfully"))
      else not_found id
  | _ => not_found id
  end.

(** The filter callback of [search_notes]; [||] evaluates the content only
    when the title does not match. *)
Definition matches_query (query : string) (note : Note.t) : Outcome bool :=
  let! t := call_toLowerCase title_toLowerCase (Note.title note) in
  if str_includes t query then Returned true
  else
    let! c := call_toLowerCase content_toLowerCase (Note.content note) in
    Returned (str_includes c query).

Definition search_notes (args : option Obj) : M Tool.Result :=
  do! query <- lift (call_toLowerCase query_toLowerCase (opt_get args "query"));
  do! m <- get_notes;
  do! results <- lift (filter_o (matches_query query) (JsMap.values m));
  ret (text_result (JSON_stringify (JArr (List.map Note.to_js results)))).

(** The [switch (name)] inside the [try]. *)
Definition tool_body (name : string) (args : option Obj) : M Tool.Result :=
  if String.eqb name "create_note" then create_note args
  else if String.eqb name "list_notes" then list_notes args
  else if String.eqb name "get_note" then get_note args
  else if String.eqb name "update_note" then update_note args
  else if String.eqb name "delete_note" then delete_note args
  else if String.eqb name "search_notes" then search_notes args
  else throw (Error ("Unknown tool: " +:+ name)).

(** The [CallToolRequestSchema] handler: the body under its [catch]. *)
Definition call_tool (name : string) (args : option Obj) (w : World)
  : Tool.Result * World :=
  match tool_body name args w with
  | (Returned r, w') => (r, w')
  | (Thrown error, w') => (error_result ("Error: " +:+ exn_message error), w')
  end.

(** The same handler as the function the protocol layer calls: like the
    other two handlers it may return or throw.  Its statements all stand
    inside the [try]; whatever is thrown there is an [Error] (the engine's
    [TypeError]s are), so the [catch] block takes its [message].
    [call_tool] above is the result and the world of this function where it
    returns. *)
Definition CallToolRequest (name : string) (args : option Obj) : M Tool.Result :=
  try_catch (tool_body name args)
    (fun error => ret (error_result ("Error: " +:+ exn_message error))).

(** The text of [notes://summary]. *)
Definition summary_text (w : World) : Outcome string :=
  let allNotes := JsMap.values (notes w) in
  let totalNotes := List.length allNotes in
  let allTags := new_Set (flat_tags allNotes) in
  let! joined := arr_join ", " allTags in
  Returned (trim
    (nl +:+ "Notes Summary" +:+ nl +:+ "=============" +:+ nl
     +:+ "Total notes: " +:+ pretty totalNotes +:+ nl
     +:+ "Unique tags: " +:+ pretty (List.length allTags) +:+ nl
     +:+ "Tags: " +:+ (if String.eqb joined "" then "none" else joined) +:+ nl
     +:+ "      ")).

(** The [ReadResourceRequestSchema] handler.  It has no [try]: what it
    throws leaves the handler and reaches the protocol layer. *)
Definition read_resource (uri : string) (w : World) : Outcome Resource.Result :=
  if String.eqb uri "notes://all" then
    Returned {| Resource.contents :=
      [{| Resource.uri := uri; Resource.mimeType := "application/json";
          Resource.text :=
            JSON_stringify (JArr (List.map Note.to_js (JsMap.values (notes w)))) |}] |}
  else if String.eqb uri "notes://summary" then
    let! summary := summary_text w in
    Returned {| Resource.contents :=
      [{| Resource.uri := uri; Resource.mimeType := "text/plain";
          Resource.text := summary |}] |}
  else Thrown (Error ("Unknown resource: " +:+ uri)).

Definition user_message (s : string) : Prompt.Result :=
  {| Prompt.messages :=
       [{| Prompt.role := "user";
           Prompt.content := {| type := "text"; text := s |} |}] |}.

Definition summarize_line (note : Note.t) : Outcome string :=
  let! t := to_string (Note.title note) in
  let! c := to_string (Note.content note) in
  Returned ("- " +:+ t +:+ ": " +:+ c).

Definition organize_block (note : Note.t) : Outcome string :=
  let! t := to_string (Note.title note) in
  let! c := to_string (Note.content note) in
  let! g := call_join (Note.tags note) ", " in
  Returned ("ID: " +:+ Note.id note +:+ nl +:+ "Title: " +:+ t +:+ nl
            +:+ "Content: " +:+ c +:+ nl +:+ "Tags: " +:+ g +:+ nl).

(** The [GetPromptRequestSchema] handler, also without a [try]. *)
Definition get_prompt (name : string) (args : option Obj) (w : World)
  : Outcome Prompt.Result :=
  if String.eqb name "summarize_notes" then
    let tag := opt_get args "tag" in
    let filteredNotes := JsMap.values (notes w) in
    let! filteredNotes :=
      (if truthy tag
       then filter_o (fun note => call_includes (Note.tags note) tag) filteredNotes
       else Returned filteredNotes) in
    let! lines := map_o summarize_line filteredNotes in
    let notesText := join nl lines in
    let! tagged :=
      (if truthy tag
       then let! t := to_string tag in
            Returned (" tagged with " +:+ dquote +:+ t +:+ dquote)
       else Returned "") in
    Returned (user_message
      ("Please summarize the following notes" +:+ tagged +:+ ":" +:+ nl +:+ nl
       +:+ notesText))
  else if String.eqb name "organize_notes" then
    let allNotes := JsMap.values (notes w) in
    let! blocks := map_o organize_block allNotes in
    let notesText := join (nl +:+ "---" +:+ nl) blocks in
    Returned (user_message
      ("Here are all my notes:" +:+ nl +:+ nl +:+ notesText +:+ nl +:+ nl
       +:+ "Please suggest:" +:+ nl +:+ "1. Better tags for organization" +:+ nl
       +:+ "2. Notes that could be merged" +:+ nl
       +:+ "3. Missing categories or topics"))
  else Thrown (Error ("Unknown prompt: " +:+ name)).

End Handlers.

(** ** An engine to run the handlers with

    Error messages worded as V8 words them; characters outside ASCII are
    left as they are by the case mapping, so this engine stands for a real
    one on ASCII text only. *)

(** The callee as V8 prints it: a chain of property names as written, any
    other receiver expression as "(intermediate value)". *)
Definition callee_text (site : CallSite) : string :=
  match site with
  | query_toLowerCase => "(intermediate value).toLowerCase"
  | title_toLowerCase => "note.title.toLowerCase"
  | content_toLowerCase => "note.content.toLowerCase"
  | tags_includes => "note.tags.includes"
  | tags_join => "note.tags.join"
  end.

(** The property that was read at the call. *)
Definition method_name (site : CallSite) : string :=
  match site with
  | query_toLowerCase | title_toLowerCase | content_toLowerCase => "toLowerCase"
  | tags_includes => "includes"
  | tags_join => "join"
  end.

Definition v8_message (f : Fault) : string :=
  match f with
  | NotAFunction site => callee_text site +:+ " is not a function"
  | ReadOfNullish receiver site =>
      "Cannot read properties of "
      +:+ match receiver with Undefined => "undefined" | Null => "null" end
      +:+ " (reading '" +:+ method_name site +:+ "')"
  | NoPrimitiveValue => "Cannot convert object to primitive value"
  end.

Definition ascii_engine : Engine :=
  {| toLowerCase := lower_string;
     toLowerCase_ascii := fun s _ => eq_refl;
     fault_message := v8_message |}.

(** A clock that advances one millisecond per reading. *)
Definition ticking (t0 : Z) (i : nat) : Z := t0 + Z.of_nat i.

(** Serving a sequence of tool calls, and the argument bag of a well-formed
    [create_note]. *)
Definition serve (calls : list (string * option Obj)) (w : World) : World :=
  fold_left (fun w call => snd (call_tool (engine := ascii_engine) (fst call) (snd call) w))
    calls w.

Definition create_args (title content : string) (tags : list string) : option Obj :=
  Some [("title", JStr title); ("content", JStr content);
        ("tags", JArr (List.map JStr tags))].

(** The worlds of the examples: each is what the process holds after the
    [create_note] calls shown, started at 2023-11-14T22:13:20Z. *)
Definition two_notes : World :=
  serve [("create_note", create_args "A" "x" ["t1"]);
         ("create_note", create_args "B" "y" ["t2"])]
    (start (ticking 1700000000000)).

Definition three_notes : World :=
  serve [("create_note", create_args "A" "x" ["work"]);
         ("create_note", create_args "B" "y" ["work"]);
         ("create_note", create_args "C" "z" ["personal"])]
    (start (ticking 1700000000000)).

Definition one_note (tag : string) : World :=
  serve [("create_note", create_args "A" "x" [tag])]
    (start (ticking 1700000000000)).

(** One Note, created by a request. *)
Definition after_create : World := one_note "t1".

Definition first_note : Note.t :=
  Note.make "1700000000000" (JStr "A") (JStr "x") (JArr [JStr "t1"])
    "2023-11-14T22:13:20.001Z" "2023-11-14T22:13:20.002Z".

Definition second_note : Note.t :=
  Note.make "1700000000003" (JStr "B") (JStr "y") (JArr [JStr "t2"])
    "2023-11-14T22:13:20.004Z" "2023-11-14T22:13:20.005Z".

(** * What the properties are stated with *)

(** ** Results of single runs *)

(** The Note that [create_note] builds in world [w] from [args]. *)
Definition created (args : option Obj) (w : World) : Note.t :=
  Note.make (pretty (clock w (reads w)))
    (opt_get args "title") (opt_get args "content")
    (if truthy (opt_get args "tags") then opt_get args "tags" else JArr [])
    (toISOString (clock w (S (reads w))))
    (toISOString (clock w (S (S (reads w))))).

(** The Note that [update_note] leaves in place of [note]. *)
Definition updated (args : option Obj) (w : World) (note : Note.t) : Note.t :=
  Note.make (Note.id note)
    (if truthy (opt_get args "title") then opt_get args "title" else Note.title note)
    (if truthy (opt_get args "content") then opt_get args "content" else Note.content note)
    (if truthy (opt_get args "tags") then opt_get args "tags" else Note.tags note)
    (Note.createdAt note)
    (toISOString (clock w (reads w))).

(** ** The catalogue the discovery handlers list *)

Definition tool_names : list string :=
  ["create_note"; "list_notes"; "get_note"; "update_note"; "delete_note";
   "search_notes"].
Definition resource_uris : list string := ["notes://all"; "notes://summary"].
Definition prompt_names : list string := ["summarize_notes"; "organize_notes"].

(** ** Reading the collection *)

(** A Note carries the tag [T]: its tags are an array with an element equal
    to the string [T]. *)
Definition has_tag (T : string) (n : Note.t) : Prop :=
  exists xs, Note.tags n = JArr xs /\ In (JStr T) xs.

Definition has_tag_b (T : string) (n : Note.t) : bool :=
  match Note.tags n with
  | JArr xs => existsb (fun x => same_value_zero x (JStr T)) xs
  | _ => false
  end.

(** Every stored Note has an array for its tags, as [tags: string[]] says. *)
Definition tags_are_arrays (w : World) : Prop :=
  forall n, In n (JsMap.values (notes w)) -> exists xs, Note.tags n = JArr xs.

(** Case ignored, for ASCII text, without reference to any case mapping: two
    characters are the same letter when they are equal or are the upper-case
    and the lower-case form of one letter ('A'..'Z' are 65..90 and the
    lower-case forms lie 32 higher). *)
Definition upper_of (c d : ascii) : Prop :=
  (65 <= nat_of_ascii c <= 90)%nat /\ nat_of_ascii d = (nat_of_ascii c + 32)%nat.

Definition same_letter (c d : ascii) : Prop :=
  c = d \/ upper_of c d \/ upper_of d c.

Inductive same_text : string -> string -> Prop :=
| same_text_nil : same_text "" ""
| same_text_cons c d s t :
    same_letter c d -> same_text s t -> same_text (String c s) (String d t).

(** [Q] occurs in [s], case ignored: a piece of [s] reads as [Q]. *)
Definition occurs_ignoring_case (Q s : string) : Prop :=
  exists a m b, s = a +:+ m +:+ b /\ same_text m Q.

Section SearchSpec.
Context {engine : Engine}.

(** [Q] occurs in [s] when case is ignored: the lower-cased [Q] is a
    substring of the lower-cased [s]. *)
Definition ci_substring (Q s : string) : Prop :=
  exists a b, toLowerCase s = a +:+ toLowerCase Q +:+ b.

(** A Note matches [Q] through its title or through its content. *)
Definition query_matches (Q : string) (n : Note.t) : Prop :=
  (exists t, Note.title n = JStr t /\ ci_substring Q t)
  \/ (exists c, Note.content n = JStr c /\ ci_substring Q c).

Definition query_matches_b (Q : string) (n : Note.t) : bool :=
  match Note.title n, Note.content n with
  | JStr t, JStr c =>
      str_includes (toLowerCase t) (toLowerCase Q)
      || str_includes (toLowerCase c) (toLowerCase Q)
  | _, _ => false
  end.

(** Every stored Note has strings for title and content, as the interface
    says. *)
Definition texts_are_strings (w : World) : Prop :=
  forall n, In n (JsMap.values (notes w)) ->
    exists t c, Note.title n = JStr t /\ Note.content n = JStr c.

End SearchSpec.

(** Every stored Note has an array of strings for its tags, as
    [tags: string[]] says. *)
Definition tags_are_string_arrays (w : World) : Prop :=
  forall n, In n (JsMap.values (notes w)) ->
    exists ts : list string, Note.tags n = JArr (List.map JStr ts).

(** The tag strings of a Note, and of the whole collection in stored order. *)
Definition tag_strings (n : Note.t) : list string :=
  match Note.tags n with
  | JArr xs => flat_map (fun x => match x with JStr s => [s] | _ => [] end) xs
  | _ => []
  end.
Definition all_tag_strings (w : World) : list string :=
  flat_map tag_strings (JsMap.values (notes w)).

(** The distinct values of a list, each at its first occurrence. *)
Definition see (seen : list string) (x : string) : list string :=
  if existsb (fun y => String.eqb y x) seen then seen else seen ++ [x].
Definition distinct (l : list string) : list string := fold_left see l [].

(** The block of [notes://summary] before its end is trimmed. *)
Definition summary_block (total unique : nat) (tags : string) : string :=
  "Notes Summary" +:+ nl +:+ "=============" +:+ nl
  +:+ "Total notes: " +:+ pretty total +:+ nl
  +:+ "Unique tags: " +:+ pretty unique +:+ nl
  +:+ "Tags: " +:+ tags.

(** The tags line: the values joined by [", "], or ["none"] when that text
    is empty. *)
Definition tags_line (ts : list string) : string :=
  if String.eqb (join ", " ts) "" then "none" else join ", " ts.

Definition summary_contents (s : string) : Resource.Result :=
  {| Resource.contents :=
       [{| Resource.uri := "notes://summary"; Resource.mimeType := "text/plain";
           Resource.text := s |}] |}.

(** The summary as the specification words it: ["none"] exactly when there
    are no tags, and the block as it stands. *)
Definition spec_tags_line (ts : list string) : string :=
  match ts with
  | [] => "none"
  | _ => join ", " ts
  end.
Definition spec_summary (w : World) : string :=
  summary_block (List.length (notes w))
    (List.length (distinct (all_tag_strings w)))
    (spec_tags_line (distinct (all_tag_strings w))).

(** ** Clocks and reachable worlds *)

(** The clock never goes back. *)
Definition monotone (clk : nat -> Z) : Prop :=
  forall i j, (i <= j)%nat -> clk i <= clk j.

(** The clock moves forward between any two readings. *)
Definition strictly_increasing (clk : nat -> Z) : Prop :=
  forall i j, (i < j)%nat -> clk i < clk j.

(** A clock that stands still while the requests are served: they all fall
    in the same millisecond. *)
Definition frozen (t : Z) (i : nat) : Z := t.

(** A clock that is set back ten seconds after its first three readings. *)
Definition set_back (t0 : Z) (i : nat) : Z :=
  if (i <? 3)%nat then t0 + Z.of_nat i else t0 - 10000.

(** The process starts on its clock with no notes and then serves tool
    calls; reading a resource or a prompt changes nothing. *)
Inductive reachable {engine : Engine} (clk : nat -> Z) : World -> Prop :=
| reach_start : reachable clk (start clk)
| reach_call name args w :
    reachable clk w -> reachable clk (snd (call_tool name args w)).

(** A stored Note is filed under its own id, which is the decimal rendering
    of a clock reading; it was created at a later reading and last updated
    at a reading not before that one; all three readings have been taken. *)
Definition stamped_note (clk : nat -> Z) (taken : nat) (k : string) (n : Note.t) : Prop :=
  Note.id n = k
  /\ exists i0 i j, (i0 <= i <= j)%nat /\ (j < taken)%nat
       /\ k = pretty (clk i0)
       /\ Note.createdAt n = toISOString (clk i)
       /\ Note.updatedAt n = toISOString (clk j).

Definition stamped (clk : nat -> Z) (w : World) : Prop :=
  clock w = clk
  /\ NoDup (JsMap.keys (notes w))
  /\ forall k n, In (k, n) (notes w) -> stamped_note clk (reads w) k n.


(** ** Requests that obey the input schemas *)

Definition is_string (v : JsVal) : Prop := exists s, v = JStr s.
Definition is_string_array (v : JsVal) : Prop :=
  exists ts : list string, v = JArr (List.map JStr ts).
Definition absent_or (P : JsVal -> Prop) (v : JsVal) : Prop :=
  v = JUndefined \/ P v.

(** The filter callback of [search_notes] can be run on the Note: its title
    is a string and, unless the title matches already, so is its content. *)
Definition searchable {engine : Engine} (query : string) (n : Note.t) : Prop :=
  exists t, Note.title n = JStr t
    /\ (str_includes (toLowerCase t) query = true \/ is_string (Note.content n)).

(** The arguments that end up in a Note have the types that the tool's
    [inputSchema] declares. *)
Definition conforms (name : string) (args : option Obj) : Prop :=
  (name = "create_note" ->
     is_string (opt_get args "title")
     /\ is_string (opt_get args "content")
     /\ absent_or is_string_array (opt_get args "tags"))
  /\ (name = "update_note" ->
       absent_or is_string (opt_get args "title")
       /\ absent_or is_string (opt_get args "content")
       /\ absent_or is_string_array (opt_get args "tags")).

(** The worlds reached by serving such requests only. *)
Inductive served {engine : Engine} (clk : nat -> Z) : World -> Prop :=
| served_start : served clk (start clk)
| served_call name args w :
    served clk w -> conforms name args ->
    served clk (snd (call_tool name args w)).

(** Every stored Note has the types of [interface Note]. *)
Definition well_typed (w : World) : Prop :=
  texts_are_strings w /\ tags_are_string_arrays w.

(** * The capability lists

    What the three discovery handlers return: [ListToolsRequestSchema],
    [ListResourcesRequestSchema] and [ListPromptsRequestSchema]. *)

Module Property.
(** One entry of [inputSchema.properties]; [items] is the [type] of the
    items of an array property. *)
Record t : Type := { type : string; items : option string; description : string }.
End Property.

Module InputSchema.
Record t : Type := {
  type : string;
  properties : list (string * Property.t);
  required : option (list string)
}.
End InputSchema.

Module ToolInfo.
Record t : Type := { name : string; description : string; inputSchema : InputSchema.t }.
End ToolInfo.

Module ResourceInfo.
Record t : Type := { uri : string; mimeType : string; name : string; description : string }.
End ResourceInfo.

Module PromptArgument.
Record t : Type := { name : string; description : string; required : bool }.
End PromptArgument.

Module PromptInfo.
Record t : Type := {
  name : string;
  description : string;
  arguments : option (list PromptArgument.t)
}.
End PromptInfo.

Definition string_property (description : string) : Property.t :=
  {| Property.type := "string"; Property.items := None;
     Property.description := description |}.

Definition string_array_property (description : string) : Property.t :=
  {| Property.type := "array"; Property.items := Some "string";
     Property.description := description |}.

Definition object_schema (properties : list (string * Property.t))
    (required : option (list string)) : InputSchema.t :=
  {| InputSchema.type := "object"; InputSchema.properties := properties;
     InputSchema.required := required |}.

(** The [tools] array of the [ListToolsRequestSchema] handler. *)
Definition list_tools : list ToolInfo.t :=
  [ {| ToolInfo.name := "create_note";
       ToolInfo.description := "Create a new note with a title, content, and optional tags";
       ToolInfo.inputSchema := object_schema
         [("title", string_property "The title of the note");
          ("content", string_property "The content/body of the note");
          ("tags", string_array_property "Optional tags to categorize the note")]
         (Some ["title"; "content"]) |};
    {| ToolInfo.name := "list_notes";
       ToolInfo.description := "List all notes, optionally filtered by tag";
       ToolInfo.inputSchema := object_schema
         [("tag", string_property "Optional tag to filter notes by")]
         None |};
    {| ToolInfo.name := "get_note";
       ToolInfo.description := "Get a specific note by its ID";
       ToolInfo.inputSchema := object_schema
         [("id", string_property "The ID of the note to retrieve")]
         (Some ["id"]) |};
    {| ToolInfo.name := "update_note";
       ToolInfo.description := "Update an existing note";
       ToolInfo.inputSchema := object_schema
         [("id", string_property "The ID of the note to update");
          ("title", string_property "New title (optional)");
          ("content", string_property "New content (optional)");
          ("tags", string_array_property "New tags (optional)")]
         (Some ["id"]) |};
    {| ToolInfo.name := "delete_note";
       ToolInfo.description := "Delete a note by its ID";
       ToolInfo.inputSchema := object_schema
         [("id", string_property "The ID of the note to delete")]
         (Some ["id"]) |};
    {| ToolInfo.name := "search_notes";
       ToolInfo.description := "Search notes by keyword in title or content";
       ToolInfo.inputSchema := object_schema
         [("query", string_property
             "Search query to match against note titles and content")]
         (Some ["query"]) |} ].

(** The [resources] array of the [ListResourcesRequestSchema] handler. *)
Definition list_resources : list ResourceInfo.t :=
  [ {| ResourceInfo.uri := "notes://all";
       ResourceInfo.mimeType := "application/json";
       ResourceInfo.name := "All Notes";
       ResourceInfo.description := "Complete list of all notes in the system" |};
    {| ResourceInfo.uri := "notes://summary";
       ResourceInfo.mimeType := "text/plain";
       ResourceInfo.name := "Notes Summary";
       ResourceInfo.description := "A summary of notes with statistics" |} ].

(** The [prompts] array of the [ListPromptsRequestSchema] handler. *)
Definition list_prompts : list PromptInfo.t :=
  [ {| PromptInfo.name := "summarize_notes";
       PromptInfo.description := "Create a summary of notes, optionally filtered by tag";
       PromptInfo.arguments :=
         Some [ {| PromptArgument.name := "tag";
                   PromptArgument.description := "Optional tag to filter notes";
                   PromptArgument.required := false |} ] |};
    {| PromptInfo.name := "organize_notes";
       PromptInfo.description := "Get suggestions for organizing and categorizing notes";
       PromptInfo.arguments := None |} ].

(** The property names a tool's schema declares, and those it requires. *)
Definition declared (t : ToolInfo.t) : list string :=
  List.map fst (InputSchema.properties (ToolInfo.inputSchema t)).

Definition demanded (t : ToolInfo.t) : list string :=
  match InputSchema.required (ToolInfo.inputSchema t) with
  | Some names => names
  | None => []
  end.

(** The argument names a prompt declares. *)
Definition prompt_parameters (p : PromptInfo.t) : list string :=
  match PromptInfo.arguments p with
  | Some args => List.map PromptArgument.name args
  | None => []
  end.

(** Two argument bags read the same under every name of [keys]. *)
Definition agree_on (keys : list string) (args args' : option Obj) : Prop :=
  forall key, In key keys -> opt_get args key = opt_get args' key.

(** The tools that take the id of a Note. *)
Definition id_tools : list string := ["get_note"; "update_note"; "delete_note"].

(** The tools that only read. *)
Definition reading_tools : list string := ["list_notes"; "get_note"; "search_notes"].

(** ** The prompts, for Notes that have the declared types *)

(** The line of a Note in [summarize_notes] and its block in
    [organize_notes], for a Note whose title and content are strings and
    whose tags are strings. *)
Definition note_line (n : Note.t) : string :=
  match Note.title n, Note.content n with
  | JStr t, JStr c => "- " +:+ t +:+ ": " +:+ c
  | _, _ => ""
  end.

Definition note_block (n : Note.t) : string :=
  match Note.title n, Note.content n with
  | JStr t, JStr c =>
      "ID: " +:+ Note.id n +:+ nl +:+ "Title: " +:+ t +:+ nl
      +:+ "Content: " +:+ c +:+ nl +:+ "Tags: " +:+ join ", " (tag_strings n) +:+ nl
  | _, _ => ""
  end.

Definition summarize_text (tagged : string) (ns : list Note.t) : string :=
  "Please summarize the following notes" +:+ tagged +:+ ":" +:+ nl +:+ nl
  +:+ join nl (List.map note_line ns).

Definition organize_text (ns : list Note.t) : string :=
  "Here are all my notes:" +:+ nl +:+ nl
  +:+ join (nl +:+ "---" +:+ nl) (List.map note_block ns) +:+ nl +:+ nl
  +:+ "Please suggest:" +:+ nl +:+ "1. Better tags for organization" +:+ nl
  +:+ "2. Notes that could be merged" +:+ nl
  +:+ "3. Missing categories or topics".

(** The contents that [read_resource] returns for [notes://all]. *)
Definition all_contents (s : string) : Resource.Result :=
  {| Resource.contents :=
       [{| Resource.uri := "notes://all"; Resource.mimeType := "application/json";
           Resource.text := s |}] |}.

(** * Properties *)

(** ** The engine pieces, run on known values *)

Example iso_epoch : toISOString 0 = "1970-01-01T00:00:00.000Z".
Proof. vm_compute. reflexivity. Qed.
Example iso_1 : toISOString 1700000000000 = "2023-11-14T22:13:20.000Z".
Proof. vm_compute. reflexivity. Qed.
Example iso_2 : toISOString 951782400000 = "2000-02-29T00:00:00.000Z".
Proof. vm_compute. reflexivity. Qed.
Example iso_3 : toISOString 1709251199999 = "2024-02-29T23:59:59.999Z".
Proof. vm_compute. reflexivity. Qed.
Example iso_4 : toISOString (-1) = "1969-12-31T23:59:59.999Z".
Proof. vm_compute. reflexivity. Qed.
Example iso_5 : toISOString 1000000000000 = "2001-09-09T01:46:40.000Z".
Proof. vm_compute. reflexivity. Qed.
Example trim_1 : trim (nl +:+ "  ab c " +:+ nl +:+ "   ") = "ab c".
Proof. vm_compute. reflexivity. Qed.

Example two_notes_holds :
  notes two_notes = [("1700000000000", first_note); ("1700000000003", second_note)].
Proof. vm_compute. reflexivity. Qed.

(** ** The map *)

Module JsMapFacts.
Section Facts.
Context {V : Type}.
Implicit Types (m : list (string * V)) (k : string) (v : V).

Lemma get_set_eq k v m : JsMap.get k (JsMap.set k v m) = Some v.
Proof.
  induction m as [|[k' v'] m IH]; simpl.
  - now rewrite String.eqb_refl.
  - destruct (String.eqb k' k) eqn:E; simpl.
    + now rewrite String.eqb_refl.
    + now rewrite E.
Qed.

Lemma get_set_ne k k' v m :
  k <> k' -> JsMap.get k' (JsMap.set k v m) = JsMap.get k' m.
Proof.
  intros Hne. apply String.eqb_neq in Hne.
  induction m as [|[k0 v0] m IH]; simpl.
  - now rewrite Hne.
  - destruct (String.eqb k0 k) eqn:E; simpl.
    + apply String.eqb_eq in E. subst k0. now rewrite Hne.
    + now rewrite IH.
Qed.

Lemma get_delete_eq k m : JsMap.get k (JsMap.delete k m) = None.
Proof.
  induction m as [|[k' v'] m IH]; simpl; [reflexivity|].
  destruct (String.eqb k' k) eqn:E; simpl; [assumption|].
  now rewrite E.
Qed.

Lemma get_delete_ne k k' m :
  k <> k' -> JsMap.get k' (JsMap.delete k m) = JsMap.get k' m.
Proof.
  intros Hne.
  induction m as [|[k0 v0] m IH]; simpl; [reflexivity|].
  destruct (String.eqb k0 k) eqn:E; simpl.
  - apply String.eqb_eq in E. subst k0.
    apply String.eqb_neq in Hne. now rewrite Hne.
  - now rewrite IH.
Qed.

Lemma get_Some_In k v m : JsMap.get k m = Some v -> In (k, v) m.
Proof.
  induction m as [|[k' v'] m IH]; simpl; [discriminate|].
  destruct (String.eqb k' k) eqn:E.
  - apply String.eqb_eq in E. intros [= ->]. subst. now left.
  - intros Hg. right. now apply IH.
Qed.


(** [set] on a key that is present rewrites that entry where it stands;
    on a new key it appends. *)
Lemma keys_set_present k v m :
  In k (JsMap.keys m) -> JsMap.keys (JsMap.set k v m) = JsMap.keys m.
Proof.
  unfold JsMap.keys.
  induction m as [|[k' v'] m IH]; simpl; [tauto|].
  destruct (String.eqb k' k) eqn:E; simpl.
  - apply String.eqb_eq in E. now subst.
  - apply String.eqb_neq in E. intros [?|Hin]; [contradiction|].
    f_equal. now apply IH.
Qed.

Lemma keys_set_absent k v m :
  ~ In k (JsMap.keys m) -> JsMap.keys (JsMap.set k v m) = JsMap.keys m ++ [k].
Proof.
  unfold JsMap.keys.
  induction m as [|[k' v'] m IH]; simpl; [reflexivity|].
  intros Hn. destruct (String.eqb k' k) eqn:E; simpl.
  - apply String.eqb_eq in E. subst. tauto.
  - f_equal. apply IH. tauto.
Qed.

Lemma set_absent k v m :
  ~ In k (JsMap.keys m) -> JsMap.set k v m = m ++ [(k, v)].
Proof.
  induction m as [|[k' v'] m IH]; simpl; [reflexivity|].
  intros Hn. destruct (String.eqb k' k) eqn:E; simpl.
  - apply String.eqb_eq in E. subst. tauto.
  - rewrite IH; tauto.
Qed.
End Facts.
End JsMapFacts.

(** ** What one handler run does *)

Section Runs.
Context {engine : Engine}.

Lemma create_note_run args w :
  create_note args w =
    (Returned (text_result ("Note created successfully with ID: "
                            +:+ pretty (clock w (reads w)))),
     mkWorld (JsMap.set (pretty (clock w (reads w))) (created args w) (notes w))
             (clock w) (S (S (S (reads w))))).
Proof. reflexivity. Qed.

Lemma get_note_found args k note w :
  opt_get args "id" = JStr k ->
  JsMap.get k (notes w) = Some note ->
  get_note args w = (Returned (text_result (JSON_stringify (Note.to_js note))), w).
Proof.
  intros Hid Hget. unfold get_note, bind, get_notes.
  rewrite Hid. simpl. now rewrite Hget.
Qed.

Lemma get_note_missing args k w :
  opt_get args "id" = JStr k ->
  JsMap.get k (notes w) = None ->
  get_note args w = (Thrown (Error ("Note with ID " +:+ k +:+ " not found")), w).
Proof.
  intros Hid Hget. unfold get_note, bind, get_notes.
  rewrite Hid. simpl. now rewrite Hget.
Qed.

Lemma update_note_found args k note w :
  opt_get args "id" = JStr k ->
  JsMap.get k (notes w) = Some note ->
  update_note args w =
    (Returned (text_result ("Note " +:+ k +:+ " updated successfully")),
     mkWorld (JsMap.set k (updated args w note) (notes w)) (clock w) (S (reads w))).
Proof.
  intros Hid Hget. unfold update_note, bind, get_notes.
  rewrite Hid. simpl. rewrite Hget. unfold updated.
  destruct (truthy (opt_get args "title")), (truthy (opt_get args "content")),
    (truthy (opt_get args "tags")); reflexivity.
Qed.

Lemma update_note_missing args k w :
  opt_get args "id" = JStr k ->
  JsMap.get k (notes w) = None ->
  update_note args w = (Thrown (Error ("Note with ID " +:+ k +:+ " not found")), w).
Proof.
  intros Hid Hget. unfold update_note, bind, get_notes.
  rewrite Hid. simpl. now rewrite Hget.
Qed.

Lemma delete_note_found args k note w :
  opt_get args "id" = JStr k ->
  JsMap.get k (notes w) = Some note ->
  delete_note args w =
    (Returned (text_result ("Note " +:+ k +:+ " deleted successfully")),
     mkWorld (JsMap.delete k (notes w)) (clock w) (reads w)).
Proof.
  intros Hid Hget. unfold delete_note, bind, get_notes.
  rewrite Hid. unfold JsMap.has. simpl. now rewrite Hget.
Qed.

Lemma delete_note_missing args k w :
  opt_get args "id" = JStr k ->
  JsMap.get k (notes w) = None ->
  delete_note args w = (Thrown (Error ("Note with ID " +:+ k +:+ " not found")), w).
Proof.
  intros Hid Hget. unfold delete_note, bind, get_notes.
  rewrite Hid. unfold JsMap.has. simpl. now rewrite Hget.
Qed.

(** The catch block, case by case. *)
Lemma call_tool_returned name args w r w' :
  tool_body name args w = (Returned r, w') -> call_tool name args w = (r, w').
Proof. unfold call_tool. now intros ->. Qed.

Lemma call_tool_thrown name args w e w' :
  tool_body name args w = (Thrown e, w') ->
  call_tool name args w = (error_result ("Error: " +:+ exn_message e), w').
Proof. unfold call_tool. now intros ->. Qed.
End Runs.

(** ** The dispatcher *)

Section Dispatcher.
Context {engine : Engine}.

Local Ltac run_handlers :=
  unfold tool_body, create_note, list_notes, get_note, update_note,
    delete_note, search_notes, not_found, new_Date_toISOString, Date_now,
    put_notes, get_notes, bind, lift, ret, throw;
  cbv beta zeta; intros;
  repeat (case_match; simplify_eq; cbv beta iota zeta in * ).

(** Every [return] inside the [try] builds [{ content: [...] }] and
    nothing else: no handler sets [isError] itself. *)
Lemma tool_body_returns_text name args w r w' :
  tool_body name args w = (Returned r, w') -> exists s, r = text_result s.
Proof. revert r w'. run_handlers; eauto. Qed.

(** A handler that throws has not touched the notes or the clock. *)
Lemma tool_body_thrown_unchanged name args w e w' :
  tool_body name args w = (Thrown e, w') -> w' = w.
Proof. revert e w'. run_handlers; eauto. Qed.
End Dispatcher.

Lemma eqb_not_in (s x : string) (l : list string) :
  ~ In s l -> In x l -> String.eqb s x = false.
Proof. intros Hn Hx. apply String.eqb_neq. intros ->. contradiction. Qed.

(** ** Creating and reading back *)

(** C10, as amended: [create_note] returns the success payload for every
    argument bag, whatever is missing or ill-shaped in it, and never an
    error; the title and the content are stored as given (possibly
    [undefined]); the tags are stored as given when truthy, whatever their
    shape, and as the empty array otherwise. *)
Theorem create_note_never_fails {engine : Engine} (args : option Obj) (w : World) :
  exists id note w',
    call_tool "create_note" args w
      = (text_result ("Note created successfully with ID: " +:+ id), w')
    /\ Tool.isError (fst (call_tool "create_note" args w)) = None
    /\ JsMap.get id (notes w') = Some note
    /\ Note.id note = id
    /\ Note.title note = opt_get args "title"
    /\ Note.content note = opt_get args "content"
    /\ Note.tags note
       = (if truthy (opt_get args "tags") then opt_get args "tags" else JArr [])
    /\ Tool.content (fst (call_tool "create_note" args w))
       = [{| type := "text"; text := "Note created successfully with ID: " +:+ id |}].
Proof.
  exists (pretty (clock w (reads w))), (created args w).
  eexists.
  assert (Hrun : call_tool "create_note" args w
                 = (text_result ("Note created successfully with ID: "
                                 +:+ pretty (clock w (reads w))),
                    mkWorld (JsMap.set (pretty (clock w (reads w))) (created args w)
                               (notes w)) (clock w) (S (S (S (reads w)))))).
  { apply call_tool_returned. apply create_note_run. }
  rewrite Hrun. split; [reflexivity|]. split; [reflexivity|].
  split; [apply JsMapFacts.get_set_eq|]. repeat split.
Qed.

(** C10, as stated, fails: a falsy [tags] value is not stored as given. *)
Lemma create_note_falsy_tags_replaced :
  let args := Some [("title", JStr "a"); ("content", JStr "b"); ("tags", JNum "0")] in
  let run := call_tool (engine := ascii_engine) "create_note" args
               (start (ticking 1700000000000)) in
  fst run = text_result "Note created successfully with ID: 1700000000000"
  /\ exists note,
       JsMap.get "1700000000000" (notes (snd run)) = Some note
       /\ Note.tags note = JArr []
       /\ Note.tags note <> opt_get args "tags".
Proof.
  vm_compute. split; [reflexivity|].
  eexists. split; [reflexivity|]. split; [reflexivity|]. discriminate.
Qed.

(** C3: [create_note] with a title, a content and, optionally, a list of
    tags, followed by [get_note] on the id it reports, returns the Note that
    is stored under that id: the reply is not an error and its one text is
    the JSON of an object with that id, that title, that content and those
    tags -- the empty array when no tags were given -- and the two time
    stamps of the Note. *)
Theorem create_then_get_round_trip {engine : Engine}
    (args : option Obj) (w : World)
    (title content : string) (tags : option (list string)) :
  opt_get args "title" = JStr title ->
  opt_get args "content" = JStr content ->
  opt_get args "tags"
    = match tags with Some ts => JArr (List.map JStr ts) | None => JUndefined end ->
  exists id note w1,
    call_tool "create_note" args w
      = (text_result ("Note created successfully with ID: " +:+ id), w1)
    /\ JsMap.get id (notes w1) = Some note
    /\ call_tool "get_note" (Some [("id", JStr id)]) w1
       = (text_result (JSON_stringify (Note.to_js note)), w1)
    /\ Tool.isError (fst (call_tool "get_note" (Some [("id", JStr id)]) w1)) = None
    /\ Tool.content (fst (call_tool "get_note" (Some [("id", JStr id)]) w1))
       = [{| type := "text";
             text := JSON_stringify
               (JObj [("id", JStr id);
                      ("title", JStr title);
                      ("content", JStr content);
                      ("tags", JArr (List.map JStr (default [] tags)));
                      ("createdAt", JStr (Note.createdAt note));
                      ("updatedAt", JStr (Note.updatedAt note))]) |}]
    /\ Note.id note = id
    /\ Note.title note = JStr title
    /\ Note.content note = JStr content
    /\ Note.tags note = JArr (List.map JStr (default [] tags)).
Proof.
  intros Ht Hc Hg.
  exists (pretty (clock w (reads w))), (created args w). eexists.
  assert (Hget : call_tool "get_note" (Some [("id", JStr (pretty (clock w (reads w))))])
                   (mkWorld (JsMap.set (pretty (clock w (reads w))) (created args w)
                               (notes w)) (clock w) (S (S (S (reads w)))))
                 = (text_result (JSON_stringify (Note.to_js (created args w))),
                    mkWorld (JsMap.set (pretty (clock w (reads w))) (created args w)
                               (notes w)) (clock w) (S (S (S (reads w)))))).
  { apply call_tool_returned.
    change (tool_body "get_note" ?a ?x) with (get_note a x).
    apply get_note_found with (k := pretty (clock w (reads w))); [reflexivity|].
    apply JsMapFacts.get_set_eq. }
  split; [apply call_tool_returned; apply create_note_run|].
  split; [apply JsMapFacts.get_set_eq|].
  split; [exact Hget|].
  rewrite Hget. split; [reflexivity|].
  assert (Htags : Note.tags (created args w) = JArr (List.map JStr (default [] tags))).
  { unfold created; simpl. rewrite Hg. now destruct tags. }
  split.
  { unfold Note.to_js. rewrite Htags. unfold created; simpl. now rewrite Ht, Hc. }
  split; [reflexivity|]. split; [exact Ht|]. split; [exact Hc|]. exact Htags.
Qed.

Lemma create_then_get_round_trip_witness :
  let args := Some [("title", JStr "A"); ("content", JStr "x");
                    ("tags", JArr [JStr "t1"])] in
  let w := start (ticking 1700000000000) in
  let q s := dquote +:+ s +:+ dquote in
  opt_get args "title" = JStr "A"
  /\ opt_get args "content" = JStr "x"
  /\ opt_get args "tags" = JArr (List.map JStr ["t1"])
  /\ (exists id note w1,
        call_tool (engine := ascii_engine) "create_note" args w
          = (text_result ("Note created successfully with ID: " +:+ id), w1)
        /\ JsMap.get id (notes w1) = Some note
        /\ call_tool (engine := ascii_engine) "get_note" (Some [("id", JStr id)]) w1
           = (text_result (JSON_stringify (Note.to_js note)), w1)
        /\ Tool.isError
             (fst (call_tool (engine := ascii_engine) "get_note" (Some [("id", JStr id)]) w1))
           = None
        /\ Tool.content
             (fst (call_tool (engine := ascii_engine) "get_note" (Some [("id", JStr id)]) w1))
           = [{| type := "text";
                 text := JSON_stringify
                   (JObj [("id", JStr id);
                          ("title", JStr "A");
                          ("content", JStr "x");
                          ("tags", JArr (List.map JStr ["t1"]));
                          ("createdAt", JStr (Note.createdAt note));
                          ("updatedAt", JStr (Note.updatedAt note))]) |}]
        /\ Note.id note = id
        /\ Note.title note = JStr "A"
        /\ Note.content note = JStr "x"
        /\ Note.tags note = JArr (List.map JStr ["t1"]))
  /\ fst (call_tool (engine := ascii_engine) "create_note" args w)
     = text_result "Note created successfully with ID: 1700000000000"
  /\ fst (call_tool (engine := ascii_engine) "get_note"
            (Some [("id", JStr "1700000000000")])
            (snd (call_tool (engine := ascii_engine) "create_note" args w)))
     = {| Tool.content :=
            [{| type := "text";
                text := "{" +:+ nl
                  +:+ "  " +:+ q "id" +:+ ": " +:+ q "1700000000000" +:+ "," +:+ nl
                  +:+ "  " +:+ q "title" +:+ ": " +:+ q "A" +:+ "," +:+ nl
                  +:+ "  " +:+ q "content" +:+ ": " +:+ q "x" +:+ "," +:+ nl
                  +:+ "  " +:+ q "tags" +:+ ": [" +:+ nl
                  +:+ "    " +:+ q "t1" +:+ nl
                  +:+ "  ]," +:+ nl
                  +:+ "  " +:+ q "createdAt" +:+ ": " +:+ q "2023-11-14T22:13:20.001Z"
                  +:+ "," +:+ nl
                  +:+ "  " +:+ q "updatedAt" +:+ ": " +:+ q "2023-11-14T22:13:20.002Z"
                  +:+ nl +:+ "}" |}];
          Tool.isError := None |}.
Proof.
  intros args w q.
  repeat (split; [reflexivity|]).
  split.
  { apply (create_then_get_round_trip (engine := ascii_engine) args w "A" "x"
             (Some ["t1"])); reflexivity. }
  split; vm_compute; reflexivity.
Defined.

(** ** Deleting *)

(** C4: for the id of a stored Note, [delete_note] succeeds; after that
    [get_note] on the id fails with the not-found error and so does a second
    [delete_note], which leave the collection as it is. *)
Theorem delete_then_not_found {engine : Engine} (k : string) (note : Note.t) (w : World) :
  JsMap.get k (notes w) = Some note ->
  exists w1,
    call_tool "delete_note" (Some [("id", JStr k)]) w
      = (text_result ("Note " +:+ k +:+ " deleted successfully"), w1)
    /\ JsMap.get k (notes w1) = None
    /\ call_tool "get_note" (Some [("id", JStr k)]) w1
       = (error_result ("Error: Note with ID " +:+ k +:+ " not found"), w1)
    /\ call_tool "delete_note" (Some [("id", JStr k)]) w1
       = (error_result ("Error: Note with ID " +:+ k +:+ " not found"), w1)
    /\ fst (call_tool "delete_note" (Some [("id", JStr k)]) w)
       = {| Tool.content :=
              [{| type := "text"; text := "Note " +:+ k +:+ " deleted successfully" |}];
            Tool.isError := None |}
    /\ fst (call_tool "get_note" (Some [("id", JStr k)]) w1)
       = {| Tool.content :=
              [{| type := "text";
                  text := "Error: Note with ID " +:+ k +:+ " not found" |}];
            Tool.isError := Some true |}
    /\ fst (call_tool "delete_note" (Some [("id", JStr k)]) w1)
       = {| Tool.content :=
              [{| type := "text";
                  text := "Error: Note with ID " +:+ k +:+ " not found" |}];
            Tool.isError := Some true |}.
Proof.
  intros Hget.
  exists (mkWorld (JsMap.delete k (notes w)) (clock w) (reads w)).
  assert (Hgone : JsMap.get k (JsMap.delete k (notes w)) = None)
    by apply JsMapFacts.get_delete_eq.
  assert (Hfirst : call_tool "delete_note" (Some [("id", JStr k)]) w
                   = (text_result ("Note " +:+ k +:+ " deleted successfully"),
                      mkWorld (JsMap.delete k (notes w)) (clock w) (reads w))).
  { apply call_tool_returned.
    change (tool_body "delete_note" ?a ?x) with (delete_note a x).
    now apply delete_note_found with (note := note). }
  assert (Hread : call_tool "get_note" (Some [("id", JStr k)])
                    (mkWorld (JsMap.delete k (notes w)) (clock w) (reads w))
                  = (error_result ("Error: Note with ID " +:+ k +:+ " not found"),
                     mkWorld (JsMap.delete k (notes w)) (clock w) (reads w))).
  { apply (call_tool_thrown "get_note" _ _
             (Error ("Note with ID " +:+ k +:+ " not found"))).
    change (tool_body "get_note" ?a ?x) with (get_note a x).
    now apply get_note_missing. }
  assert (Hsecond : call_tool "delete_note" (Some [("id", JStr k)])
                      (mkWorld (JsMap.delete k (notes w)) (clock w) (reads w))
                    = (error_result ("Error: Note with ID " +:+ k +:+ " not found"),
                       mkWorld (JsMap.delete k (notes w)) (clock w) (reads w))).
  { apply (call_tool_thrown "delete_note" _ _
             (Error ("Note with ID " +:+ k +:+ " not found"))).
    change (tool_body "delete_note" ?a ?x) with (delete_note a x).
    now apply delete_note_missing. }
  split; [exact Hfirst|]. split; [exact Hgone|].
  split; [exact Hread|]. split; [exact Hsecond|].
  rewrite Hfirst, Hread, Hsecond. repeat split.
Qed.

Lemma delete_then_not_found_witness :
  JsMap.get "1700000000000" (notes two_notes) = Some first_note
  /\ exists w1,
       call_tool (engine := ascii_engine) "delete_note"
         (Some [("id", JStr "1700000000000")]) two_notes
         = (text_result "Note 1700000000000 deleted successfully", w1)
       /\ JsMap.get "1700000000000" (notes w1) = None
       /\ call_tool (engine := ascii_engine) "get_note"
            (Some [("id", JStr "1700000000000")]) w1
          = (error_result "Error: Note with ID 1700000000000 not found", w1)
       /\ call_tool (engine := ascii_engine) "delete_note"
            (Some [("id", JStr "1700000000000")]) w1
          = (error_result "Error: Note with ID 1700000000000 not found", w1)
       /\ fst (call_tool (engine := ascii_engine) "delete_note"
                 (Some [("id", JStr "1700000000000")]) two_notes)
          = {| Tool.content :=
                 [{| type := "text";
                     text := "Note 1700000000000 deleted successfully" |}];
               Tool.isError := None |}
       /\ fst (call_tool (engine := ascii_engine) "get_note"
                 (Some [("id", JStr "1700000000000")]) w1)
          = {| Tool.content :=
                 [{| type := "text";
                     text := "Error: Note with ID 1700000000000 not found" |}];
               Tool.isError := Some true |}
       /\ fst (call_tool (engine := ascii_engine) "delete_note"
                 (Some [("id", JStr "1700000000000")]) w1)
          = {| Tool.content :=
                 [{| type := "text";
                     text := "Error: Note with ID 1700000000000 not found" |}];
               Tool.isError := Some true |}.
Proof.
  assert (H : JsMap.get "1700000000000" (notes two_notes) = Some first_note)
    by (vm_compute; reflexivity).
  split; [exact H|].
  exact (delete_then_not_found (engine := ascii_engine)
           "1700000000000" first_note two_notes H).
Defined.

(** ** Unknown names *)

(** C8: a tool call that names no tool gets an ordinary result whose
    [isError] is set and whose one text carries the name; a resource read
    with an unknown uri and a prompt request with an unknown name make their
    handler throw, so the failure leaves the handler instead of being
    returned in a result. *)
Theorem unknown_names_split {engine : Engine}
    (tool uri prompt : string) (args pargs : option Obj) (w : World) :
  ~ In tool tool_names ->
  ~ In uri resource_uris ->
  ~ In prompt prompt_names ->
  call_tool tool args w = (error_result ("Error: Unknown tool: " +:+ tool), w)
  /\ CallToolRequest tool args w
     = (Returned {| Tool.content :=
                      [{| type := "text"; text := "Error: Unknown tool: " +:+ tool |}];
                    Tool.isError := Some true |}, w)
  /\ Tool.content (fst (call_tool tool args w))
     = [{| type := "text"; text := "Error: Unknown tool: " +:+ tool |}]
  /\ Tool.isError (fst (call_tool tool args w)) = Some true
  /\ read_resource uri w = Thrown (Error ("Unknown resource: " +:+ uri))
  /\ get_prompt prompt pargs w = Thrown (Error ("Unknown prompt: " +:+ prompt)).
Proof.
  intros Ht Hu Hp.
  assert (Hbody : tool_body tool args w = (Thrown (Error ("Unknown tool: " +:+ tool)), w)).
  { unfold tool_body.
    rewrite !(eqb_not_in tool _ tool_names Ht) by (simpl; tauto).
    reflexivity. }
  assert (Hcall : call_tool tool args w
                  = (error_result ("Error: Unknown tool: " +:+ tool), w)).
  { now apply (call_tool_thrown tool args w (Error ("Unknown tool: " +:+ tool))). }
  split; [exact Hcall|].
  split; [unfold CallToolRequest, try_catch; now rewrite Hbody|].
  split; [now rewrite Hcall|]. split; [now rewrite Hcall|]. split.
  - unfold read_resource.
    rewrite !(eqb_not_in uri _ resource_uris Hu) by (simpl; tauto). reflexivity.
  - unfold get_prompt.
    rewrite !(eqb_not_in prompt _ prompt_names Hp) by (simpl; tauto). reflexivity.
Qed.

Lemma unknown_names_split_witness :
  ~ In "create_notes" tool_names
  /\ ~ In "notes://bogus" resource_uris
  /\ ~ In "summarize" prompt_names
  /\ call_tool (engine := ascii_engine) "create_notes" None two_notes
     = (error_result "Error: Unknown tool: create_notes", two_notes)
  /\ CallToolRequest (engine := ascii_engine) "create_notes" None two_notes
     = (Returned {| Tool.content :=
                      [{| type := "text"; text := "Error: Unknown tool: create_notes" |}];
                    Tool.isError := Some true |}, two_notes)
  /\ Tool.content (fst (call_tool (engine := ascii_engine) "create_notes" None two_notes))
     = [{| type := "text"; text := "Error: Unknown tool: create_notes" |}]
  /\ Tool.isError (fst (call_tool (engine := ascii_engine) "create_notes" None two_notes))
     = Some true
  /\ read_resource "notes://bogus" two_notes
     = Thrown (Error "Unknown resource: notes://bogus")
  /\ get_prompt "summarize" None two_notes
     = Thrown (Error "Unknown prompt: summarize").
Proof.
  assert (H1 : ~ In "create_notes" tool_names)
    by (simpl; intros H; decompose [or] H; discriminate || assumption).
  assert (H2 : ~ In "notes://bogus" resource_uris)
    by (simpl; intros H; decompose [or] H; discriminate || assumption).
  assert (H3 : ~ In "summarize" prompt_names)
    by (simpl; intros H; decompose [or] H; discriminate || assumption).
  split; [exact H1|]. split; [exact H2|]. split; [exact H3|].
  exact (unknown_names_split (engine := ascii_engine)
           "create_notes" "notes://bogus" "summarize" None None two_notes H1 H2 H3).
Defined.

(** ** Totality of the dispatcher *)

(** C9: for every tool name and argument bag the handler -- a function
    that could throw -- returns a result.  Either the body of the [try]
    returned, and that result, one text without an error flag, is passed on;
    or the body threw, before changing anything, and the result is the one
    text ["Error: " + message] with [isError] set to true.  An id that names
    no Note is such a throw, for each tool that takes an id. *)
Theorem call_tool_total {engine : Engine} (name : string) (args : option Obj) (w : World) :
  (exists r w',
     CallToolRequest name args w = (Returned r, w')
     /\ call_tool name args w = (r, w')
     /\ ((exists s,
            tool_body name args w = (Returned r, w')
            /\ r = {| Tool.content := [{| type := "text"; text := s |}];
                      Tool.isError := None |})
         \/ (exists error,
               tool_body name args w = (Thrown error, w)
               /\ w' = w
               /\ r = {| Tool.content :=
                           [{| type := "text";
                               text := "Error: " +:+ exn_message error |}];
                         Tool.isError := Some true |})))
  /\ forall k : string,
       opt_get args "id" = JStr k ->
       JsMap.get k (notes w) = None ->
       In name ["get_note"; "update_note"; "delete_note"] ->
       CallToolRequest name args w
       = (Returned {| Tool.content :=
                        [{| type := "text";
                            text := "Error: Note with ID " +:+ k +:+ " not found" |}];
                      Tool.isError := Some true |}, w)
       /\ call_tool name args w
          = (error_result ("Error: Note with ID " +:+ k +:+ " not found"), w).
Proof.
  split.
  - unfold CallToolRequest, try_catch, call_tool.
    destruct (tool_body name args w) as [[r|e] w'] eqn:Hbody.
    + exists r, w'. split; [reflexivity|]. split; [reflexivity|]. left.
      destruct (tool_body_returns_text _ _ _ _ _ Hbody) as [s ->].
      exists s. split; reflexivity.
    + pose proof (tool_body_thrown_unchanged _ _ _ _ _ Hbody) as ->.
      eexists _, w. split; [reflexivity|]. split; [reflexivity|]. right.
      exists e. repeat split.
  - intros k Hid Hget Hname.
    assert (Hbody : tool_body name args w
                    = (Thrown (Error ("Note with ID " +:+ k +:+ " not found")), w)).
    { simpl in Hname. destruct Hname as [<-|[<-|[<-|[]]]].
      + now apply get_note_missing.
      + now apply update_note_missing.
      + now apply delete_note_missing. }
    split; [unfold CallToolRequest, try_catch; now rewrite Hbody|].
    now apply (call_tool_thrown name args w
                 (Error ("Note with ID " +:+ k +:+ " not found"))).
Qed.

Lemma call_tool_total_witness :
  opt_get (Some [("id", JStr "7")]) "id" = JStr "7"
  /\ JsMap.get "7" (notes two_notes) = None
  /\ In "update_note" ["get_note"; "update_note"; "delete_note"]
  /\ CallToolRequest (engine := ascii_engine) "update_note" (Some [("id", JStr "7")])
       two_notes
     = (Returned {| Tool.content :=
                      [{| type := "text"; text := "Error: Note with ID 7 not found" |}];
                    Tool.isError := Some true |}, two_notes)
  /\ call_tool (engine := ascii_engine) "update_note" (Some [("id", JStr "7")]) two_notes
     = (error_result "Error: Note with ID 7 not found", two_notes).
Proof.
  split; [reflexivity|]. split; [reflexivity|]. split; [simpl; tauto|].
  apply (proj2 (call_tool_total (engine := ascii_engine) "update_note"
                  (Some [("id", JStr "7")]) two_notes) "7");
    [reflexivity | reflexivity | simpl; tauto].
Defined.

(** ** Substrings *)

Lemma starts_with_spec (s sub : string) :
  starts_with s sub = true <-> exists b, s = sub +:+ b.
Proof.
  revert s. induction sub as [|c sub IH]; intros s; simpl.
  - split; [intros _; now exists s | intros _; now destruct s].
  - destruct s as [|d s].
    + split; [discriminate | intros [b Hb]; discriminate].
    + simpl. rewrite andb_true_iff, IH. split.
      * intros [Hc [b ->]]. apply Ascii.eqb_eq in Hc. subst. now exists b.
      * intros [b [= -> ->]]. split; [apply Ascii.eqb_refl | now exists b].
Qed.

(** [str_includes] decides "occurs somewhere in". *)
Lemma str_includes_spec (s sub : string) :
  str_includes s sub = true <-> exists a b, s = a +:+ sub +:+ b.
Proof.
  induction s as [|c s IH].
  - change (str_includes "" sub) with (starts_with "" sub || false).
    rewrite orb_false_r, starts_with_spec. split.
    + intros [b Hb]. now exists "", b.
    + intros [a [b Hab]]. destruct a; [now exists b | discriminate].
  - change (str_includes (String c s) sub)
      with (starts_with (String c s) sub || str_includes s sub).
    rewrite orb_true_iff, starts_with_spec, IH. split.
    + intros [[b Hb]|[a [b ->]]]; [now exists "", b | now exists (String c a), b].
    + intros [[|c' a] [b Hab]]; [left; now exists b|].
      right. injection Hab as -> ->. now exists a, b.
Qed.

Lemma str_includes_empty (s : string) : str_includes s "" = true.
Proof. apply str_includes_spec. now exists "", s. Qed.

(** ** Filtering with a callback that does not throw *)

Lemma filter_o_total {A} (p : A -> Outcome bool) (q : A -> bool) (xs : list A) :
  (forall x, In x xs -> p x = Returned (q x)) ->
  filter_o p xs = Returned (List.filter q xs).
Proof.
  induction xs as [|x xs IH]; intros Hp; simpl; [reflexivity|].
  rewrite (Hp x) by now left. simpl.
  rewrite IH by (intros; apply Hp; now right). simpl.
  now destruct (q x).
Qed.

Lemma filter_all_true {A} (q : A -> bool) (xs : list A) :
  (forall x, In x xs -> q x = true) -> List.filter q xs = xs.
Proof.
  induction xs as [|x xs IH]; intros Hq; simpl; [reflexivity|].
  rewrite (Hq x) by now left. f_equal. apply IH. intros; apply Hq; now right.
Qed.

Lemma filter_all_false {A} (q : A -> bool) (xs : list A) :
  (forall x, In x xs -> q x = false) -> List.filter q xs = [].
Proof.
  induction xs as [|x xs IH]; intros Hq; simpl; [reflexivity|].
  rewrite (Hq x) by now left. apply IH. intros; apply Hq; now right.
Qed.

(** ** Listing by tag *)

Lemma same_value_zero_string (x : JsVal) (T : string) :
  same_value_zero x (JStr T) = true <-> x = JStr T.
Proof.
  destruct x; simpl; try (split; [discriminate | intros [=]]).
  rewrite String.eqb_eq. split; [now intros -> | now intros [= ->]].
Qed.

Lemma has_tag_b_spec (T : string) (n : Note.t) :
  has_tag_b T n = true <-> has_tag T n.
Proof.
  unfold has_tag_b, has_tag. destruct (Note.tags n) as [| | | | |xs|];
    try (split; [discriminate | intros [xs' [[=] _]]]).
  rewrite existsb_exists. split.
  - intros [x [Hin Hx]]. apply same_value_zero_string in Hx. subst.
    now exists xs.
  - intros [xs' [[= <-] Hin]]. exists (JStr T). split; [assumption|].
    now apply same_value_zero_string.
Qed.

Lemma list_notes_all {engine : Engine} (args : option Obj) (w : World) :
  truthy (opt_get args "tag") = false ->
  call_tool "list_notes" args w
  = (text_result (JSON_stringify (JArr (List.map Note.to_js (JsMap.values (notes w))))), w).
Proof.
  intros Htag. apply call_tool_returned.
  change (tool_body "list_notes" args w) with (list_notes args w).
  unfold list_notes, bind, get_notes, ret. now rewrite Htag.
Qed.

(** C5, as amended: for every non-empty tag string [T], on a collection
    whose Notes have arrays for tags, [list_notes] with [tag = T] returns, in
    stored order, exactly the Notes that have an element equal to [T] among
    their tags -- the empty array, not an error, when there is none; with no
    tag argument, or an empty one, it returns all Notes. *)
Theorem list_notes_by_tag {engine : Engine} (T : string) (w : World) :
  T <> "" ->
  tags_are_arrays w ->
  (forall n, has_tag_b T n = true <-> has_tag T n)
  /\ call_tool "list_notes" (Some [("tag", JStr T)]) w
     = (text_result (JSON_stringify (JArr (List.map Note.to_js
          (List.filter (has_tag_b T) (JsMap.values (notes w)))))), w)
  /\ ((forall n, In n (JsMap.values (notes w)) -> ~ has_tag T n) ->
      call_tool "list_notes" (Some [("tag", JStr T)]) w = (text_result "[]", w))
  /\ call_tool "list_notes" None w
     = (text_result (JSON_stringify (JArr (List.map Note.to_js
          (JsMap.values (notes w))))), w)
  /\ call_tool "list_notes" (Some [("tag", JStr "")]) w
     = (text_result (JSON_stringify (JArr (List.map Note.to_js
          (JsMap.values (notes w))))), w).
Proof.
  intros HT Harr.
  assert (Hcall : call_tool "list_notes" (Some [("tag", JStr T)]) w
     = (text_result (JSON_stringify (JArr (List.map Note.to_js
          (List.filter (has_tag_b T) (JsMap.values (notes w)))))), w)).
  { apply call_tool_returned.
    change (tool_body "list_notes" ?a ?x) with (list_notes a x).
    unfold list_notes, bind, get_notes, ret, lift. cbv zeta.
    change (opt_get (Some [("tag", JStr T)]) "tag") with (JStr T).
    assert (Htruthy : truthy (JStr T) = true).
    { simpl. apply negb_true_iff. now apply String.eqb_neq. }
    rewrite Htruthy.
    rewrite (filter_o_total _ (has_tag_b T)); [reflexivity|].
    intros n Hn. destruct (Harr n Hn) as [xs Hxs].
    unfold has_tag_b. now rewrite Hxs. }
  split; [apply has_tag_b_spec|]. split; [exact Hcall|]. split.
  - intros Hnone. rewrite Hcall. rewrite filter_all_false; [reflexivity|].
    intros n Hn. destruct (has_tag_b T n) eqn:E; [|reflexivity].
    apply has_tag_b_spec in E. now destruct (Hnone n Hn).
  - split; now apply list_notes_all.
Qed.

Lemma list_notes_by_tag_witness :
  "t1" <> ""
  /\ tags_are_arrays two_notes
  /\ call_tool (engine := ascii_engine) "list_notes" (Some [("tag", JStr "t1")]) two_notes
     = (text_result (JSON_stringify (JArr (List.map Note.to_js
          (List.filter (has_tag_b "t1") (JsMap.values (notes two_notes)))))), two_notes).
Proof.
  assert (H1 : "t1" <> "") by discriminate.
  assert (H2 : tags_are_arrays two_notes).
  { intros n Hn. unfold JsMap.values in Hn. rewrite two_notes_holds in Hn.
    destruct Hn as [<-|[<-|[]]]; eexists; reflexivity. }
  split; [exact H1|]. split; [exact H2|].
  exact (proj1 (proj2 (list_notes_by_tag (engine := ascii_engine) "t1" two_notes H1 H2))).
Defined.

(** C5, as stated, fails at the empty tag: no Note of [two_notes] carries
    it, yet both are returned. *)
Lemma list_notes_empty_tag_returns_all :
  List.filter (has_tag_b "") (JsMap.values (notes two_notes)) = []
  /\ fst (call_tool (engine := ascii_engine) "list_notes" (Some [("tag", JStr "")]) two_notes)
     = text_result (JSON_stringify (JArr (List.map Note.to_js
         (JsMap.values (notes two_notes)))))
  /\ fst (call_tool (engine := ascii_engine) "list_notes" (Some [("tag", JStr "")]) two_notes)
     <> text_result (JSON_stringify (JArr (List.map Note.to_js
          (List.filter (has_tag_b "") (JsMap.values (notes two_notes)))))).
Proof.
  split; [vm_compute; reflexivity|]. split; [vm_compute; reflexivity|].
  vm_compute. discriminate.
Qed.

(** ** Searching *)

Lemma toLowerCase_empty {engine : Engine} : toLowerCase "" = "".
Proof. now apply toLowerCase_ascii. Qed.

(** Two characters have the same lower-case form exactly when they are the
    same letter. *)
Lemma lower_ascii_same_letter (c d : ascii) :
  lower_ascii c = lower_ascii d <-> same_letter c d.
Proof.
  unfold lower_ascii, same_letter, upper_of.
  pose proof (nat_ascii_bounded c) as Hc. pose proof (nat_ascii_bounded d) as Hd.
  assert (Hinj : forall x y, nat_of_ascii x = nat_of_ascii y -> x = y).
  { intros x y H. rewrite <- (ascii_nat_embedding x), <- (ascii_nat_embedding y).
    now rewrite H. }
  assert (Hup : forall x, (nat_of_ascii x <= 90)%nat ->
            nat_of_ascii (ascii_of_nat (nat_of_ascii x + 32)) = (nat_of_ascii x + 32)%nat).
  { intros x Hx. apply nat_ascii_embedding. lia. }
  destruct (Nat.leb_spec 65 (nat_of_ascii c)) as [E1|E1],
    (Nat.leb_spec (nat_of_ascii c) 90) as [E2|E2],
    (Nat.leb_spec 65 (nat_of_ascii d)) as [E3|E3],
    (Nat.leb_spec (nat_of_ascii d) 90) as [E4|E4];
    cbv beta iota zeta delta [andb];
    (split;
     [ intros H; apply (f_equal nat_of_ascii) in H; rewrite ?Hup in H by lia;
       first [left; apply Hinj; lia | right; left; lia | right; right; lia]
     | intros [H|[[H1 H]|[H1 H]]];
       [ subst d; first [reflexivity | exfalso; lia]
       | first [exfalso; lia | rewrite <- H; apply ascii_nat_embedding]
       | first [exfalso; lia | rewrite <- H; symmetry; apply ascii_nat_embedding] ] ]).
Qed.

Lemma lower_string_same_text (m Q : string) :
  lower_string m = lower_string Q <-> same_text m Q.
Proof.
  revert Q. induction m as [|c m IH]; intros [|d Q]; simpl.
  - split; [constructor | reflexivity].
  - split; [discriminate | inversion 1].
  - split; [discriminate | inversion 1].
  - split.
    + intros [= Hc Hm]. constructor; [now apply lower_ascii_same_letter | now apply IH].
    + inversion 1; subst. f_equal; [now apply lower_ascii_same_letter | now apply IH].
Qed.

Lemma lower_string_app (a b : string) :
  lower_string (a +:+ b) = lower_string a +:+ lower_string b.
Proof.
  induction a as [|c a IH]; [reflexivity|].
  change (String (lower_ascii c) (lower_string (a +:+ b))
          = String (lower_ascii c) (lower_string a +:+ lower_string b)).
  now f_equal.
Qed.

Lemma lower_string_split (s x y : string) :
  lower_string s = x +:+ y ->
  exists a b, s = a +:+ b /\ lower_string a = x /\ lower_string b = y.
Proof.
  revert s. induction x as [|c x IH]; intros s H.
  - now exists "", s.
  - destruct s as [|d s]; [discriminate|].
    change (String (lower_ascii d) (lower_string s) = String c (x +:+ y)) in H.
    injection H as Hd Hs. destruct (IH s Hs) as [a [b [-> [Ha Hb]]]].
    exists (String d a), b. split; [reflexivity|]. split; [|exact Hb].
    simpl. now rewrite Hd, Ha.
Qed.

(** On lower-cased ASCII text, "is a substring of" is "occurs, case
    ignored". *)
Lemma includes_ignoring_case (Q s : string) :
  str_includes (lower_string s) (lower_string Q) = true <-> occurs_ignoring_case Q s.
Proof.
  rewrite str_includes_spec. unfold occurs_ignoring_case. split.
  - intros [x [y H]].
    destruct (lower_string_split _ _ _ H) as [a [rest [-> [_ Hrest]]]].
    destruct (lower_string_split _ _ _ Hrest) as [m [b [-> [Hm _]]]].
    exists a, m, b. split; [reflexivity|]. now apply lower_string_same_text.
  - intros [a [m [b [-> Hm]]]]. apply lower_string_same_text in Hm.
    exists (lower_string a), (lower_string b).
    now rewrite !lower_string_app, Hm.
Qed.

Section Search.
Context {engine : Engine}.

Lemma query_matches_b_spec (Q : string) (n : Note.t) (t c : string) :
  Note.title n = JStr t -> Note.content n = JStr c ->
  query_matches_b Q n = true <-> query_matches Q n.
Proof.
  intros Ht Hc. unfold query_matches_b, query_matches, ci_substring.
  rewrite Ht, Hc, orb_true_iff, !str_includes_spec. split.
  - intros [H|H]; [left; now exists t | right; now exists c].
  - intros [[t' [[= <-] H]]|[c' [[= <-] H]]]; [now left | now right].
Qed.

Lemma matches_query_total (Q : string) (n : Note.t) (t c : string) :
  Note.title n = JStr t -> Note.content n = JStr c ->
  matches_query (toLowerCase Q) n = Returned (query_matches_b Q n).
Proof.
  intros Ht Hc. unfold matches_query, query_matches_b.
  rewrite Ht, Hc. simpl.
  now destruct (str_includes (toLowerCase t) (toLowerCase Q)).
Qed.

Lemma search_notes_run (Q : string) (w : World) :
  texts_are_strings w ->
  call_tool "search_notes" (Some [("query", JStr Q)]) w
  = (text_result (JSON_stringify (JArr (List.map Note.to_js
       (List.filter (query_matches_b Q) (JsMap.values (notes w)))))), w).
Proof.
  intros Hstr. apply call_tool_returned.
  change (tool_body "search_notes" ?a ?x) with (search_notes a x).
  unfold search_notes, bind, get_notes, ret, lift.
  change (opt_get (Some [("query", JStr Q)]) "query") with (JStr Q).
  cbv beta iota zeta delta [call_toLowerCase].
  rewrite (filter_o_total _ (query_matches_b Q)); [reflexivity|].
  intros n Hn. destruct (Hstr n Hn) as [t [c [Ht Hc]]].
  now apply matches_query_total with (t := t) (c := c).
Qed.
End Search.

(** C6, as amended: for every query string [Q], on a collection whose Notes
    have strings for title and content, [search_notes] returns, in stored
    order, exactly the Notes such that the lower-cased [Q] is a substring of
    the lower-cased title or of the lower-cased content; on ASCII text these
    are the Notes in whose title or content [Q] occurs when the case of the
    letters is ignored; the tags play no part; the empty query returns every
    Note. *)
Theorem search_notes_exact {engine : Engine} (Q : string) (w : World) :
  texts_are_strings w ->
  (forall n, In n (JsMap.values (notes w)) ->
     (query_matches_b Q n = true <-> query_matches Q n))
  /\ (forall n t c, In n (JsMap.values (notes w)) ->
        Note.title n = JStr t -> Note.content n = JStr c ->
        ascii_only Q = true -> ascii_only t = true -> ascii_only c = true ->
        (query_matches_b Q n = true
         <-> occurs_ignoring_case Q t \/ occurs_ignoring_case Q c))
  /\ call_tool "search_notes" (Some [("query", JStr Q)]) w
     = (text_result (JSON_stringify (JArr (List.map Note.to_js
          (List.filter (query_matches_b Q) (JsMap.values (notes w)))))), w)
  /\ call_tool "search_notes" (Some [("query", JStr "")]) w
     = (text_result (JSON_stringify (JArr (List.map Note.to_js
          (JsMap.values (notes w))))), w)
  /\ (forall n tags, query_matches_b Q (Note.with_tags tags n) = query_matches_b Q n).
Proof.
  intros Hstr. split; [|split; [|split; [|split; [|reflexivity]]]].
  - intros n Hn. destruct (Hstr n Hn) as [t [c [Ht Hc]]].
    now apply query_matches_b_spec with (t := t) (c := c).
  - intros n t c _ Ht Hc HQ Hta Hca. unfold query_matches_b.
    rewrite Ht, Hc, !toLowerCase_ascii by assumption.
    now rewrite orb_true_iff, !includes_ignoring_case.
  - now apply search_notes_run.
  - rewrite search_notes_run by assumption.
    rewrite filter_all_true; [reflexivity|].
    intros n Hn. destruct (Hstr n Hn) as [t [c [Ht Hc]]].
    unfold query_matches_b. rewrite Ht, Hc, toLowerCase_empty.
    now rewrite str_includes_empty.
Qed.

Lemma search_notes_exact_witness :
  texts_are_strings two_notes
  /\ call_tool (engine := ascii_engine) "search_notes" (Some [("query", JStr "Y")]) two_notes
     = ({| Tool.content :=
             [{| type := "text";
                 text := JSON_stringify (JArr [Note.to_js second_note]) |}];
           Tool.isError := None |}, two_notes)
  /\ In second_note (JsMap.values (notes two_notes))
  /\ Note.title second_note = JStr "B"
  /\ Note.content second_note = JStr "y"
  /\ query_matches_b (engine := ascii_engine) "Y" second_note = true
  /\ (occurs_ignoring_case "Y" "B" \/ occurs_ignoring_case "Y" "y")
  /\ In first_note (JsMap.values (notes two_notes))
  /\ Note.title first_note = JStr "A"
  /\ Note.content first_note = JStr "x"
  /\ ~ (occurs_ignoring_case "Y" "A" \/ occurs_ignoring_case "Y" "x").
Proof.
  assert (H : texts_are_strings two_notes).
  { intros n Hn. unfold JsMap.values in Hn. rewrite two_notes_holds in Hn.
    destruct Hn as [<-|[<-|[]]]; do 2 eexists; split; reflexivity. }
  assert (H1 : In first_note (JsMap.values (notes two_notes)))
    by (unfold JsMap.values; rewrite two_notes_holds; simpl; tauto).
  assert (H2 : In second_note (JsMap.values (notes two_notes)))
    by (unfold JsMap.values; rewrite two_notes_holds; simpl; tauto).
  pose proof (search_notes_exact (engine := ascii_engine) "Y" two_notes H)
    as [_ [Hci [Hrun _]]].
  split; [exact H|]. split; [exact Hrun|].
  split; [exact H2|]. split; [reflexivity|]. split; [reflexivity|].
  split; [reflexivity|].
  split.
  { apply (Hci second_note "B" "y" H2); reflexivity. }
  split; [exact H1|]. split; [reflexivity|]. split; [reflexivity|].
  intros Hocc.
  apply (Hci first_note "A" "x" H1) in Hocc; try reflexivity. discriminate Hocc.
Defined.

(** C6, as stated, fails: [create_note] accepts a request without a title
    and stores the Note; from then on no search returns Notes, neither the
    search for a word of its content nor the empty one: each comes back as
    an error. *)
Lemma search_notes_untitled_note :
  let created :=
    call_tool (engine := ascii_engine) "create_note" (Some [("content", JStr "x")])
      (start (ticking 1700000000000)) in
  let w := snd created in
  let failure :=
    {| Tool.content :=
         [{| type := "text";
             text := "Error: Cannot read properties of undefined (reading 'toLowerCase')" |}];
       Tool.isError := Some true |} in
  fst created = text_result "Note created successfully with ID: 1700000000000"
  /\ (exists n, JsMap.values (notes w) = [n]
        /\ Note.title n = JUndefined /\ Note.content n = JStr "x")
  /\ fst (call_tool (engine := ascii_engine) "search_notes" (Some [("query", JStr "x")]) w)
     = failure
  /\ fst (call_tool (engine := ascii_engine) "search_notes" (Some [("query", JStr "")]) w)
     = failure.
Proof.
  cbv zeta. split; [vm_compute; reflexivity|]. split.
  - eexists. split; [vm_compute; reflexivity|]. split; reflexivity.
  - split; vm_compute; reflexivity.
Qed.

Example search_notes_example :
  List.filter (query_matches_b (engine := ascii_engine) "Y") (JsMap.values (notes two_notes))
  = [second_note].
Proof. vm_compute. reflexivity. Qed.

(** ** Trimming *)

Lemma append_assoc (a b c : string) : (a +:+ b) +:+ c = a +:+ b +:+ c.
Proof.
  induction a as [|x a IH]; [reflexivity|].
  change (String x ((a +:+ b) +:+ c) = String x (a +:+ b +:+ c)). now f_equal.
Qed.

Lemma bytes_append (a b : string) :
  list_ascii_of_string (a +:+ b) = list_ascii_of_string a ++ list_ascii_of_string b.
Proof.
  induction a as [|x a IH]; [reflexivity|].
  change (x :: list_ascii_of_string (a +:+ b)
          = x :: (list_ascii_of_string a ++ list_ascii_of_string b)).
  now f_equal.
Qed.

Lemma trim_end_rev_length (s : list ascii) :
  (List.length (trim_end_rev s) <= List.length s)%nat.
Proof.
  induction s as [s IH] using (induction_ltof1 _ (@List.length ascii)).
  unfold ltof in IH.
  destruct s as [|e [|d [|c r3]]]; simpl; try lia.
  - destruct (space1 e); simpl; lia.
  - destruct (space1 e); [specialize (IH [d]); simpl in *; lia|].
    destruct (space2 d e); simpl; lia.
  - destruct (space1 e).
    { specialize (IH (d :: c :: r3)). simpl in *. lia. }
    destruct (space2 d e).
    { specialize (IH (c :: r3)). simpl in *. lia. }
    destruct (space3 c d e); [|simpl; lia].
    specialize (IH r3). simpl in *. lia.
Qed.

(** The white space the template literal ends with goes away. *)
Lemma trim_end_template_tail (s : string) :
  trim_end (s +:+ nl +:+ "      ") = trim_end s.
Proof.
  unfold trim_end. rewrite bytes_append, rev_app_distr. reflexivity.
Qed.

(** The line break the template literal starts with goes away, and nothing
    more, the next character being a letter. *)
Lemma trim_start_template_head (s : string) :
  trim_start (nl +:+ "Notes Summary" +:+ s) = "Notes Summary" +:+ s.
Proof.
  unfold trim_start.
  change (list_ascii_of_string (nl +:+ "Notes Summary" +:+ s))
    with (list_ascii_of_string nl ++ list_ascii_of_string "Not"
          ++ list_ascii_of_string ("es Summary" +:+ s)).
  change (trim_start_bytes _)
    with (list_ascii_of_string "Not" ++ list_ascii_of_string ("es Summary" +:+ s)).
  change (string_of_list_ascii _)
    with ("Not" +:+ string_of_list_ascii (list_ascii_of_string ("es Summary" +:+ s))).
  now rewrite string_of_list_ascii_of_string.
Qed.

Lemma trim_end_rev_step1 (e : ascii) (r : list ascii) :
  space1 e = true -> trim_end_rev (e :: r) = trim_end_rev r.
Proof. intros H. simpl. now rewrite H. Qed.

Lemma trim_end_rev_step2 (e d : ascii) (r : list ascii) :
  space1 e = false -> space2 d e = true ->
  trim_end_rev (e :: d :: r) = trim_end_rev r.
Proof. intros H1 H2. simpl. now rewrite H1, H2. Qed.

Lemma trim_end_rev_step3 (e d c : ascii) (r : list ascii) :
  space1 e = false -> space2 d e = false -> space3 c d e = true ->
  trim_end_rev (e :: d :: c :: r) = trim_end_rev r.
Proof. intros H1 H2 H3. simpl. now rewrite H1, H2, H3. Qed.

Local Ltac too_short H x :=
  let Hlen := fresh "Hlen" in
  exfalso; pose proof (trim_end_rev_length x) as Hlen;
  rewrite H in Hlen; simpl in Hlen; lia.

(** A string that does not end in white space keeps its end when it follows
    a space. *)
Lemma trim_end_rev_after_space (r q : list ascii) :
  r <> [] -> trim_end_rev r = r ->
  trim_end_rev (r ++ " "%char :: q) = r ++ " "%char :: q.
Proof.
  intros Hne Hfix.
  assert (Hs2 : forall e, space2 " " e = false) by reflexivity.
  assert (Hs3 : forall c e, space3 c " " e = false).
  { intros c e. unfold space3. simpl. now rewrite !andb_false_r. }
  assert (Hs3' : forall d e, space3 " " d e = false) by reflexivity.
  destruct r as [|e r]; [congruence|].
  destruct (space1 e) eqn:E1.
  { rewrite trim_end_rev_step1 in Hfix by assumption. too_short Hfix r. }
  destruct r as [|d r].
  { simpl. rewrite E1, ?Hs2. destruct q; [reflexivity|]. now rewrite ?Hs3. }
  destruct (space2 d e) eqn:E2.
  { rewrite trim_end_rev_step2 in Hfix by assumption. too_short Hfix r. }
  destruct r as [|c r].
  { simpl. now rewrite E1, E2, ?Hs3'. }
  destruct (space3 c d e) eqn:E3.
  { rewrite trim_end_rev_step3 in Hfix by assumption. too_short Hfix r. }
  simpl. now rewrite E1, E2, E3.
Qed.

Lemma trim_end_fixed (s : string) :
  trim_end s = s ->
  trim_end_rev (rev (list_ascii_of_string s)) = rev (list_ascii_of_string s).
Proof.
  unfold trim_end. intros H.
  apply (f_equal list_ascii_of_string) in H.
  rewrite list_ascii_of_string_of_list_ascii in H.
  apply (f_equal (@rev ascii)) in H. now rewrite rev_involutive in H.
Qed.

Lemma trim_end_after_space (p s : string) :
  s <> "" -> trim_end s = s -> trim_end (p +:+ " " +:+ s) = p +:+ " " +:+ s.
Proof.
  intros Hne Hfix. apply trim_end_fixed in Hfix.
  unfold trim_end. rewrite !bytes_append, !rev_app_distr.
  change (rev (list_ascii_of_string " ")) with [" "%char].
  rewrite <- app_assoc. simpl ([_] ++ _).
  rewrite trim_end_rev_after_space; [| |exact Hfix].
  - change (" "%char :: rev (list_ascii_of_string p))
      with (rev (list_ascii_of_string " ") ++ rev (list_ascii_of_string p)).
    rewrite app_assoc, <- !rev_app_distr, <- !bytes_append.
    rewrite rev_involutive. rewrite <- append_assoc.
    rewrite string_of_list_ascii_of_string. now rewrite append_assoc.
  - destruct s; [congruence|]. simpl. intros H. now apply app_eq_nil in H as [_ [=]].
Qed.

(** ** The summary view *)

Lemma see_In (seen : list string) (x y : string) :
  In y (see seen x) <-> In y seen \/ y = x.
Proof.
  unfold see. destruct (existsb _ seen) eqn:E.
  - apply existsb_exists in E as [z [Hz Hzx]]. apply String.eqb_eq in Hzx.
    subst z. split; [tauto | intros [?| ->]; assumption].
  - rewrite in_app_iff. simpl. intuition congruence.
Qed.

Lemma see_NoDup (seen : list string) (x : string) :
  NoDup seen -> NoDup (see seen x).
Proof.
  intros Hnd. unfold see. destruct (existsb _ seen) eqn:E; [assumption|].
  apply NoDup_app. split; [assumption|]. split; [|apply NoDup_singleton].
  intros y Hy Hyx. apply list_elem_of_In in Hy, Hyx.
  destruct Hyx as [<-|[]].
  assert (existsb (fun z => String.eqb z x) seen = true); [|congruence].
  apply existsb_exists. exists x. split; [assumption|].
  apply String.eqb_refl.
Qed.

Lemma fold_see_In (l seen : list string) (y : string) :
  In y (fold_left see l seen) <-> In y seen \/ In y l.
Proof.
  revert seen. induction l as [|x l IH]; intros seen; simpl; [tauto|].
  rewrite IH, see_In. intuition congruence.
Qed.

Lemma fold_see_NoDup (l seen : list string) :
  NoDup seen -> NoDup (fold_left see l seen).
Proof.
  revert seen. induction l as [|x l IH]; intros seen Hnd; simpl; [assumption|].
  apply IH. now apply see_NoDup.
Qed.

(** [distinct l] lists the values of [l], each once. *)
Lemma distinct_spec (l : list string) :
  NoDup (distinct l) /\ forall x, In x (distinct l) <-> In x l.
Proof.
  split; [apply fold_see_NoDup; constructor|].
  intros x. unfold distinct. rewrite fold_see_In. simpl. tauto.
Qed.

Lemma new_Set_strings (l : list string) :
  new_Set (List.map JStr l) = List.map JStr (distinct l).
Proof.
  unfold new_Set, distinct.
  change (@nil JsVal) with (List.map JStr []).
  generalize (@nil string) as seen.
  induction l as [|x l IH]; intros seen; simpl; [reflexivity|].
  rewrite <- IH. f_equal. unfold set_add, see.
  assert (E : existsb (fun y => same_value_zero y (JStr x)) (List.map JStr seen)
              = existsb (fun y => String.eqb y x) seen).
  { clear. induction seen as [|z seen IH]; simpl; [reflexivity | now rewrite IH]. }
  rewrite E. destruct (existsb _ seen); [reflexivity|].
  now rewrite List.map_app.
Qed.

Lemma arr_join_strings (sep : string) (l : list string) :
  arr_join sep (List.map JStr l) = Returned (join sep l).
Proof.
  unfold arr_join.
  assert (H : map_o join_item (List.map JStr l) = Returned l).
  { induction l as [|x l IH]; simpl; [reflexivity|]. now rewrite IH. }
  now rewrite H.
Qed.

Lemma flat_tags_strings (ns : list Note.t) :
  (forall n, In n ns -> exists ts : list string, Note.tags n = JArr (List.map JStr ts)) ->
  flat_tags ns = List.map JStr (flat_map tag_strings ns).
Proof.
  induction ns as [|n ns IH]; intros Hty; simpl; [reflexivity|].
  unfold flat_tags in *. simpl. rewrite List.map_app.
  rewrite IH by (intros; apply Hty; now right). f_equal.
  destruct (Hty n) as [ts Hts]; [now left|].
  unfold tag_strings. rewrite Hts. clear.
  induction ts as [|t ts IH]; simpl; [reflexivity | now f_equal].
Qed.

Lemma summary_block_trimmed (total unique : nat) (tags : string) :
  tags <> "" -> trim_end tags = tags ->
  trim_end (summary_block total unique tags) = summary_block total unique tags.
Proof.
  intros Hne Hfix. unfold summary_block.
  change ("Tags: " +:+ tags) with ("Tags:" +:+ " " +:+ tags).
  rewrite <- !append_assoc.
  rewrite (append_assoc _ " " tags).
  now apply trim_end_after_space.
Qed.

Lemma tags_line_nonempty (ts : list string) : tags_line ts <> "".
Proof.
  unfold tags_line. destruct (String.eqb (join ", " ts) "") eqn:E; [discriminate|].
  now apply String.eqb_neq.
Qed.

Lemma summary_text_run (w : World) :
  tags_are_string_arrays w ->
  summary_text w
  = Returned (trim_end (summary_block (List.length (notes w))
                          (List.length (distinct (all_tag_strings w)))
                          (tags_line (distinct (all_tag_strings w))))).
Proof.
  intros Hty. unfold summary_text.
  rewrite (flat_tags_strings _ Hty), new_Set_strings, arr_join_strings.
  fold (all_tag_strings w). simpl obind. f_equal.
  unfold trim. rewrite trim_start_template_head.
  unfold JsMap.values. rewrite !length_map.
  fold (tags_line (distinct (all_tag_strings w))).
  rewrite <- trim_end_template_tail
    with (s := summary_block _ _ (tags_line (distinct (all_tag_strings w)))).
  f_equal. unfold summary_block. now rewrite !append_assoc.
Qed.

(** C7, as amended: for every collection whose Notes have arrays of strings
    for tags, the summary view is the plain-text block giving the number of
    Notes, the number of distinct tag values and those values, each at its
    first occurrence, joined by [", "] -- or ["none"] when the joined text
    is empty -- with the white space at the end of the block removed; the
    block is returned whole when its tags text does not end in white
    space, and the tags text is ["none"] when there are no tags. *)
Theorem summary_view (w : World) :
  tags_are_string_arrays w ->
  let ts := distinct (all_tag_strings w) in
  NoDup ts
  /\ (forall x, In x ts <-> In x (all_tag_strings w))
  /\ read_resource "notes://summary" w
     = Returned (summary_contents
         (trim_end (summary_block (List.length (notes w)) (List.length ts) (tags_line ts))))
  /\ (trim_end (tags_line ts) = tags_line ts ->
      read_resource "notes://summary" w
      = Returned (summary_contents
          (summary_block (List.length (notes w)) (List.length ts) (tags_line ts))))
  /\ (all_tag_strings w = [] -> tags_line ts = "none").
Proof.
  intros Hty ts.
  assert (Hread : read_resource "notes://summary" w
     = Returned (summary_contents
         (trim_end (summary_block (List.length (notes w)) (List.length ts) (tags_line ts))))).
  { unfold read_resource.
    change (String.eqb "notes://summary" "notes://all") with false.
    change (String.eqb "notes://summary" "notes://summary") with true.
    cbv iota. now rewrite summary_text_run. }
  split; [apply distinct_spec|]. split; [apply distinct_spec|].
  split; [exact Hread|]. split.
  - intros Hfix. rewrite Hread.
    rewrite summary_block_trimmed; [reflexivity | apply tags_line_nonempty | exact Hfix].
  - intros Hnone. unfold ts. now rewrite Hnone.
Qed.

Lemma summary_view_witness :
  tags_are_string_arrays three_notes
  /\ read_resource "notes://summary" three_notes
     = Returned (summary_contents
         ("Notes Summary" +:+ nl +:+ "=============" +:+ nl
          +:+ "Total notes: 3" +:+ nl +:+ "Unique tags: 2" +:+ nl
          +:+ "Tags: work, personal")).
Proof.
  assert (H : tags_are_string_arrays three_notes).
  { intros n Hn. vm_compute in Hn.
    destruct Hn as [<-|[<-|[<-|[]]]];
      [exists ["work"] | exists ["work"] | exists ["personal"]]; reflexivity. }
  split; [exact H|].
  assert (Hclean : let ts := distinct (all_tag_strings three_notes) in
                   trim_end (tags_line ts) = tags_line ts)
    by (vm_compute; reflexivity).
  exact (proj1 (proj2 (proj2 (proj2 (summary_view three_notes H)))) Hclean).
Defined.

(** C7, as stated, fails on a Note whose only tag is the empty string (one
    tag is counted and "none" is shown) and on a tag that ends in a space
    (the space is lost). *)
Lemma summary_view_edge_cases :
  (read_resource "notes://summary" (one_note "")
   = Returned (summary_contents
       ("Notes Summary" +:+ nl +:+ "=============" +:+ nl
        +:+ "Total notes: 1" +:+ nl +:+ "Unique tags: 1" +:+ nl +:+ "Tags: none"))
   /\ distinct (all_tag_strings (one_note "")) = [""]
   /\ read_resource "notes://summary" (one_note "")
      <> Returned (summary_contents (spec_summary (one_note ""))))
  /\ (read_resource "notes://summary" (one_note "a ")
      = Returned (summary_contents
          ("Notes Summary" +:+ nl +:+ "=============" +:+ nl
           +:+ "Total notes: 1" +:+ nl +:+ "Unique tags: 1" +:+ nl +:+ "Tags: a"))
      /\ read_resource "notes://summary" (one_note "a ")
         <> Returned (summary_contents (spec_summary (one_note "a ")))).
Proof.
  repeat split; try (vm_compute; reflexivity); vm_compute; discriminate.
Qed.

(** ** Worlds the process can reach *)

Section Reachable.
Context {engine : Engine}.

Lemma update_note_returned args w r w' :
  update_note args w = (Returned r, w') ->
  exists k note, opt_get args "id" = JStr k /\ JsMap.get k (notes w) = Some note.
Proof.
  unfold update_note, not_found, bind, get_notes, lift, throw. cbv zeta.
  destruct (opt_get args "id") as [| |b|r0|k|xs|ps];
    cbv beta iota delta [notes_get];
    try (destruct (to_string _); discriminate).
  destruct (JsMap.get k (notes w)) as [note|] eqn:Hget; [|discriminate].
  intros _. now exists k, note.
Qed.

Lemma delete_note_returned args w r w' :
  delete_note args w = (Returned r, w') ->
  exists k note, opt_get args "id" = JStr k /\ JsMap.get k (notes w) = Some note.
Proof.
  unfold delete_note, not_found, bind, get_notes, lift, throw. cbv zeta.
  destruct (opt_get args "id") as [| |b|r0|k|xs|ps];
    cbv beta iota;
    try (destruct (to_string _); discriminate).
  unfold JsMap.has.
  destruct (JsMap.get k (notes w)) as [note|] eqn:Hget; [|discriminate].
  intros _. now exists k, note.
Qed.

(** What a tool call can do to the world: nothing, or the [notes.set] of
    [create_note], or that of [update_note], or a [notes.delete]. *)
Lemma call_tool_effect (name : string) (args : option Obj) (w : World) :
  snd (call_tool name args w) = w
  \/ (name = "create_note"
      /\ snd (call_tool name args w)
         = mkWorld (JsMap.set (pretty (clock w (reads w))) (created args w) (notes w))
             (clock w) (S (S (S (reads w)))))
  \/ (name = "update_note"
      /\ exists k note,
           JsMap.get k (notes w) = Some note
           /\ snd (call_tool name args w)
              = mkWorld (JsMap.set k (updated args w note) (notes w))
                  (clock w) (S (reads w)))
  \/ (name = "delete_note"
      /\ exists k,
           snd (call_tool name args w)
           = mkWorld (JsMap.delete k (notes w)) (clock w) (reads w)).
Proof.
  destruct (tool_body name args w) as [[r|e] w'] eqn:Hbody.
  2:{ left. rewrite (call_tool_thrown _ _ _ _ _ Hbody). simpl.
      now apply tool_body_thrown_unchanged in Hbody. }
  rewrite (call_tool_returned _ _ _ _ _ Hbody). simpl.
  revert Hbody. unfold tool_body.
  destruct (String.eqb name "create_note") eqn:E1.
  { apply String.eqb_eq in E1. rewrite create_note_run. intros [= _ <-].
    right. now left. }
  destruct (String.eqb name "list_notes").
  { unfold list_notes, bind, get_notes, ret, lift. cbv zeta.
    intros H. left. repeat (case_match; simplify_eq). all: reflexivity. }
  destruct (String.eqb name "get_note").
  { unfold get_note, not_found, bind, get_notes, ret, lift, throw. cbv zeta.
    intros H. left. repeat (case_match; simplify_eq). all: reflexivity. }
  destruct (String.eqb name "update_note") eqn:E4.
  { apply String.eqb_eq in E4. intros Hrun.
    destruct (update_note_returned _ _ _ _ Hrun) as [k [note [Hid Hget]]].
    revert Hrun.
    rewrite (update_note_found args k note w Hid Hget). intros [= _ <-].
    right. right. left. split; [assumption|]. now exists k, note. }
  destruct (String.eqb name "delete_note") eqn:E5.
  { apply String.eqb_eq in E5. intros Hrun.
    destruct (delete_note_returned _ _ _ _ Hrun) as [k [note [Hid Hget]]].
    revert Hrun.
    rewrite (delete_note_found args k note w Hid Hget). intros [= _ <-].
    right. right. right. split; [assumption|]. now exists k. }
  destruct (String.eqb name "search_notes"); [|discriminate].
  unfold search_notes, bind, get_notes, ret, lift. cbv zeta.
  intros H. left. repeat (case_match; simplify_eq). all: reflexivity.
Qed.
End Reachable.

(** ** The invariant of the collection *)

Module JsMapInv.
Section Facts.
Context {V : Type}.
Implicit Types (m : list (string * V)) (k : string) (v : V).

Lemma In_set k v m e : In e (JsMap.set k v m) -> e = (k, v) \/ In e m.
Proof.
  induction m as [|[k' v'] m IH]; simpl.
  - intros [<-|[]]. now left.
  - destruct (String.eqb k' k); simpl; intros [<-|Hin]; auto.
    destruct (IH Hin); auto.
Qed.

Lemma In_delete k m e : In e (JsMap.delete k m) -> In e m.
Proof. unfold JsMap.delete. rewrite filter_In. tauto. Qed.

Lemma NoDup_keys_set k v m :
  NoDup (JsMap.keys m) -> NoDup (JsMap.keys (JsMap.set k v m)).
Proof.
  intros Hnd. destruct (in_dec string_dec k (JsMap.keys m)) as [Hin|Hout].
  - now rewrite JsMapFacts.keys_set_present.
  - rewrite JsMapFacts.keys_set_absent by assumption.
    apply NoDup_app. split; [assumption|]. split; [|apply NoDup_singleton].
    intros x Hx Hxk. apply list_elem_of_In in Hx, Hxk.
    destruct Hxk as [<-|[]]. contradiction.
Qed.

Lemma NoDup_keys_delete k m :
  NoDup (JsMap.keys m) -> NoDup (JsMap.keys (JsMap.delete k m)).
Proof.
  unfold JsMap.keys, JsMap.delete.
  induction m as [|[k' v'] m IH]; simpl; [trivial|].
  intros Hnd. apply NoDup_cons in Hnd as [Hout Hnd].
  destruct (String.eqb k' k); simpl; [now apply IH|].
  apply NoDup_cons. split; [|now apply IH].
  intros Hin. apply Hout. apply list_elem_of_In in Hin. apply list_elem_of_In.
  apply in_map_iff in Hin as [[k0 v0] [Hk Hin]]. simpl in Hk. subst k0.
  apply filter_In in Hin as [Hin _].
  apply in_map_iff. now exists (k', v0).
Qed.
End Facts.
End JsMapInv.

Lemma stamped_note_later clk taken taken' k n :
  (taken <= taken')%nat -> stamped_note clk taken k n -> stamped_note clk taken' k n.
Proof.
  intros Hle [Hid [i0 [i [j [Hij [Hj H]]]]]]. split; [assumption|].
  exists i0, i, j. split; [assumption|]. split; [lia | assumption].
Qed.

Lemma reachable_stamped {engine : Engine} (clk : nat -> Z) (w : World) :
  reachable clk w -> stamped clk w.
Proof.
  induction 1 as [|name args w Hreach [Hclk [Hnd Hnotes]]].
  - split; [reflexivity|]. split; [constructor|]. intros k n [].
  - destruct (call_tool_effect name args w)
      as [->|[[_ ->]|[[_ [k [note [Hget ->]]]]|[_ [k ->]]]]]; simpl.
    + split; [assumption|]. now split.
    + split; [assumption|]. split; [now apply JsMapInv.NoDup_keys_set|].
      intros k n Hin. apply JsMapInv.In_set in Hin as [[= -> ->]|Hin].
      * split; [reflexivity|].
        exists (reads w), (S (reads w)), (S (S (reads w))).
        rewrite <- Hclk. simpl. repeat split; try reflexivity; lia.
      * apply stamped_note_later with (taken := reads w); [simpl; lia|]. now apply Hnotes.
    + split; [assumption|]. split; [now apply JsMapInv.NoDup_keys_set|].
      intros k' n Hin. apply JsMapInv.In_set in Hin as [[= -> ->]|Hin].
      * apply JsMapFacts.get_Some_In in Hget.
        destruct (Hnotes _ _ Hget) as [Hid [i0 [i [j [Hij [Hj [Hk [Hc Hu]]]]]]]].
        split; [exact Hid|].
        exists i0, i, (reads w). simpl.
        repeat split; try assumption; try lia.
        now rewrite <- Hclk.
      * apply stamped_note_later with (taken := reads w); [simpl; lia|]. now apply Hnotes.
    + split; [assumption|]. split; [now apply JsMapInv.NoDup_keys_delete|].
      intros k' n Hin. apply JsMapInv.In_delete in Hin. now apply Hnotes.
Qed.

(** ** Updating *)

Lemma ticking_monotone (t0 : Z) : monotone (ticking t0).
Proof. intros i j Hij. unfold ticking. lia. Qed.

(** C2, as amended: [update_note] on the id of a stored Note succeeds and
    overwrites exactly those of title, content and tags whose argument is
    truthy; an argument that is omitted or falsy (the empty string, for one)
    leaves its field as it was, and so are the id, the creation time and
    every other Note; in a world the process can reach on a clock that never
    goes back, the update time becomes the rendering of an instant not
    earlier than the one it rendered before.  In particular [{content: X}]
    with a non-empty string [X] leaves the title and the tags unchanged and
    makes the content [X]. *)
Theorem update_note_partial {engine : Engine}
    (w : World) (k : string) (note : Note.t) (args : option Obj) :
  JsMap.get k (notes w) = Some note ->
  opt_get args "id" = JStr k ->
  exists w' note',
    call_tool "update_note" args w
      = (text_result ("Note " +:+ k +:+ " updated successfully"), w')
    /\ JsMap.get k (notes w') = Some note'
    /\ (forall k', k' <> k -> JsMap.get k' (notes w') = JsMap.get k' (notes w))
    /\ JsMap.keys (notes w') = JsMap.keys (notes w)
    /\ Note.id note' = Note.id note
    /\ Note.createdAt note' = Note.createdAt note
    /\ Note.title note'
       = (if truthy (opt_get args "title") then opt_get args "title" else Note.title note)
    /\ Note.content note'
       = (if truthy (opt_get args "content") then opt_get args "content"
          else Note.content note)
    /\ Note.tags note'
       = (if truthy (opt_get args "tags") then opt_get args "tags" else Note.tags note)
    /\ (forall clk, monotone clk -> reachable clk w ->
        exists t0 t1,
          Note.updatedAt note = toISOString t0
          /\ Note.updatedAt note' = toISOString t1
          /\ t0 <= t1)
    /\ (forall X : string,
          X <> "" ->
          opt_get args "content" = JStr X ->
          opt_get args "title" = JUndefined ->
          opt_get args "tags" = JUndefined ->
          Note.title note' = Note.title note
          /\ Note.tags note' = Note.tags note
          /\ Note.content note' = JStr X).
Proof.
  intros Hget Hid.
  exists (mkWorld (JsMap.set k (updated args w note) (notes w)) (clock w) (S (reads w))),
         (updated args w note).
  split.
  { apply call_tool_returned.
    change (tool_body "update_note" args w) with (update_note args w).
    now apply update_note_found. }
  split; [apply JsMapFacts.get_set_eq|].
  split; [intros k' Hne; apply JsMapFacts.get_set_ne; congruence|].
  split.
  { apply JsMapFacts.keys_set_present.
    apply JsMapFacts.get_Some_In in Hget.
    apply in_map_iff. now exists (k, note). }
  do 5 (split; [reflexivity|]).
  split.
  - intros clk Hmono Hreach.
    destruct (reachable_stamped clk w Hreach) as [Hclk [_ Hnotes]].
    apply JsMapFacts.get_Some_In in Hget.
    destruct (Hnotes _ _ Hget) as [_ [i0 [i [j [Hij [Hj [_ [_ Hu]]]]]]]].
    exists (clk j), (clk (reads w)). split; [exact Hu|].
    split; [simpl; now rewrite Hclk|]. apply Hmono. lia.
  - intros X HX Hc Ht Hg. unfold updated; simpl. rewrite Hc, Ht, Hg. simpl.
    apply String.eqb_neq in HX. now rewrite HX.
Qed.

Lemma update_note_partial_witness :
  let args := Some [("id", JStr "1700000000000"); ("content", JStr "z")] in
  monotone (ticking 1700000000000)
  /\ reachable (engine := ascii_engine) (ticking 1700000000000) after_create
  /\ JsMap.get "1700000000000" (notes after_create) = Some first_note
  /\ opt_get args "id" = JStr "1700000000000"
  /\ exists w' note',
       call_tool (engine := ascii_engine) "update_note" args after_create
         = (text_result "Note 1700000000000 updated successfully", w')
       /\ JsMap.get "1700000000000" (notes w') = Some note'
       /\ Note.title note' = JStr "A"
       /\ Note.tags note' = JArr [JStr "t1"]
       /\ Note.content note' = JStr "z"
       /\ exists t0 t1,
            Note.updatedAt first_note = toISOString t0
            /\ Note.updatedAt note' = toISOString t1
            /\ t0 <= t1.
Proof.
  intros args.
  assert (H1 : monotone (ticking 1700000000000)) by apply ticking_monotone.
  assert (H2 : reachable (engine := ascii_engine) (ticking 1700000000000) after_create)
    by (apply reach_call, reach_start).
  assert (H3 : JsMap.get "1700000000000" (notes after_create) = Some first_note)
    by (vm_compute; reflexivity).
  assert (H4 : opt_get args "id" = JStr "1700000000000") by reflexivity.
  split; [exact H1|]. split; [exact H2|]. split; [exact H3|]. split; [exact H4|].
  destruct (update_note_partial (engine := ascii_engine)
              after_create "1700000000000" first_note args H3 H4)
    as [w' [note' [Hrun [Hget [_ [_ [_ [_ [_ [_ [_ [Htime Hx]]]]]]]]]]]].
  destruct (Hx "z") as [Ht [Hg Hc]]; [discriminate | reflexivity..|].
  specialize (Htime (ticking 1700000000000) H1 H2).
  exists w', note'. repeat split; assumption.
Defined.

(** C2, as stated, fails for the empty string: the update succeeds and the
    content is still what it was.  And when the system clock is set back
    between the creation and the update, the update time is earlier than it
    was. *)
Lemma update_note_edge_cases :
  (let args := Some [("id", JStr "1700000000000"); ("content", JStr "")] in
   let after := call_tool (engine := ascii_engine) "update_note" args after_create in
   JsMap.get "1700000000000" (notes after_create) = Some first_note
   /\ fst after = text_result "Note 1700000000000 updated successfully"
   /\ exists note',
        JsMap.get "1700000000000" (notes (snd after)) = Some note'
        /\ Note.content note' = JStr "x"
        /\ Note.content note' <> JStr "")
  /\ (let args := Some [("id", JStr "1700000000000"); ("content", JStr "z")] in
      let before := snd (call_tool (engine := ascii_engine) "create_note"
                           (create_args "A" "x" ["t1"])
                           (start (set_back 1700000000000))) in
      let after := call_tool (engine := ascii_engine) "update_note" args before in
      fst after = text_result "Note 1700000000000 updated successfully"
      /\ exists note note',
           JsMap.get "1700000000000" (notes before) = Some note
           /\ JsMap.get "1700000000000" (notes (snd after)) = Some note'
           /\ Note.updatedAt note = "2023-11-14T22:13:20.002Z"
           /\ Note.updatedAt note' = "2023-11-14T22:13:10.000Z"
           /\ String.compare (Note.updatedAt note') (Note.updatedAt note) = Lt).
Proof.
  split.
  - vm_compute. split; [reflexivity|]. split; [reflexivity|].
    eexists. split; [reflexivity|]. split; [reflexivity|]. discriminate.
  - vm_compute. split; [reflexivity|].
    do 2 eexists. repeat split.
Qed.

(** ** Ids *)

(** C1 fails when two Notes are created in the same millisecond: both calls
    report the same id and the second Note replaces the first; likewise a
    Note created in the millisecond in which another was created and deleted
    gets the id of the deleted one. *)
Theorem create_note_same_millisecond :
  let A := Some [("title", JStr "A"); ("content", JStr "x")] in
  let B := Some [("title", JStr "B"); ("content", JStr "y")] in
  let first := call_tool (engine := ascii_engine) "create_note" A
                 (start (frozen 1700000000000)) in
  let second := call_tool (engine := ascii_engine) "create_note" B (snd first) in
  let deleted := call_tool (engine := ascii_engine) "delete_note"
                   (Some [("id", JStr "1700000000000")]) (snd first) in
  let again := call_tool (engine := ascii_engine) "create_note" B (snd deleted) in
  fst first = text_result "Note created successfully with ID: 1700000000000"
  /\ fst second = text_result "Note created successfully with ID: 1700000000000"
  /\ JsMap.keys (notes (snd second)) = ["1700000000000"]
  /\ option_map Note.title (JsMap.get "1700000000000" (notes (snd second)))
     = Some (JStr "B")
  /\ fst deleted = text_result "Note 1700000000000 deleted successfully"
  /\ fst again = text_result "Note created successfully with ID: 1700000000000"
  /\ option_map Note.title (JsMap.get "1700000000000" (notes (snd again)))
     = Some (JStr "B").
Proof. vm_compute. repeat split. Qed.

Section Ids.
Context {engine : Engine}.



End Ids.

(** ** Typed requests keep the collection typed *)

Lemma In_values_set {V} (k : string) (v x : V) (m : list (string * V)) :
  In x (JsMap.values (JsMap.set k v m)) -> x = v \/ In x (JsMap.values m).
Proof.
  unfold JsMap.values. rewrite !in_map_iff.
  intros [[k' x'] [Hx Hin]]. simpl in Hx. subst x'.
  apply JsMapInv.In_set in Hin as [[= _ ->]|Hin]; [now left|].
  right. now exists (k', x).
Qed.

Lemma In_values_delete {V} (k : string) (x : V) (m : list (string * V)) :
  In x (JsMap.values (JsMap.delete k m)) -> In x (JsMap.values m).
Proof.
  unfold JsMap.values. rewrite !in_map_iff.
  intros [e [Hx Hin]]. apply JsMapInv.In_delete in Hin. now exists e.
Qed.

Lemma In_values_get {V} (k : string) (v : V) (m : list (string * V)) :
  JsMap.get k m = Some v -> In v (JsMap.values m).
Proof.
  intros Hget. apply JsMapFacts.get_Some_In in Hget.
  unfold JsMap.values. apply in_map_iff. now exists (k, v).
Qed.

Lemma overwrite_string (arg old : JsVal) :
  absent_or is_string arg -> is_string old ->
  is_string (if truthy arg then arg else old).
Proof. intros [->|[s ->]] Hold; [exact Hold|]. destruct (truthy _); [now exists s | exact Hold]. Qed.

Lemma overwrite_string_array (arg old : JsVal) :
  absent_or is_string_array arg -> is_string_array old ->
  is_string_array (if truthy arg then arg else old).
Proof. intros [->|[ts ->]] Hold; [exact Hold | now exists ts]. Qed.

Lemma served_reachable {engine : Engine} (clk : nat -> Z) (w : World) :
  served clk w -> reachable clk w.
Proof. induction 1; [apply reach_start | now apply reach_call]. Qed.

(** However many requests were served, if they all obeyed the schemas the
    stored Notes have strings for title and content and arrays of strings
    for tags. *)
Lemma served_well_typed {engine : Engine} (clk : nat -> Z) (w : World) :
  served clk w -> well_typed w.
Proof.
  assert (Hsplit : forall w',
            (forall n, In n (JsMap.values (notes w')) ->
               is_string (Note.title n) /\ is_string (Note.content n)
               /\ is_string_array (Note.tags n)) ->
            well_typed w').
  { intros w' H. split; intros n Hn; destruct (H n Hn) as [[t Ht] [[c Hc] Hg]];
      [now exists t, c | exact Hg]. }
  intros Hs. apply Hsplit. clear Hsplit.
  induction Hs as [|name args w Hs IH [Hcreate Hupdate]]; [intros n []|].
  destruct (call_tool_effect name args w)
    as [->|[[Hname ->]|[[Hname [k [note [Hget ->]]]]|[_ [k ->]]]]]; simpl.
  - exact IH.
  - intros n [->|Hn]%In_values_set; [|now apply IH].
    destruct (Hcreate Hname) as [Ht [Hc Hg]]. unfold created; simpl.
    split; [exact Ht|]. split; [exact Hc|].
    apply overwrite_string_array; [exact Hg | now exists []].
  - intros n [->|Hn]%In_values_set; [|now apply IH].
    destruct (Hupdate Hname) as [Ht [Hc Hg]].
    destruct (IH note (In_values_get _ _ _ Hget)) as [Ht0 [Hc0 Hg0]].
    unfold updated; simpl.
    split; [now apply overwrite_string|].
    split; [now apply overwrite_string | now apply overwrite_string_array].
  - intros n Hn%In_values_delete. now apply IH.
Qed.

(** ** A session, and what lies outside the typing assumptions *)

(** Two Notes are created, listed in insertion order, filtered by tag and
    searched; the first is deleted and the list shows the second. *)
Example session :
  let run name args w := call_tool (engine := ascii_engine) name args w in
  let w2 := two_notes in
  let deleted := run "delete_note" (Some [("id", JStr "1700000000000")]) w2 in
  fst (run "list_notes" None w2)
    = text_result (JSON_stringify (JArr [Note.to_js first_note; Note.to_js second_note]))
  /\ fst (run "list_notes" (Some [("tag", JStr "t1")]) w2)
     = text_result (JSON_stringify (JArr [Note.to_js first_note]))
  /\ fst (run "search_notes" (Some [("query", JStr "y")]) w2)
     = text_result (JSON_stringify (JArr [Note.to_js second_note]))
  /\ fst deleted = text_result "Note 1700000000000 deleted successfully"
  /\ fst (run "list_notes" None (snd deleted))
     = text_result (JSON_stringify (JArr [Note.to_js second_note])).
Proof. vm_compute. repeat split. Qed.

(** A Note created without a title makes every later search fail, in band. *)
Example search_after_untitled_note :
  let w := snd (call_tool (engine := ascii_engine) "create_note" (Some [])
                  (start (ticking 1700000000000))) in
  fst (call_tool (engine := ascii_engine) "search_notes" (Some [("query", JStr "a")]) w)
  = error_result "Error: Cannot read properties of undefined (reading 'toLowerCase')".
Proof. vm_compute. reflexivity. Qed.

(** Tags stored as one string are searched as a string: the tag filter then
    matches parts of it. *)
Example list_notes_string_tags :
  let w := snd (call_tool (engine := ascii_engine) "create_note"
                  (Some [("title", JStr "A"); ("content", JStr "x");
                         ("tags", JStr "homework")])
                  (start (ticking 1700000000000))) in
  fst (call_tool (engine := ascii_engine) "list_notes" (Some [("tag", JStr "work")]) w)
  = text_result (JSON_stringify (JArr
      [Note.to_js (Note.make "1700000000000" (JStr "A") (JStr "x") (JStr "homework")
                     "2023-11-14T22:13:20.001Z" "2023-11-14T22:13:20.002Z")])).
Proof. vm_compute. reflexivity. Qed.

(** * Further properties of the handlers *)

(** ** What can go wrong *)

(** Induction on a value with the hypothesis for the items of an array. *)
Lemma JsVal_nested_ind (P : JsVal -> Prop) :
  P JUndefined -> P JNull -> (forall b, P (JBool b)) -> (forall r, P (JNum r)) ->
  (forall s, P (JStr s)) ->
  (forall items, Forall P items -> P (JArr items)) ->
  (forall props, P (JObj props)) ->
  forall v, P v.
Proof.
  intros Hu Hn Hb Hr Hs Ha Ho. fix IH 1.
  intros [| |b|r|s|items|props];
    [exact Hu | exact Hn | apply Hb | apply Hr | apply Hs | | apply Ho].
  apply Ha. induction items as [|x items IHitems]; constructor; [apply IH | exact IHitems].
Qed.

Lemma map_o_thrown {A B} (f : A -> Outcome B) (xs : list A) (e : Exn) :
  map_o f xs = Thrown e -> exists x, In x xs /\ f x = Thrown e.
Proof.
  induction xs as [|x xs IH]; simpl; [discriminate|].
  destruct (f x) as [y|e'] eqn:Ex; simpl.
  - destruct (map_o f xs) as [ys|e'']; simpl; [discriminate|].
    intros [= <-]. destruct IH as [x' [Hin Hx']]; [reflexivity|].
    exists x'. split; [now right | exact Hx'].
  - intros [= <-]. exists x. split; [now left | exact Ex].
Qed.

Lemma filter_o_thrown {A} (p : A -> Outcome bool) (xs : list A) (e : Exn) :
  filter_o p xs = Thrown e -> exists x, In x xs /\ p x = Thrown e.
Proof.
  induction xs as [|x xs IH]; simpl; [discriminate|].
  destruct (p x) as [y|e'] eqn:Ex; simpl.
  - destruct (filter_o p xs) as [ys|e'']; simpl; [discriminate|].
    intros [= <-]. destruct IH as [x' [Hin Hx']]; [reflexivity|].
    exists x'. split; [now right | exact Hx'].
  - intros [= <-]. exists x. split; [now left | exact Ex].
Qed.

(** ToString of an array is its [join(",")]. *)
Lemma to_string_array (items : list JsVal) :
  to_string (JArr items) = arr_join "," items.
Proof.
  unfold arr_join. simpl. f_equal.
  induction items as [|x items IH]; [reflexivity|].
  simpl. rewrite IH. now destruct x.
Qed.

(** The only exception ToString raises on a request value. *)
Lemma to_string_thrown (v : JsVal) (e : Exn) :
  to_string v = Thrown e -> e = TypeError NoPrimitiveValue.
Proof.
  revert e. induction v as [| |b|r|s|items IH|props] using JsVal_nested_ind;
    intros e; try discriminate.
  - destruct b; discriminate.
  - rewrite to_string_array. unfold arr_join.
    destruct (map_o join_item items) as [parts|e'] eqn:Emap; simpl; [discriminate|].
    intros [= <-]. apply map_o_thrown in Emap as [x [Hin Hx]].
    rewrite Forall_forall in IH. apply (IH x); [now apply list_elem_of_In|].
    destruct x; simpl in Hx; try discriminate; exact Hx.
  - simpl. destruct (own_prop props "toString"); [now intros [= <-] | discriminate].
Qed.

Lemma arr_join_thrown (sep : string) (items : list JsVal) (e : Exn) :
  arr_join sep items = Thrown e -> e = TypeError NoPrimitiveValue.
Proof.
  unfold arr_join.
  destruct (map_o join_item items) as [parts|e'] eqn:Emap; simpl; [discriminate|].
  intros [= <-]. apply map_o_thrown in Emap as [x [_ Hx]].
  apply (to_string_thrown x). destruct x; simpl in Hx; try discriminate; exact Hx.
Qed.

Lemma call_includes_thrown (recv arg : JsVal) (e : Exn) :
  call_includes recv arg = Thrown e -> exists f, e = TypeError f.
Proof.
  destruct recv; simpl; try (intros [= <-]; eauto).
  destruct (to_string arg) as [sub|e'] eqn:E; simpl; [discriminate|].
  intros [= <-]. apply to_string_thrown in E. eauto.
Qed.

Lemma call_toLowerCase_thrown {engine : Engine}
    (site : CallSite) (recv : JsVal) (e : Exn) :
  call_toLowerCase site recv = Thrown e -> exists f, e = TypeError f.
Proof. destruct recv; simpl; try discriminate; intros [= <-]; eauto. Qed.

Lemma not_found_run {A} (id : JsVal) (w : World) :
  (exists s, to_string id = Returned s
             /\ not_found (A := A) id w
                = (Thrown (Error ("Note with ID " +:+ s +:+ " not found")), w))
  \/ (to_string id = Thrown (TypeError NoPrimitiveValue)
      /\ not_found (A := A) id w = (Thrown (TypeError NoPrimitiveValue), w)).
Proof.
  unfold not_found, bind, lift, throw.
  destruct (to_string id) as [s|e] eqn:E.
  - left. now exists s.
  - right. apply to_string_thrown in E as ->. now split.
Qed.

Lemma tool_names_listed : tool_names = List.map ToolInfo.name list_tools.
Proof. reflexivity. Qed.

Lemma resource_uris_listed : resource_uris = List.map ResourceInfo.uri list_resources.
Proof. reflexivity. Qed.

Lemma prompt_names_listed : prompt_names = List.map PromptInfo.name list_prompts.
Proof. reflexivity. Qed.

Section Failures.
Context {engine : Engine}.

(** A tool that takes an id either returns or throws what [not_found]
    throws. *)
Lemma id_tool_thrown (args : option Obj) (w : World) (e : Exn) (w' : World)
    (run : M Tool.Result) :
  run w = not_found (opt_get args "id") w \/ (exists r w1, run w = (Returned r, w1)) ->
  run w = (Thrown e, w') ->
  (exists f, e = TypeError f)
  \/ exists s, to_string (opt_get args "id") = Returned s
               /\ e = Error ("Note with ID " +:+ s +:+ " not found").
Proof.
  intros [H|[r [w1 H]]] Hrun; [|congruence].
  rewrite H in Hrun.
  destruct (not_found_run (A := Tool.Result) (opt_get args "id") w)
    as [[s [Hs Hnf]]|[_ Hnf]]; rewrite Hnf in Hrun; injection Hrun as <- _.
  - right. now exists s.
  - left. eauto.
Qed.

(** What a tool throws is an engine [TypeError], or the not-found error of a
    tool that takes an id, or the unknown-tool error of a name that is not
    listed. *)
Lemma tool_body_thrown_cases name args w e w' :
  tool_body name args w = (Thrown e, w') ->
  (name <> "create_note" /\ exists f, e = TypeError f)
  \/ (In name id_tools
      /\ exists s, to_string (opt_get args "id") = Returned s
                   /\ e = Error ("Note with ID " +:+ s +:+ " not found"))
  \/ (~ In name tool_names /\ e = Error ("Unknown tool: " +:+ name)).
Proof.
  unfold tool_body.
  destruct (String.eqb name "create_note") eqn:E1.
  { rewrite create_note_run. discriminate. }
  assert (Hnc : name <> "create_note") by now apply String.eqb_neq.
  destruct (String.eqb name "list_notes") eqn:E2.
  { unfold list_notes, bind, get_notes, ret, lift. cbv zeta.
    destruct (truthy _); [|discriminate].
    destruct (filter_o _ _) as [ns|e'] eqn:Ef; [discriminate|].
    intros [= <- _]. left. split; [assumption|].
    apply filter_o_thrown in Ef as [n [_ Hn]]. now apply call_includes_thrown in Hn. }
  destruct (String.eqb name "get_note") eqn:E3.
  { apply String.eqb_eq in E3. subst name. intros Hrun.
    destruct (id_tool_thrown args w e w' (get_note args)) as [H|H]; try assumption.
    - unfold get_note, bind, get_notes, ret. cbv zeta.
      destruct (notes_get _ _); [right; eauto | now left].
    - left. now split.
    - right. left. split; [simpl; tauto | exact H]. }
  destruct (String.eqb name "update_note") eqn:E4.
  { apply String.eqb_eq in E4. subst name. intros Hrun.
    destruct (id_tool_thrown args w e w' (update_note args)) as [H|H]; try assumption.
    - destruct (opt_get args "id") as [| |b|r0|k|xs|ps] eqn:Hid;
        try (left; unfold update_note, bind, get_notes; rewrite Hid; reflexivity).
      destruct (JsMap.get k (notes w)) as [note|] eqn:Hget.
      + right. rewrite (update_note_found args k note w Hid Hget). eauto.
      + left. unfold update_note, bind, get_notes.
        rewrite Hid. simpl. now rewrite Hget.
    - left. now split.
    - right. left. split; [simpl; tauto | exact H]. }
  destruct (String.eqb name "delete_note") eqn:E5.
  { apply String.eqb_eq in E5. subst name. intros Hrun.
    destruct (id_tool_thrown args w e w' (delete_note args)) as [H|H]; try assumption.
    - destruct (opt_get args "id") as [| |b|r0|k|xs|ps] eqn:Hid;
        try (left; unfold delete_note, bind, get_notes; rewrite Hid; reflexivity).
      destruct (JsMap.get k (notes w)) as [note|] eqn:Hget.
      + right. rewrite (delete_note_found args k note w Hid Hget). eauto.
      + left. unfold delete_note, bind, get_notes, JsMap.has.
        rewrite Hid. simpl. now rewrite Hget.
    - left. now split.
    - right. left. split; [simpl; tauto | exact H]. }
  destruct (String.eqb name "search_notes") eqn:E6.
  { unfold search_notes, bind, get_notes, ret, lift. cbv zeta.
    destruct (call_toLowerCase _) as [q|e'] eqn:Eq.
    2:{ intros [= <- _]. left. split; [assumption|].
        now apply call_toLowerCase_thrown in Eq. }
    destruct (filter_o _ _) as [ns|e'] eqn:Ef; [discriminate|].
    intros [= <- _]. left. split; [assumption|].
    apply filter_o_thrown in Ef as [n [_ Hn]].
    unfold matches_query in Hn.
    destruct (call_toLowerCase _ (Note.title n)) as [t|e1] eqn:Et; simpl in Hn.
    - destruct (str_includes t q); [discriminate|].
      destruct (call_toLowerCase _ (Note.content n)) as [c|e2] eqn:Ec; simpl in Hn;
        [discriminate|].
      injection Hn as <-. now apply call_toLowerCase_thrown in Ec.
    - injection Hn as <-. now apply call_toLowerCase_thrown in Et. }
  unfold throw. intros [= <- _]. right. right. split; [|reflexivity].
  simpl. intros H. decompose [or] H; subst; discriminate || assumption.
Qed.
End Failures.

Lemma read_resource_thrown_cases (uri : string) (w : World) (e : Exn) :
  read_resource uri w = Thrown e ->
  (uri = "notes://summary" /\ e = TypeError NoPrimitiveValue)
  \/ (~ In uri resource_uris /\ e = Error ("Unknown resource: " +:+ uri)).
Proof.
  unfold read_resource.
  destruct (String.eqb uri "notes://all") eqn:E1; [discriminate|].
  destruct (String.eqb uri "notes://summary") eqn:E2.
  - apply String.eqb_eq in E2. unfold summary_text.
    destruct (arr_join _ _) as [joined|e'] eqn:Ej; simpl; [discriminate|].
    intros [= <-]. left. split; [assumption|]. now apply arr_join_thrown in Ej.
  - intros [= <-]. right. split; [|reflexivity].
    apply String.eqb_neq in E1, E2. simpl. intuition congruence.
Qed.

Lemma summarize_line_thrown (note : Note.t) (e : Exn) :
  summarize_line note = Thrown e -> e = TypeError NoPrimitiveValue.
Proof.
  unfold summarize_line.
  destruct (to_string (Note.title note)) as [t|e1] eqn:Et; simpl.
  - destruct (to_string (Note.content note)) as [c|e2] eqn:Ec; simpl; [discriminate|].
    intros [= <-]. now apply to_string_thrown in Ec.
  - intros [= <-]. now apply to_string_thrown in Et.
Qed.

Lemma call_join_thrown (recv : JsVal) (sep : string) (e : Exn) :
  call_join recv sep = Thrown e -> exists f, e = TypeError f.
Proof.
  destruct recv; simpl; try (intros [= <-]; eauto).
  intros H. apply arr_join_thrown in H. eauto.
Qed.

Lemma organize_block_thrown (note : Note.t) (e : Exn) :
  organize_block note = Thrown e -> exists f, e = TypeError f.
Proof.
  unfold organize_block.
  destruct (to_string (Note.title note)) as [t|e1] eqn:Et; simpl.
  2:{ intros [= <-]. apply to_string_thrown in Et. eauto. }
  destruct (to_string (Note.content note)) as [c|e2] eqn:Ec; simpl.
  2:{ intros [= <-]. apply to_string_thrown in Ec. eauto. }
  destruct (call_join (Note.tags note) ", ") as [g|e3] eqn:Eg; simpl; [discriminate|].
  intros [= <-]. now apply call_join_thrown in Eg.
Qed.

Lemma get_prompt_thrown_cases (name : string) (args : option Obj) (w : World) (e : Exn) :
  get_prompt name args w = Thrown e ->
  (In name prompt_names /\ exists f, e = TypeError f)
  \/ (~ In name prompt_names /\ e = Error ("Unknown prompt: " +:+ name)).
Proof.
  unfold get_prompt.
  destruct (String.eqb name "summarize_notes") eqn:E1.
  { apply String.eqb_eq in E1. intros H. left. split; [subst; simpl; auto|].
    revert H. cbv zeta.
    destruct (if truthy (opt_get args "tag") then _ else _) as [ns|e1] eqn:Ef; simpl.
    2:{ intros [= <-]. destruct (truthy _); [|discriminate].
        apply filter_o_thrown in Ef as [n [_ Hn]]. now apply call_includes_thrown in Hn. }
    destruct (map_o summarize_line ns) as [ls|e2] eqn:El; simpl.
    2:{ intros [= <-]. apply map_o_thrown in El as [n [_ Hn]].
        apply summarize_line_thrown in Hn. eauto. }
    destruct (truthy (opt_get args "tag")); simpl; [|discriminate].
    destruct (to_string (opt_get args "tag")) as [t|e3] eqn:Et; simpl; [discriminate|].
    intros [= <-]. apply to_string_thrown in Et. eauto. }
  destruct (String.eqb name "organize_notes") eqn:E2.
  { apply String.eqb_eq in E2. intros H. left. split; [subst; simpl; auto|].
    revert H. cbv zeta.
    destruct (map_o organize_block _) as [bs|e2] eqn:Eb; simpl; [discriminate|].
    intros [= <-]. apply map_o_thrown in Eb as [n [_ Hn]].
    now apply organize_block_thrown in Hn. }
  intros [= <-]. right. split; [|reflexivity].
  apply String.eqb_neq in E1, E2. simpl. intuition congruence.
Qed.

(** ** The lists and the dispatchers agree *)

(** X1.  What a tool call can fail with: the handler throws before it has
    changed anything, the caller gets the message in band, and the exception
    is an engine [TypeError] (never from [create_note]), or "Note with ID ...
    not found" from a tool that takes an id, or "Unknown tool" for a name
    that is not listed. *)
Theorem tool_failures_classified {engine : Engine}
    (name : string) (args : option Obj) (w w' : World) (e : Exn) :
  tool_body name args w = (Thrown e, w') ->
  w' = w
  /\ call_tool name args w = (error_result ("Error: " +:+ exn_message e), w)
  /\ ((name <> "create_note" /\ exists f, e = TypeError f)
      \/ (In name id_tools
          /\ exists s, to_string (opt_get args "id") = Returned s
                       /\ e = Error ("Note with ID " +:+ s +:+ " not found"))
      \/ (~ In name (List.map ToolInfo.name list_tools)
          /\ e = Error ("Unknown tool: " +:+ name)))
  /\ fst (call_tool name args w)
     = {| Tool.content :=
            [{| type := "text"; text := "Error: " +:+ exn_message e |}];
          Tool.isError := Some true |}.
Proof.
  intros Hrun.
  pose proof (tool_body_thrown_unchanged _ _ _ _ _ Hrun) as ->.
  split; [reflexivity|]. split; [now apply call_tool_thrown|].
  split.
  - rewrite <- tool_names_listed. exact (tool_body_thrown_cases _ _ _ _ _ Hrun).
  - now rewrite (call_tool_thrown _ _ _ _ _ Hrun).
Qed.

Lemma tool_failures_classified_witness :
  let args := Some [("id", JNum "5")] in
  tool_body (engine := ascii_engine) "get_note" args two_notes
    = (Thrown (Error "Note with ID 5 not found"), two_notes)
  /\ call_tool (engine := ascii_engine) "get_note" args two_notes
     = (error_result "Error: Note with ID 5 not found", two_notes)
  /\ fst (call_tool (engine := ascii_engine) "get_note" args two_notes)
     = {| Tool.content :=
            [{| type := "text"; text := "Error: Note with ID 5 not found" |}];
          Tool.isError := Some true |}.
Proof.
  intros args.
  assert (H : tool_body (engine := ascii_engine) "get_note" args two_notes
              = (Thrown (Error "Note with ID 5 not found"), two_notes))
    by reflexivity.
  split; [exact H|]. split.
  - exact (proj1 (proj2 (tool_failures_classified (engine := ascii_engine) _ _ _ _ _ H))).
  - exact (proj2 (proj2 (proj2
             (tool_failures_classified (engine := ascii_engine) _ _ _ _ _ H)))).
Defined.

(** X2.  The names in each list are distinct, and each dispatcher throws its
    "Unknown ..." error exactly for the names that its list does not
    contain. *)
Theorem dispatchers_know_the_lists {engine : Engine}
    (name : string) (args : option Obj) (w : World) :
  NoDup (List.map ToolInfo.name list_tools)
  /\ NoDup (List.map ResourceInfo.uri list_resources)
  /\ NoDup (List.map PromptInfo.name list_prompts)
  /\ (tool_body name args w = (Thrown (Error ("Unknown tool: " +:+ name)), w)
      <-> ~ In name (List.map ToolInfo.name list_tools))
  /\ (read_resource name w = Thrown (Error ("Unknown resource: " +:+ name))
      <-> ~ In name (List.map ResourceInfo.uri list_resources))
  /\ (get_prompt name args w = Thrown (Error ("Unknown prompt: " +:+ name))
      <-> ~ In name (List.map PromptInfo.name list_prompts)).
Proof.
  assert (Hnd : forall l : list string, bool_decide (NoDup l) = true -> NoDup l)
    by (intros l; apply bool_decide_eq_true_1).
  repeat split.
  - apply Hnd. vm_compute. reflexivity.
  - apply Hnd. vm_compute. reflexivity.
  - apply Hnd. vm_compute. reflexivity.
  - intros Hrun Hin.
    destruct (tool_body_thrown_cases _ _ _ _ _ Hrun)
      as [[_ [f [=]]]|[[_ [s [_ Heq]]]|[Hout _]]].
    + injection Heq as Heq. discriminate Heq.
    + apply Hout. now rewrite tool_names_listed.
  - intros Hout. rewrite <- tool_names_listed in Hout. unfold tool_body.
    rewrite !(eqb_not_in name _ tool_names Hout) by (simpl; tauto). reflexivity.
  - intros Hrun Hin.
    destruct (read_resource_thrown_cases _ _ _ Hrun) as [[_ [=]]|[Hout _]].
    apply Hout. now rewrite resource_uris_listed.
  - intros Hout. rewrite <- resource_uris_listed in Hout. unfold read_resource.
    rewrite !(eqb_not_in name _ resource_uris Hout) by (simpl; tauto). reflexivity.
  - intros Hrun Hin.
    destruct (get_prompt_thrown_cases _ _ _ _ Hrun) as [[_ [f [=]]]|[Hout _]].
    apply Hout. now rewrite prompt_names_listed.
  - intros Hout. rewrite <- prompt_names_listed in Hout. unfold get_prompt.
    rewrite !(eqb_not_in name _ prompt_names Hout) by (simpl; tauto). reflexivity.
Qed.

(** ** Arguments *)

(** X3.  A tool reads its argument bag only under the property names that
    its schema declares: two bags that agree on those names get the same
    answer and leave the same world, whatever else they carry. *)
Theorem tool_reads_declared_properties {engine : Engine}
    (t : ToolInfo.t) (args args' : option Obj) (w : World) :
  In t list_tools ->
  agree_on (declared t) args args' ->
  call_tool (ToolInfo.name t) args w = call_tool (ToolInfo.name t) args' w.
Proof.
  intros Ht Hagree. unfold call_tool.
  assert (Hbody : tool_body (ToolInfo.name t) args w
                  = tool_body (ToolInfo.name t) args' w); [|now rewrite Hbody].
  simpl in Ht. destruct Ht as [<-|[<-|[<-|[<-|[<-|[<-|[]]]]]]];
    unfold agree_on, declared in Hagree; simpl in Hagree.
  - change (create_note args w = create_note args' w).
    rewrite !create_note_run. unfold created.
    now rewrite !(Hagree "title"), !(Hagree "content"), !(Hagree "tags") by tauto.
  - change (list_notes args w = list_notes args' w).
    unfold list_notes. now rewrite !(Hagree "tag") by tauto.
  - change (get_note args w = get_note args' w).
    unfold get_note. now rewrite !(Hagree "id") by tauto.
  - change (update_note args w = update_note args' w).
    unfold update_note.
    now rewrite !(Hagree "id"), !(Hagree "title"), !(Hagree "content"),
      !(Hagree "tags") by tauto.
  - change (delete_note args w = delete_note args' w).
    unfold delete_note. now rewrite !(Hagree "id") by tauto.
  - change (search_notes args w = search_notes args' w).
    unfold search_notes. now rewrite !(Hagree "query") by tauto.
Qed.

Lemma tool_reads_declared_properties_witness :
  let t := {| ToolInfo.name := "list_notes";
              ToolInfo.description := "List all notes, optionally filtered by tag";
              ToolInfo.inputSchema := object_schema
                [("tag", string_property "Optional tag to filter notes by")] None |} in
  let args := Some [("tag", JStr "t1")] in
  let args' := Some [("limit", JNum "1"); ("tag", JStr "t1"); ("id", JStr "x")] in
  In t list_tools
  /\ agree_on (declared t) args args'
  /\ call_tool (engine := ascii_engine) "list_notes" args two_notes
     = call_tool (engine := ascii_engine) "list_notes" args' two_notes.
Proof.
  intros t args args'.
  assert (H1 : In t list_tools) by (simpl; tauto).
  assert (H2 : agree_on (declared t) args args').
  { intros key [<-|[]]. reflexivity. }
  split; [exact H1|]. split; [exact H2|].
  exact (tool_reads_declared_properties (engine := ascii_engine) t args args' two_notes H1 H2).
Defined.

(** X4.  An id that is not a string finds nothing, even when its digits are
    those of a stored id: each tool that takes an id answers "Note with ID
    ... not found" with the id converted to a string, and changes nothing.
    A missing id reads as "undefined". *)
Theorem non_string_id_not_found {engine : Engine}
    (name : string) (args : option Obj) (w : World) (s : string) :
  In name id_tools ->
  (forall k, opt_get args "id" <> JStr k) ->
  to_string (opt_get args "id") = Returned s ->
  call_tool name args w
  = (error_result ("Error: Note with ID " +:+ s +:+ " not found"), w)
  /\ fst (call_tool name args w)
     = {| Tool.content :=
            [{| type := "text"; text := "Error: Note with ID " +:+ s +:+ " not found" |}];
          Tool.isError := Some true |}.
Proof.
  intros Hname Hid Hs.
  enough (Hrun : call_tool name args w
                 = (error_result ("Error: Note with ID " +:+ s +:+ " not found"), w))
    by (split; [exact Hrun | now rewrite Hrun]).
  apply (call_tool_thrown name args w (Error ("Note with ID " +:+ s +:+ " not found"))).
  assert (Hnf : not_found (A := Tool.Result) (opt_get args "id") w
                = (Thrown (Error ("Note with ID " +:+ s +:+ " not found")), w)).
  { unfold not_found, bind, lift, throw. now rewrite Hs. }
  simpl in Hname. destruct Hname as [<-|[<-|[<-|[]]]].
  - change (get_note args w = (Thrown (Error ("Note with ID " +:+ s +:+ " not found")), w)).
    rewrite <- Hnf. unfold get_note, bind, get_notes. cbv zeta.
    destruct (opt_get args "id"); try reflexivity. now destruct (Hid s0).
  - change (update_note args w
            = (Thrown (Error ("Note with ID " +:+ s +:+ " not found")), w)).
    rewrite <- Hnf. unfold update_note, bind, get_notes. cbv zeta.
    destruct (opt_get args "id"); try reflexivity. now destruct (Hid s0).
  - change (delete_note args w
            = (Thrown (Error ("Note with ID " +:+ s +:+ " not found")), w)).
    rewrite <- Hnf. unfold delete_note, bind, get_notes. cbv zeta.
    destruct (opt_get args "id"); try reflexivity. now destruct (Hid s0).
Qed.

Lemma non_string_id_not_found_witness :
  let args := Some [("id", JNum "1700000000000")] in
  In "delete_note" id_tools
  /\ (forall k, opt_get args "id" <> JStr k)
  /\ to_string (opt_get args "id") = Returned "1700000000000"
  /\ JsMap.has "1700000000000" (notes two_notes) = true
  /\ call_tool (engine := ascii_engine) "delete_note" args two_notes
     = (error_result "Error: Note with ID 1700000000000 not found", two_notes)
  /\ fst (call_tool (engine := ascii_engine) "delete_note" args two_notes)
     = {| Tool.content :=
            [{| type := "text";
                text := "Error: Note with ID 1700000000000 not found" |}];
          Tool.isError := Some true |}.
Proof.
  intros args.
  assert (H1 : In "delete_note" id_tools) by (simpl; tauto).
  assert (H2 : forall k, opt_get args "id" <> JStr k) by (intros k; discriminate).
  assert (H3 : to_string (opt_get args "id") = Returned "1700000000000") by reflexivity.
  split; [exact H1|]. split; [exact H2|]. split; [exact H3|].
  split; [vm_compute; reflexivity|].
  exact (non_string_id_not_found (engine := ascii_engine) "delete_note" args two_notes
           "1700000000000" H1 H2 H3).
Defined.

Lemma filter_o_returns {A} (p : A -> Outcome bool) (xs : list A) (ys : list A) :
  filter_o p xs = Returned ys -> forall x, In x xs -> exists keep, p x = Returned keep.
Proof.
  revert ys. induction xs as [|x xs IH]; intros ys; simpl; [intros _ ? []|].
  destruct (p x) as [keep|e] eqn:Ex; simpl; [|discriminate].
  destruct (filter_o p xs) as [zs|e] eqn:Exs; simpl; [|discriminate].
  intros _ x' [<-|Hin]; [now exists keep | now apply (IH zs)].
Qed.

Lemma matches_query_returns {engine : Engine} (query : string) (n : Note.t) :
  (exists keep, matches_query query n = Returned keep) <-> searchable query n.
Proof.
  unfold matches_query, searchable, is_string. split.
  - intros [keep H].
    destruct (Note.title n) as [| |b|r|t|xs|ps]; simpl in H; try discriminate.
    exists t. split; [reflexivity|].
    destruct (str_includes (toLowerCase t) query); [now left|right].
    destruct (Note.content n) as [| |b|r|c|xs|ps]; simpl in H; try discriminate.
    now exists c.
  - intros [t [-> [H|[c ->]]]]; simpl.
    + rewrite H. now exists true.
    + destruct (str_includes (toLowerCase t) query); eauto.
Qed.

Lemma matches_query_thrown {engine : Engine} (query : string) (n : Note.t) (e : Exn) :
  matches_query query n = Thrown e ->
  exists site, In site [title_toLowerCase; content_toLowerCase]
    /\ (e = TypeError (NotAFunction site)
        \/ e = TypeError (ReadOfNullish Undefined site)
        \/ e = TypeError (ReadOfNullish Null site)).
Proof.
  unfold matches_query. intros H.
  destruct (Note.title n) as [| |b|r|t|xs|ps]; simpl in H;
    try (injection H as <-; exists title_toLowerCase; simpl; now auto).
  destruct (str_includes (toLowerCase t) query); [discriminate|].
  destruct (Note.content n) as [| |b|r|c|xs|ps]; simpl in H;
    try (injection H as <-; exists content_toLowerCase; simpl; now auto).
  discriminate.
Qed.

(** The run of [search_notes] under the catch, step by step. *)
Lemma search_notes_steps {engine : Engine} (args : option Obj) (w : World) :
  call_tool "search_notes" args w
  = match call_toLowerCase query_toLowerCase (opt_get args "query") with
    | Thrown e => (error_result ("Error: " +:+ exn_message e), w)
    | Returned query =>
        match filter_o (matches_query query) (JsMap.values (notes w)) with
        | Thrown e => (error_result ("Error: " +:+ exn_message e), w)
        | Returned results =>
            (text_result (JSON_stringify (JArr (List.map Note.to_js results))), w)
        end
    end.
Proof.
  unfold call_tool.
  change (tool_body "search_notes" args w) with (search_notes args w).
  unfold search_notes, bind, lift, get_notes, ret.
  destruct (call_toLowerCase _ _) as [query|e]; [|reflexivity]. cbv beta iota.
  now destruct (filter_o _ _).
Qed.

(** X5.  When [search_notes] fails.  It fails exactly when the query is not
    a string, or some stored Note has a title that is not a string, or a
    title that does not match together with a content that is not a string.
    The failure comes back in band -- the error flag and one text, "Error: "
    and the engine's message for a [TypeError] raised at one of the three
    [toLowerCase] calls -- and nothing is changed.  With a query that is not
    a string the fault is decided before the collection is looked at: a
    property read of [undefined] for an absent query, of [null] for a null
    one, and otherwise a call of something that is not a function. *)
Theorem search_notes_fails_iff {engine : Engine} (args : option Obj) (w : World) :
  snd (call_tool "search_notes" args w) = w
  /\ (Tool.isError (fst (call_tool "search_notes" args w)) = None
      <-> exists Q, opt_get args "query" = JStr Q
            /\ forall n, In n (JsMap.values (notes w)) -> searchable (toLowerCase Q) n)
  /\ (Tool.isError (fst (call_tool "search_notes" args w)) = None
      \/ exists fault site,
           fst (call_tool "search_notes" args w)
           = {| Tool.content :=
                  [{| type := "text"; text := "Error: " +:+ fault_message fault |}];
                Tool.isError := Some true |}
           /\ In site [query_toLowerCase; title_toLowerCase; content_toLowerCase]
           /\ (fault = NotAFunction site
               \/ fault = ReadOfNullish Undefined site
               \/ fault = ReadOfNullish Null site))
  /\ ((forall q, opt_get args "query" <> JStr q) ->
      fst (call_tool "search_notes" args w)
      = {| Tool.content :=
             [{| type := "text";
                 text := "Error: " +:+ fault_message
                   (match opt_get args "query" with
                    | JUndefined => ReadOfNullish Undefined query_toLowerCase
                    | JNull => ReadOfNullish Null query_toLowerCase
                    | _ => NotAFunction query_toLowerCase
                    end) |}];
           Tool.isError := Some true |}).
Proof.
  rewrite search_notes_steps.
  assert (Hquery : forall e,
            call_toLowerCase query_toLowerCase (opt_get args "query") = Thrown e ->
            (forall q, opt_get args "query" <> JStr q)
            /\ e = TypeError (match opt_get args "query" with
                              | JUndefined => ReadOfNullish Undefined query_toLowerCase
                              | JNull => ReadOfNullish Null query_toLowerCase
                              | _ => NotAFunction query_toLowerCase
                              end)).
  { intros e. destruct (opt_get args "query"); simpl; intros [= <-];
      (split; [discriminate | reflexivity]). }
  destruct (call_toLowerCase query_toLowerCase (opt_get args "query"))
    as [query|e] eqn:Eq.
  - assert (HQ : exists Q, opt_get args "query" = JStr Q /\ query = toLowerCase Q).
    { destruct (opt_get args "query") as [| |b|r|Q|xs|ps]; try discriminate.
      injection Eq as <-. now exists Q. }
    destruct HQ as [Q [HQ ->]].
    destruct (filter_o _ _) as [results|e] eqn:Ef; simpl.
    + split; [reflexivity|]. split; [|split; [now left|]].
      * split; [intros _|reflexivity]. exists Q. split; [exact HQ|].
        intros n Hn. apply matches_query_returns. now apply (filter_o_returns _ _ _ Ef).
      * intros Hq. now destruct (Hq Q).
    + apply filter_o_thrown in Ef as [n [Hn He]].
      split; [reflexivity|]. split; [|split].
      * split; [discriminate|]. intros [Q' [HQ' Hall]]. exfalso.
        rewrite HQ in HQ'. injection HQ' as <-.
        apply Hall, matches_query_returns in Hn as [keep Hkeep]. congruence.
      * right. apply matches_query_thrown in He as [site [Hsite He]].
        destruct He as [-> | [-> | ->]]; eexists _, site;
          (split; [reflexivity|]); (split; [simpl in *; tauto|]); auto.
      * intros Hq. now destruct (Hq Q).
  - destruct (Hquery e eq_refl) as [Hq ->]. simpl.
    split; [reflexivity|]. split; [|split].
    + split; [discriminate|]. intros [Q [HQ _]]. now destruct (Hq Q).
    + right. eexists _, query_toLowerCase. split; [reflexivity|].
      split; [simpl; tauto|]. destruct (opt_get args "query"); auto.
    + intros _. reflexivity.
Qed.

Lemma search_notes_fails_iff_witness :
  let reply query :=
    fst (call_tool (engine := ascii_engine) "search_notes" query two_notes) in
  let failure message :=
    {| Tool.content := [{| type := "text"; text := message |}];
       Tool.isError := Some true |} in
  (forall q, opt_get (Some [("query", JNum "7")]) "query" <> JStr q)
  /\ reply (Some [("query", JNum "7")])
     = failure "Error: (intermediate value).toLowerCase is not a function"
  /\ (forall q, opt_get (Some [("query", JNull)]) "query" <> JStr q)
  /\ reply (Some [("query", JNull)])
     = failure "Error: Cannot read properties of null (reading 'toLowerCase')"
  /\ (forall q, opt_get None "query" <> JStr q)
  /\ reply None
     = failure "Error: Cannot read properties of undefined (reading 'toLowerCase')"
  /\ (forall n, In n (JsMap.values (notes two_notes)) ->
        searchable (engine := ascii_engine) (toLowerCase (Engine := ascii_engine) "y") n)
  /\ Tool.isError (reply (Some [("query", JStr "y")])) = None.
Proof.
  intros reply failure.
  assert (H4 : forall n, In n (JsMap.values (notes two_notes)) ->
                 searchable (engine := ascii_engine)
                   (toLowerCase (Engine := ascii_engine) "y") n).
  { intros n Hn. unfold JsMap.values in Hn. rewrite two_notes_holds in Hn.
    destruct Hn as [<-|[<-|[]]].
    - exists "A". split; [reflexivity|]. right. now exists "x".
    - exists "B". split; [reflexivity|]. right. now exists "y". }
  assert (H1 : forall q, opt_get (Some [("query", JNum "7")]) "query" <> JStr q)
    by (intros q; discriminate).
  assert (H2 : forall q, opt_get (Some [("query", JNull)]) "query" <> JStr q)
    by (intros q; discriminate).
  assert (H3 : forall q, opt_get None "query" <> JStr q)
    by (intros q; discriminate).
  split; [exact H1|]. split.
  { exact (proj2 (proj2 (proj2 (search_notes_fails_iff (engine := ascii_engine)
                                  (Some [("query", JNum "7")]) two_notes))) H1). }
  split; [exact H2|]. split.
  { exact (proj2 (proj2 (proj2 (search_notes_fails_iff (engine := ascii_engine)
                                  (Some [("query", JNull)]) two_notes))) H2). }
  split; [exact H3|]. split.
  { exact (proj2 (proj2 (proj2 (search_notes_fails_iff (engine := ascii_engine)
                                  None two_notes))) H3). }
  split; [exact H4|].
  apply (proj1 (proj2 (search_notes_fails_iff (engine := ascii_engine)
                         (Some [("query", JStr "y")]) two_notes))).
  exists "y". split; [reflexivity | exact H4].
Defined.

(** ** What a call leaves behind *)

(** X6.  The tools that only read -- [list_notes], [get_note],
    [search_notes] -- leave the notes and the clock exactly as they were,
    whether they succeed or fail; so does a call that names no tool. *)
Theorem reading_tools_change_nothing {engine : Engine}
    (name : string) (args : option Obj) (w : World) :
  In name reading_tools \/ ~ In name (List.map ToolInfo.name list_tools) ->
  snd (call_tool name args w) = w.
Proof.
  intros Hname.
  destruct (call_tool_effect name args w)
    as [H|[[Hn _]|[[Hn _]|[Hn _]]]]; [exact H| | |];
    subst name; exfalso; destruct Hname as [Hin|Hout];
    try (simpl in Hin; decompose [or] Hin; discriminate || assumption);
    apply Hout; simpl; tauto.
Qed.

Lemma reading_tools_change_nothing_witness :
  (In "search_notes" reading_tools
   \/ ~ In "search_notes" (List.map ToolInfo.name list_tools))
  /\ snd (call_tool (engine := ascii_engine) "search_notes"
            (Some [("query", JStr "x")]) two_notes) = two_notes.
Proof.
  assert (H : In "search_notes" reading_tools
              \/ ~ In "search_notes" (List.map ToolInfo.name list_tools))
    by (left; simpl; tauto).
  split; [exact H|].
  exact (reading_tools_change_nothing (engine := ascii_engine) "search_notes" _ two_notes H).
Defined.

(** X7.  Every answer to a tool call, success or failure, carries exactly
    one content item, of type "text"; [isError] is absent or true, never
    false. *)
Theorem tool_result_one_text_item {engine : Engine}
    (name : string) (args : option Obj) (w : World) :
  exists s,
    Tool.content (fst (call_tool name args w)) = [{| type := "text"; text := s |}]
    /\ (Tool.isError (fst (call_tool name args w)) = None
        \/ Tool.isError (fst (call_tool name args w)) = Some true).
Proof.
  unfold call_tool.
  destruct (tool_body name args w) as [[r|e] w'] eqn:Hbody; simpl.
  - destruct (tool_body_returns_text _ _ _ _ _ Hbody) as [s ->].
    exists s. split; [reflexivity | now left].
  - eexists. split; [reflexivity | now right].
Qed.

(** ** The collection over a session *)

Lemma reachable_tags_truthy {engine : Engine} (clk : nat -> Z) (w : World) :
  reachable clk w ->
  forall n, In n (JsMap.values (notes w)) -> truthy (Note.tags n) = true.
Proof.
  induction 1 as [|name args w Hreach IH]; [intros n []|].
  destruct (call_tool_effect name args w)
    as [->|[[_ ->]|[[_ [k [note [Hget ->]]]]|[_ [k ->]]]]]; simpl.
  - exact IH.
  - intros n [->|Hn]%In_values_set; [|now apply IH].
    unfold created; simpl. now destruct (truthy (opt_get args "tags")) eqn:E.
  - intros n [->|Hn]%In_values_set; [|now apply IH].
    unfold updated; simpl. destruct (truthy (opt_get args "tags")) eqn:E; [exact E|].
    apply IH. now apply In_values_get with (k := k).
  - intros n Hn%In_values_delete. now apply IH.
Qed.

Lemma NoDup_keys_ids (m : list (string * Note.t)) :
  (forall k n, In (k, n) m -> Note.id n = k) ->
  List.map Note.id (JsMap.values m) = JsMap.keys m.
Proof.
  unfold JsMap.values, JsMap.keys. intros Hid.
  induction m as [|[k n] m IH]; simpl; [reflexivity|].
  rewrite (Hid k n) by now left. f_equal. apply IH. intros; apply Hid; now right.
Qed.

(** X8.  In every world the process can reach, the stored Notes have
    pairwise distinct ids, each Note is found under its own id, and no Note
    has falsy tags (absent, null, empty string, ...), whatever the requests
    carried. *)
Theorem stored_notes_invariant {engine : Engine} (clk : nat -> Z) (w : World) :
  reachable clk w ->
  NoDup (List.map Note.id (JsMap.values (notes w)))
  /\ (forall n, In n (JsMap.values (notes w)) ->
        JsMap.get (Note.id n) (notes w) = Some n
        /\ truthy (Note.tags n) = true)
  /\ (forall k n, JsMap.get k (notes w) = Some n -> Note.id n = k).
Proof.
  intros Hreach.
  destruct (reachable_stamped clk w Hreach) as [_ [Hnd Hnotes]].
  assert (Hid : forall k n, In (k, n) (notes w) -> Note.id n = k)
    by (intros k n Hin; now destruct (Hnotes k n Hin)).
  split; [now rewrite NoDup_keys_ids|]. split.
  - intros n Hn. split; [|now apply (reachable_tags_truthy clk w Hreach)].
    unfold JsMap.values in Hn. apply in_map_iff in Hn as [[k n'] [Heq Hin]].
    simpl in Heq. subst n'. rewrite (Hid k n Hin).
    clear - Hnd Hin. unfold JsMap.keys in Hnd.
    induction (notes w) as [|[k' n'] m IH]; [destruct Hin|].
    simpl in *. apply NoDup_cons in Hnd as [Hout Hnd].
    destruct Hin as [[= -> ->]|Hin]; [now rewrite String.eqb_refl|].
    destruct (String.eqb k' k) eqn:E; [|now apply IH].
    apply String.eqb_eq in E. subst k'. exfalso. apply Hout.
    apply list_elem_of_In. apply in_map_iff. now exists (k, n).
  - intros k n Hget. apply Hid. now apply JsMapFacts.get_Some_In.
Qed.

Lemma stored_notes_invariant_witness :
  reachable (engine := ascii_engine) (ticking 1700000000000) two_notes
  /\ NoDup (List.map Note.id (JsMap.values (notes two_notes)))
  /\ (forall n, In n (JsMap.values (notes two_notes)) ->
        JsMap.get (Note.id n) (notes two_notes) = Some n
        /\ truthy (Note.tags n) = true).
Proof.
  assert (H : reachable (engine := ascii_engine) (ticking 1700000000000) two_notes)
    by (apply reach_call, reach_call, reach_start).
  split; [exact H|].
  destruct (stored_notes_invariant (engine := ascii_engine) _ _ H) as [H1 [H2 _]].
  split; [exact H1 | exact H2].
Defined.

(** X9.  On a clock that never goes back, every stored Note was created no
    later than it was last updated: its two time stamps render instants in
    that order. *)
Theorem created_no_later_than_updated {engine : Engine} (clk : nat -> Z) (w : World) :
  monotone clk ->
  reachable clk w ->
  forall n, In n (JsMap.values (notes w)) ->
    exists created_at updated_at,
      Note.createdAt n = toISOString created_at
      /\ Note.updatedAt n = toISOString updated_at
      /\ created_at <= updated_at.
Proof.
  intros Hmono Hreach n Hn.
  destruct (reachable_stamped clk w Hreach) as [_ [_ Hnotes]].
  unfold JsMap.values in Hn. apply in_map_iff in Hn as [[k n'] [Heq Hin]].
  simpl in Heq. subst n'.
  destruct (Hnotes k n Hin) as [_ [i0 [i [j [Hij [_ [_ [Hc Hu]]]]]]]].
  exists (clk i), (clk j). split; [exact Hc|]. split; [exact Hu|].
  apply Hmono. lia.
Qed.

Lemma created_no_later_than_updated_witness :
  monotone (ticking 1700000000000)
  /\ reachable (engine := ascii_engine) (ticking 1700000000000) two_notes
  /\ In first_note (JsMap.values (notes two_notes))
  /\ exists created_at updated_at,
       Note.createdAt first_note = toISOString created_at
       /\ Note.updatedAt first_note = toISOString updated_at
       /\ created_at <= updated_at.
Proof.
  assert (H1 : monotone (ticking 1700000000000)) by apply ticking_monotone.
  assert (H2 : reachable (engine := ascii_engine) (ticking 1700000000000) two_notes)
    by (apply reach_call, reach_call, reach_start).
  assert (H3 : In first_note (JsMap.values (notes two_notes)))
    by (unfold JsMap.values; rewrite two_notes_holds; simpl; tauto).
  split; [exact H1|]. split; [exact H2|]. split; [exact H3|].
  exact (created_no_later_than_updated (engine := ascii_engine) _ _ H1 H2 _ H3).
Defined.

Lemma fresh_id {engine : Engine} (clk : nat -> Z) (w : World) :
  strictly_increasing clk -> reachable clk w ->
  ~ In (pretty (clk (reads w))) (JsMap.keys (notes w)).
Proof.
  intros Hstrict Hreach Hin.
  destruct (reachable_stamped clk w Hreach) as [_ [_ Hnotes]].
  unfold JsMap.keys in Hin. apply in_map_iff in Hin as [[k n] [Hk Hin]].
  simpl in Hk. subst k.
  destruct (Hnotes _ _ Hin) as [_ [i0 [i [j [Hij [Hj [Hk _]]]]]]].
  apply (inj pretty) in Hk.
  assert (clk i0 < clk (reads w)) by (apply Hstrict; lia). lia.
Qed.

Lemma reachable_clock {engine : Engine} (clk : nat -> Z) (w : World) :
  reachable clk w -> clock w = clk.
Proof. intros H. now destruct (reachable_stamped clk w H). Qed.

(** X10.  While the clock moves forward between readings, [create_note]
    adds its Note at the end of the collection and leaves every earlier
    entry where and as it was. *)
Theorem create_note_appends {engine : Engine}
    (clk : nat -> Z) (w : World) (args : option Obj) :
  strictly_increasing clk ->
  reachable clk w ->
  notes (snd (call_tool "create_note" args w))
  = notes w ++ [(pretty (clk (reads w)), created args w)].
Proof.
  intros Hstrict Hreach. unfold call_tool.
  change (tool_body "create_note" args w) with (create_note args w).
  rewrite create_note_run. simpl.
  rewrite (reachable_clock clk w Hreach).
  apply JsMapFacts.set_absent. now apply fresh_id.
Qed.

Lemma ticking_strictly_increasing (t0 : Z) : strictly_increasing (ticking t0).
Proof. intros i j Hij. unfold ticking. lia. Qed.

Lemma create_note_appends_witness :
  strictly_increasing (ticking 1700000000000)
  /\ reachable (engine := ascii_engine) (ticking 1700000000000) after_create
  /\ notes (snd (call_tool (engine := ascii_engine) "create_note"
                   (create_args "B" "y" ["t2"]) after_create))
     = notes after_create
       ++ [(pretty (ticking 1700000000000 (reads after_create)),
            created (create_args "B" "y" ["t2"]) after_create)].
Proof.
  assert (H1 : strictly_increasing (ticking 1700000000000))
    by apply ticking_strictly_increasing.
  assert (H2 : reachable (engine := ascii_engine) (ticking 1700000000000) after_create)
    by (apply reach_call, reach_start).
  split; [exact H1|]. split; [exact H2|].
  exact (create_note_appends (engine := ascii_engine) _ _ _ H1 H2).
Defined.

Lemma get_split {V} (k : string) (v : V) (m : list (string * V)) :
  JsMap.get k m = Some v ->
  exists before after,
    m = before ++ (k, v) :: after /\ ~ In k (JsMap.keys before).
Proof.
  induction m as [|[k' v'] m IH]; simpl; [discriminate|].
  destruct (String.eqb k' k) eqn:E.
  - apply String.eqb_eq in E. subst k'. intros [= ->].
    exists [], m. split; [reflexivity | intros []].
  - intros Hget. destruct (IH Hget) as [before [after [-> Hout]]].
    exists ((k', v') :: before), after. split; [reflexivity|].
    apply String.eqb_neq in E. simpl. intuition congruence.
Qed.

Lemma set_split {V} (k : string) (v v' : V) (before after : list (string * V)) :
  ~ In k (JsMap.keys before) ->
  JsMap.set k v' (before ++ (k, v) :: after) = before ++ (k, v') :: after.
Proof.
  induction before as [|[k0 v0] before IH]; simpl; intros Hout.
  - now rewrite String.eqb_refl.
  - destruct (String.eqb k0 k) eqn:E.
    + apply String.eqb_eq in E. subst k0. tauto.
    + f_equal. apply IH. tauto.
Qed.

Lemma delete_absent {V} (k : string) (m : list (string * V)) :
  ~ In k (JsMap.keys m) -> JsMap.delete k m = m.
Proof.
  unfold JsMap.delete, JsMap.keys.
  induction m as [|[k0 v0] m IH]; simpl; intros Hout; [reflexivity|].
  destruct (String.eqb k0 k) eqn:E; simpl.
  - apply String.eqb_eq in E. subst k0. tauto.
  - f_equal. apply IH. tauto.
Qed.

Lemma delete_split {V} (k : string) (v : V) (before after : list (string * V)) :
  ~ In k (JsMap.keys before) -> ~ In k (JsMap.keys after) ->
  JsMap.delete k (before ++ (k, v) :: after) = before ++ after.
Proof.
  intros Hb Ha. unfold JsMap.delete. rewrite List.filter_app. simpl.
  rewrite String.eqb_refl. simpl.
  fold (JsMap.delete k before). fold (JsMap.delete k after).
  now rewrite !delete_absent.
Qed.

(** X11.  [delete_note] on the id of a stored Note, in a world the process
    can reach, takes exactly that entry out of the collection: the entries
    before it and after it stay, in their order. *)
Theorem delete_note_removes_one {engine : Engine}
    (clk : nat -> Z) (w : World) (k : string) (note : Note.t) (args : option Obj) :
  reachable clk w ->
  JsMap.get k (notes w) = Some note ->
  opt_get args "id" = JStr k ->
  exists before after,
    notes w = before ++ (k, note) :: after
    /\ call_tool "delete_note" args w
       = (text_result ("Note " +:+ k +:+ " deleted successfully"),
          mkWorld (before ++ after) (clock w) (reads w))
    /\ JsMap.get k (before ++ after) = None.
Proof.
  intros Hreach Hget Hid.
  destruct (get_split k note (notes w) Hget) as [before [after [Hsplit Hb]]].
  destruct (reachable_stamped clk w Hreach) as [_ [Hnd _]].
  assert (Ha : ~ In k (JsMap.keys after)).
  { rewrite Hsplit in Hnd. unfold JsMap.keys in Hnd |- *.
    rewrite List.map_app in Hnd. simpl in Hnd.
    apply NoDup_app in Hnd as [_ [_ Hnd]]. apply NoDup_cons in Hnd as [Hout _].
    intros Hin. apply Hout. now apply list_elem_of_In. }
  exists before, after. split; [exact Hsplit|].
  assert (Hdel : JsMap.delete k (notes w) = before ++ after)
    by (rewrite Hsplit; now apply delete_split).
  split.
  - apply call_tool_returned.
    change (tool_body "delete_note" args w) with (delete_note args w).
    rewrite (delete_note_found args k note w Hid Hget). now rewrite Hdel.
  - rewrite <- Hdel. apply JsMapFacts.get_delete_eq.
Qed.

Lemma delete_note_removes_one_witness :
  let args := Some [("id", JStr "1700000000000")] in
  reachable (engine := ascii_engine) (ticking 1700000000000) two_notes
  /\ JsMap.get "1700000000000" (notes two_notes) = Some first_note
  /\ opt_get args "id" = JStr "1700000000000"
  /\ exists before after,
       notes two_notes = before ++ ("1700000000000", first_note) :: after
       /\ call_tool (engine := ascii_engine) "delete_note" args two_notes
          = (text_result "Note 1700000000000 deleted successfully",
             mkWorld (before ++ after) (clock two_notes) (reads two_notes))
       /\ JsMap.get "1700000000000" (before ++ after) = None.
Proof.
  intros args.
  assert (H1 : reachable (engine := ascii_engine) (ticking 1700000000000) two_notes)
    by (apply reach_call, reach_call, reach_start).
  assert (H2 : JsMap.get "1700000000000" (notes two_notes) = Some first_note)
    by (rewrite two_notes_holds; reflexivity).
  assert (H3 : opt_get args "id" = JStr "1700000000000") by reflexivity.
  split; [exact H1|]. split; [exact H2|]. split; [exact H3|].
  exact (delete_note_removes_one (engine := ascii_engine) _ _ _ _ _ H1 H2 H3).
Defined.

(** X12.  While the clock moves forward between readings, creating a Note
    and deleting it by the id that was reported gives back the collection
    as it was before. *)
Theorem create_then_delete_restores {engine : Engine}
    (clk : nat -> Z) (w : World) (args : option Obj) :
  strictly_increasing clk ->
  reachable clk w ->
  exists id w1 w2,
    call_tool "create_note" args w
      = (text_result ("Note created successfully with ID: " +:+ id), w1)
    /\ call_tool "delete_note" (Some [("id", JStr id)]) w1
       = (text_result ("Note " +:+ id +:+ " deleted successfully"), w2)
    /\ notes w2 = notes w.
Proof.
  intros Hstrict Hreach.
  pose proof (fresh_id clk w Hstrict Hreach) as Hfresh.
  rewrite <- (reachable_clock clk w Hreach) in Hfresh.
  set (id := pretty (clock w (reads w))) in *.
  exists id. do 2 eexists. split.
  { apply call_tool_returned. apply create_note_run. }
  split.
  { apply call_tool_returned.
    change (tool_body "delete_note" ?a ?x) with (delete_note a x).
    apply delete_note_found with (note := created args w); [reflexivity|].
    apply JsMapFacts.get_set_eq. }
  simpl. fold id. rewrite JsMapFacts.set_absent by assumption.
  rewrite <- (app_nil_r (notes w)) at 2.
  apply delete_split; [assumption | intros []].
Qed.

Lemma create_then_delete_restores_witness :
  strictly_increasing (ticking 1700000000000)
  /\ reachable (engine := ascii_engine) (ticking 1700000000000) two_notes
  /\ exists id w1 w2,
       call_tool (engine := ascii_engine) "create_note" (create_args "C" "z" []) two_notes
         = (text_result ("Note created successfully with ID: " +:+ id), w1)
       /\ call_tool (engine := ascii_engine) "delete_note" (Some [("id", JStr id)]) w1
          = (text_result ("Note " +:+ id +:+ " deleted successfully"), w2)
       /\ notes w2 = notes two_notes.
Proof.
  assert (H1 : strictly_increasing (ticking 1700000000000))
    by apply ticking_strictly_increasing.
  assert (H2 : reachable (engine := ascii_engine) (ticking 1700000000000) two_notes)
    by (apply reach_call, reach_call, reach_start).
  split; [exact H1|]. split; [exact H2|].
  exact (create_then_delete_restores (engine := ascii_engine) _ _ _ H1 H2).
Defined.

(** X13.  [update_note] on the id of a stored Note rewrites that entry where
    it stands, and a [get_note] on the id right after returns the Note as
    updated. *)
Theorem update_then_get {engine : Engine}
    (w : World) (k : string) (note : Note.t) (args : option Obj) :
  JsMap.get k (notes w) = Some note ->
  opt_get args "id" = JStr k ->
  exists before after w1,
    notes w = before ++ (k, note) :: after
    /\ call_tool "update_note" args w
       = (text_result ("Note " +:+ k +:+ " updated successfully"), w1)
    /\ notes w1 = before ++ (k, updated args w note) :: after
    /\ call_tool "get_note" (Some [("id", JStr k)]) w1
       = (text_result (JSON_stringify (Note.to_js (updated args w note))), w1)
    /\ fst (call_tool "update_note" args w)
       = {| Tool.content :=
              [{| type := "text"; text := "Note " +:+ k +:+ " updated successfully" |}];
            Tool.isError := None |}
    /\ fst (call_tool "get_note" (Some [("id", JStr k)]) w1)
       = {| Tool.content :=
              [{| type := "text";
                  text := JSON_stringify
                    (JObj [("id", JStr (Note.id note));
                           ("title", if truthy (opt_get args "title")
                                     then opt_get args "title" else Note.title note);
                           ("content", if truthy (opt_get args "content")
                                       then opt_get args "content" else Note.content note);
                           ("tags", if truthy (opt_get args "tags")
                                    then opt_get args "tags" else Note.tags note);
                           ("createdAt", JStr (Note.createdAt note));
                           ("updatedAt", JStr (toISOString (clock w (reads w))))]) |}];
            Tool.isError := None |}.
Proof.
  intros Hget Hid.
  destruct (get_split k note (notes w) Hget) as [before [after [Hsplit Hb]]].
  assert (Hupdate : call_tool "update_note" args w
                    = (text_result ("Note " +:+ k +:+ " updated successfully"),
                       mkWorld (JsMap.set k (updated args w note) (notes w))
                         (clock w) (S (reads w)))).
  { apply call_tool_returned.
    change (tool_body "update_note" args w) with (update_note args w).
    exact (update_note_found args k note w Hid Hget). }
  assert (Hread : call_tool "get_note" (Some [("id", JStr k)])
                    (mkWorld (JsMap.set k (updated args w note) (notes w))
                       (clock w) (S (reads w)))
                  = (text_result (JSON_stringify (Note.to_js (updated args w note))),
                     mkWorld (JsMap.set k (updated args w note) (notes w))
                       (clock w) (S (reads w)))).
  { apply call_tool_returned.
    change (tool_body "get_note" ?a ?x) with (get_note a x).
    apply get_note_found with (k := k); [reflexivity|].
    apply JsMapFacts.get_set_eq. }
  exists before, after. eexists. split; [exact Hsplit|]. split; [exact Hupdate|].
  split; [simpl; rewrite Hsplit; now apply set_split|].
  split; [exact Hread|].
  rewrite Hupdate, Hread. split; reflexivity.
Qed.

Lemma update_then_get_witness :
  let args := Some [("id", JStr "1700000000003"); ("title", JStr "B2")] in
  JsMap.get "1700000000003" (notes two_notes) = Some second_note
  /\ opt_get args "id" = JStr "1700000000003"
  /\ exists before after w1,
       notes two_notes = before ++ ("1700000000003", second_note) :: after
       /\ call_tool (engine := ascii_engine) "update_note" args two_notes
          = (text_result "Note 1700000000003 updated successfully", w1)
       /\ notes w1 = before ++ ("1700000000003", updated args two_notes second_note) :: after
       /\ call_tool (engine := ascii_engine) "get_note"
            (Some [("id", JStr "1700000000003")]) w1
          = (text_result (JSON_stringify
               (Note.to_js (updated args two_notes second_note))), w1)
       /\ fst (call_tool (engine := ascii_engine) "update_note" args two_notes)
          = {| Tool.content :=
                 [{| type := "text";
                     text := "Note 1700000000003 updated successfully" |}];
               Tool.isError := None |}
       /\ fst (call_tool (engine := ascii_engine) "get_note"
                 (Some [("id", JStr "1700000000003")]) w1)
          = {| Tool.content :=
                 [{| type := "text";
                     text := JSON_stringify
                       (JObj [("id", JStr "1700000000003");
                              ("title", JStr "B2");
                              ("content", JStr "y");
                              ("tags", JArr [JStr "t2"]);
                              ("createdAt", JStr "2023-11-14T22:13:20.004Z");
                              ("updatedAt", JStr "2023-11-14T22:13:20.006Z")]) |}];
               Tool.isError := None |}.
Proof.
  intros args.
  assert (H1 : JsMap.get "1700000000003" (notes two_notes) = Some second_note)
    by (rewrite two_notes_holds; reflexivity).
  assert (H2 : opt_get args "id" = JStr "1700000000003") by reflexivity.
  split; [exact H1|]. split; [exact H2|].
  exact (update_then_get (engine := ascii_engine) _ _ _ _ H1 H2).
Defined.

(** ** The views and the prompts *)

Lemma map_o_total {A B} (f : A -> Outcome B) (g : A -> B) (xs : list A) :
  (forall x, In x xs -> f x = Returned (g x)) ->
  map_o f xs = Returned (List.map g xs).
Proof.
  induction xs as [|x xs IH]; intros Hf; simpl; [reflexivity|].
  rewrite (Hf x) by now left. simpl.
  now rewrite IH by (intros; apply Hf; now right).
Qed.

Lemma tag_filter_typed (T : string) (ns : list Note.t) :
  (forall n, In n ns -> exists xs, Note.tags n = JArr xs) ->
  filter_o (fun note => call_includes (Note.tags note) (JStr T)) ns
  = Returned (List.filter (has_tag_b T) ns).
Proof.
  intros Harr. apply filter_o_total. intros n Hn.
  destruct (Harr n Hn) as [xs Hxs]. unfold has_tag_b. now rewrite Hxs.
Qed.

Lemma tag_strings_typed (n : Note.t) (ts : list string) :
  Note.tags n = JArr (List.map JStr ts) -> tag_strings n = ts.
Proof.
  intros H. unfold tag_strings. rewrite H. clear.
  induction ts as [|t ts IH]; simpl; [reflexivity | now f_equal].
Qed.

Lemma well_typed_note (w : World) (n : Note.t) :
  well_typed w -> In n (JsMap.values (notes w)) ->
  exists t c ts,
    Note.title n = JStr t /\ Note.content n = JStr c
    /\ Note.tags n = JArr (List.map JStr ts).
Proof.
  intros [Htext Htags] Hn.
  destruct (Htext n Hn) as [t [c [Ht Hc]]]. destruct (Htags n Hn) as [ts Hts].
  now exists t, c, ts.
Qed.

Lemma summarize_line_typed (n : Note.t) (t c : string) :
  Note.title n = JStr t -> Note.content n = JStr c ->
  summarize_line n = Returned (note_line n).
Proof. intros Ht Hc. unfold summarize_line, note_line. now rewrite Ht, Hc. Qed.

Lemma organize_block_typed (n : Note.t) (t c : string) (ts : list string) :
  Note.title n = JStr t -> Note.content n = JStr c ->
  Note.tags n = JArr (List.map JStr ts) ->
  organize_block n = Returned (note_block n).
Proof.
  intros Ht Hc Hg. unfold organize_block, note_block.
  rewrite (tag_strings_typed n ts Hg), Ht, Hc, Hg. simpl.
  now rewrite arr_join_strings.
Qed.

(** X14.  The view [notes://all] and [list_notes] without a tag (or with a
    falsy one) give the same text, in every world. *)
Theorem all_view_is_unfiltered_list {engine : Engine} (args : option Obj) (w : World) :
  truthy (opt_get args "tag") = false ->
  exists listing,
    call_tool "list_notes" args w = (text_result listing, w)
    /\ read_resource "notes://all" w = Returned (all_contents listing).
Proof.
  intros Htag. eexists. split; [|reflexivity].
  apply call_tool_returned.
  change (tool_body "list_notes" args w) with (list_notes args w).
  unfold list_notes, bind, get_notes, ret. now rewrite Htag.
Qed.

Lemma all_view_is_unfiltered_list_witness :
  truthy (opt_get None "tag") = false
  /\ exists listing,
       call_tool (engine := ascii_engine) "list_notes" None two_notes
         = (text_result listing, two_notes)
       /\ read_resource "notes://all" two_notes = Returned (all_contents listing).
Proof.
  split; [reflexivity|].
  exact (all_view_is_unfiltered_list (engine := ascii_engine) None two_notes eq_refl).
Defined.

(** X15.  Reading a listed resource: what is returned is one item that
    carries the uri asked for and the MIME type the list announces;
    [notes://all] cannot fail; [notes://summary] fails only with the
    engine's [TypeError] for a tag that has no string form, and never when
    the tags of the Notes are arrays of strings. *)
Theorem listed_resources_readable (r : ResourceInfo.t) (w : World) :
  In r list_resources ->
  (forall res, read_resource (ResourceInfo.uri r) w = Returned res ->
     exists s, res = {| Resource.contents :=
                         [{| Resource.uri := ResourceInfo.uri r;
                             Resource.mimeType := ResourceInfo.mimeType r;
                             Resource.text := s |}] |})
  /\ (forall e, read_resource (ResourceInfo.uri r) w = Thrown e ->
        ResourceInfo.uri r = "notes://summary" /\ e = TypeError NoPrimitiveValue)
  /\ (tags_are_string_arrays w ->
      exists res, read_resource (ResourceInfo.uri r) w = Returned res).
Proof.
  intros Hr. split; [|split].
  - intros res. simpl in Hr. destruct Hr as [<-|[<-|[]]]; simpl.
    + intros [= <-]. eauto.
    + unfold read_resource. simpl.
      destruct (summary_text w); simpl; [|discriminate]. intros [= <-]. eauto.
  - intros e He.
    destruct (read_resource_thrown_cases _ _ _ He) as [H|[Hout _]]; [exact H|].
    exfalso. apply Hout. rewrite resource_uris_listed.
    apply in_map_iff. now exists r.
  - intros Hty. simpl in Hr. destruct Hr as [<-|[<-|[]]]; simpl.
    + eexists. reflexivity.
    + unfold read_resource. simpl. rewrite (summary_text_run w Hty). simpl. eauto.
Qed.

Lemma listed_resources_readable_witness :
  let r := {| ResourceInfo.uri := "notes://summary";
              ResourceInfo.mimeType := "text/plain";
              ResourceInfo.name := "Notes Summary";
              ResourceInfo.description := "A summary of notes with statistics" |} in
  In r list_resources
  /\ tags_are_string_arrays two_notes
  /\ exists res, read_resource "notes://summary" two_notes = Returned res.
Proof.
  intros r.
  assert (H1 : In r list_resources) by (simpl; tauto).
  assert (H2 : tags_are_string_arrays two_notes).
  { intros n Hn. unfold JsMap.values in Hn. rewrite two_notes_holds in Hn.
    destruct Hn as [<-|[<-|[]]]; [exists ["t1"] | exists ["t2"]]; reflexivity. }
  split; [exact H1|]. split; [exact H2|].
  exact (proj2 (proj2 (listed_resources_readable r two_notes H1)) H2).
Defined.

(** X16.  [summarize_notes] on Notes of the declared types: with a non-empty
    tag it lists, one line "- title: content" each, exactly the Notes that
    [list_notes] returns for that tag, under a heading that names the tag;
    with no tag (or an empty one) it lists all Notes.  When nothing matches
    the heading stands alone: there is no error. *)
Theorem summarize_notes_prompt {engine : Engine} (args : option Obj) (w : World) :
  well_typed w ->
  (forall T, opt_get args "tag" = JStr T -> T <> "" ->
     let chosen := List.filter (has_tag_b T) (JsMap.values (notes w)) in
     get_prompt "summarize_notes" args w
     = Returned (user_message
         (summarize_text (" tagged with " +:+ dquote +:+ T +:+ dquote) chosen))
     /\ call_tool "list_notes" args w
        = (text_result (JSON_stringify (JArr (List.map Note.to_js chosen))), w))
  /\ (truthy (opt_get args "tag") = false ->
      get_prompt "summarize_notes" args w
      = Returned (user_message (summarize_text "" (JsMap.values (notes w))))).
Proof.
  intros Hty.
  assert (Hlines : forall ns, (forall n, In n ns -> In n (JsMap.values (notes w))) ->
                     map_o summarize_line ns = Returned (List.map note_line ns)).
  { intros ns Hsub. apply map_o_total. intros n Hn.
    destruct (well_typed_note w n Hty (Hsub n Hn)) as [t [c [ts [Ht [Hc _]]]]].
    now apply summarize_line_typed with (t := t) (c := c). }
  assert (Harr : forall n, In n (JsMap.values (notes w)) -> exists xs, Note.tags n = JArr xs).
  { intros n Hn. destruct (well_typed_note w n Hty Hn) as [t [c [ts [_ [_ Hg]]]]]. eauto. }
  split.
  - intros T HT Hne chosen.
    assert (Htruthy : truthy (JStr T) = true).
    { simpl. apply negb_true_iff. now apply String.eqb_neq. }
    split.
    + unfold get_prompt. simpl String.eqb. cbv iota zeta.
      rewrite HT, Htruthy, (tag_filter_typed T _ Harr). simpl obind.
      rewrite Hlines by (intros n Hn; now apply filter_In in Hn as [Hn _]).
      reflexivity.
    + apply call_tool_returned.
      change (tool_body "list_notes" args w) with (list_notes args w).
      unfold list_notes, bind, get_notes, ret, lift. cbv zeta.
      now rewrite HT, Htruthy, (tag_filter_typed T _ Harr).
  - intros Hfalsy. unfold get_prompt. simpl String.eqb. cbv iota zeta.
    rewrite Hfalsy. simpl obind. now rewrite Hlines by auto.
Qed.

Lemma summarize_notes_prompt_witness :
  let args := Some [("tag", JStr "t2")] in
  well_typed two_notes
  /\ opt_get args "tag" = JStr "t2"
  /\ "t2" <> ""
  /\ get_prompt "summarize_notes" args two_notes
     = Returned (user_message
         ("Please summarize the following notes tagged with " +:+ dquote +:+ "t2"
          +:+ dquote +:+ ":" +:+ nl +:+ nl +:+ "- B: y")).
Proof.
  intros args.
  assert (H1 : well_typed two_notes).
  { split; intros n Hn; unfold JsMap.values in Hn; rewrite two_notes_holds in Hn;
      destruct Hn as [<-|[<-|[]]].
    - now exists "A", "x".
    - now exists "B", "y".
    - now exists ["t1"].
    - now exists ["t2"]. }
  assert (H2 : opt_get args "tag" = JStr "t2") by reflexivity.
  assert (H3 : "t2" <> "") by discriminate.
  split; [exact H1|]. split; [exact H2|]. split; [exact H3|].
  exact (proj1 (proj1 (summarize_notes_prompt (engine := ascii_engine) args two_notes H1)
                  "t2" H2 H3)).
Defined.

(** X17.  [organize_notes] on Notes of the declared types returns, whatever
    arguments come with the request, one block per Note -- id, title,
    content and the tags joined by [", "] -- separated by "---" lines,
    between the fixed opening and closing texts; with no Notes the two
    texts follow each other and nothing fails. *)
Theorem organize_notes_prompt (args : option Obj) (w : World) :
  well_typed w ->
  get_prompt "organize_notes" args w
  = Returned (user_message (organize_text (JsMap.values (notes w)))).
Proof.
  intros Hty. unfold get_prompt. simpl String.eqb. cbv iota zeta.
  rewrite (map_o_total organize_block note_block); [reflexivity|].
  intros n Hn. destruct (well_typed_note w n Hty Hn) as [t [c [ts [Ht [Hc Hg]]]]].
  now apply organize_block_typed with (t := t) (c := c) (ts := ts).
Qed.

Lemma organize_notes_prompt_witness :
  well_typed two_notes
  /\ get_prompt "organize_notes" (Some [("tag", JStr "t1")]) two_notes
     = Returned
         {| Prompt.messages :=
              [{| Prompt.role := "user";
                  Prompt.content :=
                    {| type := "text";
                       text :=
                         "Here are all my notes:" +:+ nl +:+ nl
                         +:+ "ID: 1700000000000" +:+ nl
                         +:+ "Title: A" +:+ nl
                         +:+ "Content: x" +:+ nl
                         +:+ "Tags: t1" +:+ nl
                         +:+ nl +:+ "---" +:+ nl
                         +:+ "ID: 1700000000003" +:+ nl
                         +:+ "Title: B" +:+ nl
                         +:+ "Content: y" +:+ nl
                         +:+ "Tags: t2" +:+ nl
                         +:+ nl +:+ nl
                         +:+ "Please suggest:" +:+ nl
                         +:+ "1. Better tags for organization" +:+ nl
                         +:+ "2. Notes that could be merged" +:+ nl
                         +:+ "3. Missing categories or topics" |} |}] |}.
Proof.
  assert (H : well_typed two_notes).
  { split; intros n Hn; unfold JsMap.values in Hn; rewrite two_notes_holds in Hn;
      destruct Hn as [<-|[<-|[]]].
    - now exists "A", "x".
    - now exists "B", "y".
    - now exists ["t1"].
    - now exists ["t2"]. }
  split; [exact H|].
  exact (organize_notes_prompt (Some [("tag", JStr "t1")]) two_notes H).
Defined.

(** X18.  Whatever a prompt request returns is one message, of role "user",
    holding one text; and what it throws on a listed prompt is an engine
    [TypeError], which only Notes or a tag of undeclared types can cause. *)
Theorem prompt_result_shape (name : string) (args : option Obj) (w : World) :
  (forall res, get_prompt name args w = Returned res -> exists s, res = user_message s)
  /\ (forall e, get_prompt name args w = Thrown e ->
        In name (List.map PromptInfo.name list_prompts) ->
        exists f, e = TypeError f).
Proof.
  split.
  - intros res. unfold get_prompt.
    destruct (String.eqb name "summarize_notes").
    { cbv zeta.
      destruct (if truthy (opt_get args "tag") then _ else _) as [ns|]; simpl;
        [|discriminate].
      destruct (map_o summarize_line ns); simpl; [|discriminate].
      destruct (if truthy (opt_get args "tag") then _ else _) as [tagged|]; simpl;
        [|discriminate].
      intros [= <-]. eauto. }
    destruct (String.eqb name "organize_notes"); [|discriminate].
    cbv zeta. destruct (map_o organize_block _); simpl; [|discriminate].
    intros [= <-]. eauto.
  - intros e He Hin.
    destruct (get_prompt_thrown_cases _ _ _ _ He) as [[_ H]|[Hout _]]; [exact H|].
    exfalso. apply Hout. now rewrite prompt_names_listed.
Qed.

(** ** Sessions *)



(** X20.  As long as every request has obeyed the input schemas, the stored
    Notes have the declared types, and then no listing by a string tag and
    no search for a string fails. *)
Theorem typed_requests_keep_reads_working {engine : Engine}
    (clk : nat -> Z) (w : World) (args : option Obj) :
  served clk w ->
  well_typed w
  /\ (forall T, opt_get args "tag" = JStr T ->
        exists listing, call_tool "list_notes" args w = (text_result listing, w))
  /\ (forall Q, opt_get args "query" = JStr Q ->
        exists found, call_tool "search_notes" args w = (text_result found, w)).
Proof.
  intros Hserved. pose proof (served_well_typed clk w Hserved) as Hty.
  split; [exact Hty|]. split.
  - intros T HT.
    assert (Harr : forall n, In n (JsMap.values (notes w)) ->
                     exists xs, Note.tags n = JArr xs).
    { intros n Hn. destruct (well_typed_note w n Hty Hn) as [t [c [ts [_ [_ Hg]]]]].
      eauto. }
    destruct (truthy (JStr T)) eqn:Etag; eexists; apply call_tool_returned;
      change (tool_body "list_notes" args w) with (list_notes args w);
      unfold list_notes, bind, get_notes, ret, lift; cbv zeta; rewrite HT, Etag;
      [rewrite (tag_filter_typed T _ Harr)|]; reflexivity.
  - intros Q HQ. eexists. apply call_tool_returned.
    change (tool_body "search_notes" args w) with (search_notes args w).
    unfold search_notes, bind, get_notes, ret, lift. rewrite HQ.
    cbv beta iota zeta delta [call_toLowerCase].
    rewrite (filter_o_total _ (query_matches_b Q)); [reflexivity|].
    intros n Hn. destruct (well_typed_note w n Hty Hn) as [t [c [ts [Ht [Hc _]]]]].
    now apply matches_query_total with (t := t) (c := c).
Qed.

Lemma typed_requests_keep_reads_working_witness :
  served (engine := ascii_engine) (ticking 1700000000000) two_notes
  /\ well_typed two_notes.
Proof.
  assert (Hc : forall t c ts, conforms "create_note" (create_args t c ts)).
  { intros t c ts. split; [|discriminate].
    intros _. split; [now exists t|]. split; [now exists c|]. right. now exists ts. }
  assert (H : served (engine := ascii_engine) (ticking 1700000000000) two_notes).
  { apply (served_call (ticking 1700000000000) "create_note" (create_args "B" "y" ["t2"]));
      [|apply Hc].
    apply (served_call (ticking 1700000000000) "create_note" (create_args "A" "x" ["t1"]));
      [|apply Hc].
    apply served_start. }
  split; [exact H|].
  exact (proj1 (typed_requests_keep_reads_working (engine := ascii_engine)
                  _ _ None H)).
Defined.
